(** * Amazon review scraper: a shallow embedding of the review-extraction
      and pagination engine, with the properties of its specification.

    Sources embedded here: [amazon_scraper_gui.py] (class [AmazonScraperGUI])
    and [amazon_auto_login.py] (class [AmazonAutoLogin]).

    Conventions.
    - A Python [str] is a list of 8-bit characters ([pystr]); the character
      predicates below are Python's on that range.
    - A Python [float] is an IEEE binary64 value, kept as a dyadic number
      [m * 2^e]; conversions and products round to nearest, ties to even.
    - A call that may raise is a value of [exc]; [try: ... except: ...] is
      [try_catch].
    - What the browser driver answers is an input of the model: every
      function takes the answers it would read from the driver. *)

From Stdlib Require Import ZArith List String Ascii Bool Lia.
From Stdlib Require Import DecimalString.
From stdpp Require Import base decidable option list gmap strings.

Local Open Scope Z_scope.

(* ===================================================================== *)
(** ** Python strings *)
(* ===================================================================== *)

Module PyStr.

Definition pystr := list ascii.

(** A literal. *)
Definition py (s : string) : pystr := list_ascii_of_string s.

Definition code (c : ascii) : N := N_of_ascii c.

Definition in_range (lo hi : N) (c : ascii) : bool :=
  (N.leb lo (code c) && N.leb (code c) hi)%bool.

(** [re]'s [\d] and [str.isdecimal] on one character: 0-9. *)
Definition is_digit (c : ascii) : bool := in_range 48 57 c.

Definition is_ascii_upper (c : ascii) : bool := in_range 65 90 c.
Definition is_ascii_lower (c : ascii) : bool := in_range 97 122 c.
Definition is_ascii_alnum (c : ascii) : bool :=
  (is_digit c || is_ascii_upper c || is_ascii_lower c)%bool.

(** The character is in the 7-bit range. *)
Definition is_ascii7 (c : ascii) : bool := N.ltb (code c) 128.

(** [str.isspace] on one character, and [re]'s [\s]: tab, newline, vertical
    tab, form feed, carriage return, the four separators 0x1c-0x1f, space,
    and in the upper half NEL (0x85) and the no-break space (0xa0). *)
Definition is_space (c : ascii) : bool :=
  (in_range 9 13 c || in_range 28 32 c
   || N.eqb (code c) 133 || N.eqb (code c) 160)%bool.

(** [str.upper] and [str.lower]: the 7-bit letters change case. A
    character of the upper half never maps to a 7-bit one, so it is left
    as it is: no test against a 7-bit needle tells the difference. *)
Definition upper_char (c : ascii) : ascii :=
  if is_ascii_lower c then ascii_of_N (code c - 32) else c.
Definition lower_char (c : ascii) : ascii :=
  if is_ascii_upper c then ascii_of_N (code c + 32) else c.

Definition upper (s : pystr) : pystr := map upper_char s.
Definition lower (s : pystr) : pystr := map lower_char s.

Definition pystr_eqb (s t : pystr) : bool := bool_decide (s = t).

(** [s.startswith(p)] *)
Fixpoint startswith (p s : pystr) : bool :=
  match p, s with
  | [], _ => true
  | _ :: _, [] => false
  | a :: p', b :: s' => (bool_decide (a = b) && startswith p' s')%bool
  end.

(** [needle in hay] *)
Fixpoint contains (needle hay : pystr) : bool :=
  match hay with
  | [] => startswith needle []
  | _ :: hay' => (startswith needle hay || contains needle hay')%bool
  end.

(** [s.replace(c, '')] for a one-character [c]. *)
Definition remove_char (c : ascii) (s : pystr) : pystr :=
  filter (fun a => a <> c) s.

(** [s.lstrip()], [s.rstrip()], [s.strip()]. *)
Fixpoint lstrip (s : pystr) : pystr :=
  match s with
  | c :: s' => if is_space c then lstrip s' else s
  | [] => []
  end.
Definition rstrip (s : pystr) : pystr := rev (lstrip (rev s)).
Definition strip (s : pystr) : pystr := rstrip (lstrip s).

(** [s.isdigit()] on the 8-bit range: the decimal digits and the
    superscripts one, two, three; false on the empty string. *)
Definition is_digit_like (c : ascii) : bool :=
  (is_digit c || N.eqb (code c) 178 || N.eqb (code c) 179
   || N.eqb (code c) 185)%bool.
Definition isdigit (s : pystr) : bool :=
  (negb (bool_decide (s = [])) && forallb is_digit_like s)%bool.

(** Truthiness of a string. *)
Definition truthy (s : pystr) : bool := negb (bool_decide (s = [])).

(** [s[:n]] *)
Definition prefix (n : nat) (s : pystr) : pystr := take n s.

(** The longest leading run of characters satisfying [p], and the rest. *)
Fixpoint span (p : ascii -> bool) (s : pystr) : pystr * pystr :=
  match s with
  | c :: s' =>
      if p c then let '(a, b) := span p s' in (c :: a, b) else ([], s)
  | [] => ([], [])
  end.

(** Value of a run of decimal digits. *)
Definition digit_val (c : ascii) : Z := Z.of_N (code c) - 48.
Definition digits_val (ds : pystr) : Z :=
  fold_left (fun acc c => 10 * acc + digit_val c) ds 0.

(** [str(n)] for an integer. *)
Definition str_of_Z (n : Z) : pystr :=
  list_ascii_of_string (NilZero.string_of_int (Z.to_int n)).

End PyStr.
Export PyStr.

(* ===================================================================== *)
(** ** The decimal-number pattern of the extractors *)
(* ===================================================================== *)

Module Regex.

(** What [re.search] matched for the pattern of the extractors (one or
    more digits, an optional point, any digits): the integer digits,
    whether the point was taken, and the digits after it. *)
Record decimal_match := DecimalMatch {
  int_digits : pystr;
  has_point : bool;
  frac_digits : pystr
}.

(** The match anchored at a position that starts with a digit: the
    greedy run of digits, then the point when it is there, then the digits
    that follow. *)
Definition match_decimal_here (s : pystr) : option decimal_match :=
  let '(ds, rest) := span is_digit s in
  match ds with
  | [] => None
  | _ =>
      match rest with
      | c :: rest' =>
          if bool_decide (c = "."%char)
          then Some (DecimalMatch ds true (fst (span is_digit rest')))
          else Some (DecimalMatch ds false [])
      | [] => Some (DecimalMatch ds false [])
      end
  end.

(** [re.search]: the leftmost position where the pattern matches. *)
Fixpoint search_decimal (s : pystr) : option decimal_match :=
  match s with
  | [] => None
  | c :: s' =>
      match match_decimal_here s with
      | Some m => Some m
      | None => search_decimal s'
      end
  end.

(** [match.group(1)] as text. *)
Definition matched_text (m : decimal_match) : pystr :=
  int_digits m ++ (if has_point m then py "." else []) ++ frac_digits m.

(** [re.search] for one or more digits: the first run of digits. *)
Fixpoint search_digits (s : pystr) : option pystr :=
  match s with
  | [] => None
  | c :: s' =>
      if is_digit c then Some (fst (span is_digit s)) else search_digits s'
  end.

(** [re.search] for one or more digits or commas: the first such run. *)
Definition is_digit_or_comma (c : ascii) : bool :=
  (is_digit c || bool_decide (c = ","%char))%bool.
Fixpoint search_digits_commas (s : pystr) : option pystr :=
  match s with
  | [] => None
  | c :: s' =>
      if is_digit_or_comma c then Some (fst (span is_digit_or_comma s))
      else search_digits_commas s'
  end.

End Regex.
Export Regex.

(* ===================================================================== *)
(** ** Python floats (IEEE binary64, non-negative) *)
(* ===================================================================== *)

Module PyFloat.

(** [FFin m e] is the number [m * 2^e] with [0 <= m]; the extractors only
    build non-negative floats (the pattern has no sign). *)
Inductive pyfloat :=
  | FFin (m e : Z)
  | FInf
  | FNaN.

(** Dyadic numbers are kept with an odd mantissa (zero as [FFin 0 0]), so
    that equal numbers are equal terms. *)
Fixpoint strip_twos (fuel : nat) (m e : Z) : Z * Z :=
  match fuel with
  | O => (m, e)
  | S fuel' =>
      if Z.eqb m 0 then (0, 0)
      else if Z.even m then strip_twos fuel' (m / 2) (e + 1) else (m, e)
  end.

Definition normalise (m e : Z) : pyfloat :=
  let '(m', e') := strip_twos (S (Z.to_nat (Z.log2 m))) m e in FFin m' e'.

(** [p / q < 2^e], for [0 < q]. *)
Definition ratio_lt_pow2 (p q e : Z) : bool :=
  if Z.leb 0 e then Z.ltb p (q * 2 ^ e) else Z.ltb (p * 2 ^ (- e)) q.

(** [floor (log2 (p / q))], for [0 < p] and [0 < q]. *)
Definition ratio_log2 (p q : Z) : Z :=
  let e0 := Z.log2 p - Z.log2 q in
  if ratio_lt_pow2 p q e0 then e0 - 1 else e0.

(** Round an integer quotient to nearest, ties to even. *)
Definition div_nearest_even (num den : Z) : Z :=
  let q := num / den in
  let r := num mod den in
  match Z.compare (2 * r) den with
  | Lt => q
  | Gt => q + 1
  | Eq => if Z.even q then q else q + 1
  end.

(** The binary64 number nearest to [p / q] ([0 <= p], [0 < q]): 53
    significant bits, least exponent -1074 (subnormals), overflow to
    infinity from [2^1024]. *)
Definition round_ratio (p q : Z) : pyfloat :=
  if Z.leb p 0 then FFin 0 0
  else
    let ex := ratio_log2 p q in
    let eq := Z.max ex (-1022) - 52 in
    let m :=
      if Z.leb 0 eq then div_nearest_even p (q * 2 ^ eq)
      else div_nearest_even (p * 2 ^ (- eq)) q in
    if Z.ltb 971 eq then FInf
    else if (Z.eqb eq 971 && Z.eqb m (2 ^ 53))%bool then FInf
    else normalise m eq.

(** [float(n)] for a non-negative integer. *)
Definition float_of_Z (n : Z) : pyfloat := round_ratio n 1.

(** [float(text)] for a text matched by the decimal pattern: the digits
    [ip], then [fp] after the point. *)
Definition float_of_decimal (ip fp : pystr) : pyfloat :=
  round_ratio (digits_val (ip ++ fp)) (10 ^ Z.of_nat (length fp)).

Definition float_of_match (m : decimal_match) : pyfloat :=
  float_of_decimal (int_digits m) (frac_digits m).

(** [a * b]: the exact product, rounded. *)
Definition fmul (a b : pyfloat) : pyfloat :=
  match a, b with
  | FNaN, _ | _, FNaN => FNaN
  | FInf, FInf => FInf
  | FInf, FFin m _ | FFin m _, FInf => if Z.eqb m 0 then FNaN else FInf
  | FFin m1 e1, FFin m2 e2 =>
      let m := m1 * m2 in
      let e := e1 + e2 in
      if Z.leb 0 e then round_ratio (m * 2 ^ e) 1
      else round_ratio m (2 ^ (- e))
  end.

(** [int(x)]: truncation; raises on infinity and NaN. *)
Definition int_of_float (x : pyfloat) : option Z :=
  match x with
  | FFin m e => Some (if Z.leb 0 e then m * 2 ^ e else m / 2 ^ (- e))
  | FInf | FNaN => None
  end.

(** [n <= x] and [x <= n] for an integer [n]. *)
Definition int_le_float (n : Z) (x : pyfloat) : bool :=
  match x with
  | FFin m e =>
      if Z.leb 0 e then Z.leb n (m * 2 ^ e) else Z.leb (n * 2 ^ (- e)) m
  | FInf => true
  | FNaN => false
  end.
Definition float_le_int (x : pyfloat) (n : Z) : bool :=
  match x with
  | FFin m e =>
      if Z.leb 0 e then Z.leb (m * 2 ^ e) n else Z.leb m (n * 2 ^ (- e))
  | FInf | FNaN => false
  end.

(** The value of a finite float lies between two integers, as a
    proposition over exact arithmetic. *)
Definition float_between (lo hi : Z) (x : pyfloat) : Prop :=
  match x with
  | FFin m e =>
      if Z.leb 0 e then lo <= m * 2 ^ e <= hi
      else lo * 2 ^ (- e) <= m <= hi * 2 ^ (- e)
  | FInf | FNaN => False
  end.

End PyFloat.
Export PyFloat.

(* ===================================================================== *)
(** ** Calls that may raise *)
(* ===================================================================== *)

Module Exc.

(** The outcome of a call: a value, or an exception. *)
Inductive exc (A : Type) :=
  | Ok (a : A)
  | Raise.
Arguments Ok {A} a.
Arguments Raise {A}.

Definition exc_bind {A B} (x : exc A) (k : A -> exc B) : exc B :=
  match x with
  | Ok a => k a
  | Raise => Raise
  end.

(** [try: body  except: handler] *)
Definition try_catch {A} (body : exc A) (handler : A) : A :=
  match body with
  | Ok a => a
  | Raise => handler
  end.

(** [for x in xs: try: (v = f x; when found: break) except: continue]:
    the first [x] on which the body finds a value. *)
Fixpoint first_some {A B} (f : A -> option B) (xs : list A) : option B :=
  match xs with
  | [] => None
  | x :: xs' =>
      match f x with
      | Some b => Some b
      | None => first_some f xs'
      end
  end.

(** [a or b or ...] on strings and [None], followed by [if result:]: the
    first truthy operand, when there is one. *)
Fixpoint first_truthy (xs : list (option pystr)) : option pystr :=
  match xs with
  | [] => None
  | Some s :: xs' => if truthy s then Some s else first_truthy xs'
  | None :: xs' => first_truthy xs'
  end.

End Exc.
Export Exc.

(* ===================================================================== *)
(** ** Field extractors: rating and review count *)
(* ===================================================================== *)

Module FieldExtractor.

(** What the driver answers for an element found by a selector:
    [get_attribute('aria-label')], [.text], [get_attribute('innerHTML')].
    [Raise] stands for [find_element] (or a later read) raising, which
    every extractor below answers with [continue]. *)
Record elem_view := ElemView {
  ev_aria_label : option pystr;
  ev_text : pystr;
  ev_inner_html : option pystr
}.

Section WithRepr.

(** [str(x)] for a float: Python's shortest round-trip text. *)
Variable str_float : pyfloat -> pystr.

(** The body of the loop of [_extract_product_rating] on one selector. *)
Definition product_rating_of_text (rating_text : pystr) : option pyfloat :=
  match search_decimal rating_text with
  | Some m =>
      let rating_value := float_of_match m in
      if (int_le_float 1 rating_value && float_le_int rating_value 5)%bool
      then Some rating_value
      else None
  | None => None
  end.

Definition product_rating_step (probe : exc elem_view) : option pyfloat :=
  match probe with
  | Raise => None
  | Ok e =>
      match first_truthy
              [ev_aria_label e; Some (ev_text e); ev_inner_html e] with
      | Some rating_text => product_rating_of_text rating_text
      | None => None
      end
  end.

(** [_extract_product_rating]: [probes] holds the driver's answer for each
    selector of [PRODUCT_RATING_SELECTORS], in order. The result is the
    value accepted for [product_info['rating']], [None] when the note
    "Rating not found with any selector" is recorded instead. *)
Definition _extract_product_rating_value (probes : list (exc elem_view))
  : option pyfloat :=
  first_some product_rating_step probes.

Definition _extract_product_rating (probes : list (exc elem_view))
  : option pystr :=
  str_float <$> _extract_product_rating_value probes.

(** The rating loop of [extract_review_data]: [probes] holds, for each of
    the four rating selectors, the [.text] of the element found. *)
Definition review_rating_step (probe : exc pystr) : option pyfloat :=
  match probe with
  | Raise => None
  | Ok t =>
      let rating_text := strip t in
      if truthy rating_text
      then float_of_match <$> search_decimal rating_text
      else None
  end.

Definition review_rating (probes : list (exc pystr)) : option pyfloat :=
  first_some review_rating_step probes.

End WithRepr.

(** [str(int(num * factor))]; [None] when [int] raises. *)
Definition scaled_count (num : pyfloat) (factor : Z) : option pystr :=
  str_of_Z <$> int_of_float (fmul num (float_of_Z factor)).

(** The body of the loop of [_extract_product_reviews_count] on a truthy
    [review_text]: [Some c] when [product_info['reviews_count']] is set to
    [c], [None] when the loop goes on to the next selector. *)
Definition product_count_of_text (review_text : pystr) : option pystr :=
  let review_text :=
    remove_char " "%char (remove_char ","%char review_text) in
  if contains (py "K") (upper review_text) then
    match search_decimal review_text with
    | Some m => scaled_count (float_of_match m) 1000
    | None => None
    end
  else if contains (py "M") (upper review_text) then
    match search_decimal review_text with
    | Some m => scaled_count (float_of_match m) 1000000
    | None => None
    end
  else
    match search_digits review_text with
    | Some reviews_count =>
        if Z.ltb 0 (digits_val reviews_count) then Some reviews_count
        else None
    | None => None
    end.

Definition product_count_step (probe : exc elem_view) : option pystr :=
  match probe with
  | Raise => None
  | Ok e =>
      match first_truthy [ev_aria_label e; Some (ev_text e)] with
      | Some review_text => product_count_of_text review_text
      | None => None
      end
  end.

(** [_extract_product_reviews_count], over the answers for
    [PRODUCT_REVIEW_COUNT_SELECTORS]. *)
Definition _extract_product_reviews_count (probes : list (exc elem_view))
  : option pystr :=
  first_some product_count_step probes.

(** The review-count loop of [search_amazon_products] on one selector:
    first the [aria-label] when it mentions ratings, then the text. *)
Definition search_count_of_aria (aria_label : pystr) : option pystr :=
  if contains (py "ratings") aria_label then
    match search_digits_commas aria_label with
    | Some g =>
        let reviews_count := remove_char ","%char g in
        if isdigit reviews_count then Some reviews_count else None
    | None => None
    end
  else None.

Definition unparenthesise (t : pystr) : pystr :=
  if (startswith (py "(") t && startswith (py ")") (rev t))%bool
  then removelast (tail t) else t.

Definition search_count_of_text (reviews_text : pystr) : option pystr :=
  let reviews_text := unparenthesise reviews_text in
  if contains (py "K") reviews_text then
    match search_decimal reviews_text with
    | Some m => scaled_count (float_of_match m) 1000
    | None => None
    end
  else if contains (py "M") reviews_text then
    match search_decimal reviews_text with
    | Some m => scaled_count (float_of_match m) 1000000
    | None => None
    end
  else if isdigit reviews_text then Some reviews_text
  else None.

Definition search_count_step (probe : exc elem_view) : option pystr :=
  match probe with
  | Raise => None
  | Ok e =>
      let from_aria :=
        match ev_aria_label e with
        | Some a => if truthy a then search_count_of_aria a else None
        | None => None
        end in
      match from_aria with
      | Some c => Some c
      | None =>
          let reviews_text := strip (ev_text e) in
          if truthy reviews_text then search_count_of_text reviews_text
          else None
      end
  end.

(** The count stored for a search result: "0" when no selector gives one. *)
Definition search_reviews_count (probes : list (exc elem_view)) : pystr :=
  default (py "0") (first_some search_count_step probes).

End FieldExtractor.
Export FieldExtractor.

(* ===================================================================== *)
(** ** Review records: [extract_review_data] *)
(* ===================================================================== *)

Module ReviewData.

(** [re.sub] of the star prefix of a review title: digits, an optional
    point, digits, white space, "out of ", digits, " stars", white space,
    anchored at the start. Every quantifier is followed by a character it
    cannot take, so the greedy reading is the only match. *)
Definition strip_star_prefix (title : pystr) : pystr :=
  let '(d1, r1) := span is_digit title in
  let r2 :=
    match r1 with
    | c :: r => if bool_decide (c = "."%char) then r else r1
    | [] => r1
    end in
  let r3 := snd (span is_digit r2) in
  let '(ws, r4) := span is_space r3 in
  let r5 := drop 7 r4 in
  let '(d2, r6) := span is_digit r5 in
  if (truthy d1 && truthy ws && startswith (py "out of ") r4
      && truthy d2 && startswith (py " stars") r6)%bool
  then snd (span is_space (drop 6 r6))
  else title.

(** [re.sub] of every run of white space by one space. *)
Fixpoint collapse_ws_from (in_run : bool) (s : pystr) : pystr :=
  match s with
  | [] => []
  | c :: s' =>
      if is_space c
      then (if in_run then collapse_ws_from true s'
            else " "%char :: collapse_ws_from true s')
      else c :: collapse_ws_from false s'
  end.
Definition collapse_ws (s : pystr) : pystr := collapse_ws_from false s.

Definition newline : ascii := ascii_of_N 10.

(** [s.split(newline)] *)
Fixpoint split_lines (s : pystr) : list pystr :=
  match s with
  | [] => [[]]
  | c :: s' =>
      if bool_decide (c = newline) then [] :: split_lines s'
      else
        match split_lines s' with
        | l :: ls => (c :: l) :: ls
        | [] => [[c]]
        end
  end.

(** [max(lines, key=len)]: the first line of greatest length. *)
Fixpoint max_by_len (best : pystr) (ls : list pystr) : pystr :=
  match ls with
  | [] => best
  | l :: ls' =>
      if Nat.ltb (length best) (length l) then max_by_len l ls'
      else max_by_len best ls'
  end.
Definition longest_line (ls : list pystr) : pystr :=
  match ls with
  | [] => []
  | l :: ls' => max_by_len l ls'
  end.

(** What the driver answers about one review element: the [.text] of the
    element found by each rating, title and body selector, the element's
    own text, the reviewer and date elements, and for the identity probe
    the attributes [data-review-id] and [id] of the element found. *)
Record review_element := ReviewElement {
  el_rating_probes : list (exc pystr);
  el_title_probes : list (exc pystr);
  el_body_probes : list (exc pystr);
  el_text : exc pystr;
  el_reviewer : exc pystr;
  el_date : exc pystr;
  el_id_probe : exc (option pystr * option pystr)
}.

(** The dictionary [review_data]; [page] is set by the page extractor. *)
Record review_data := ReviewData {
  rating : option pyfloat;
  title : pystr;
  text : pystr;
  reviewer : pystr;
  date : pystr;
  page : Z
}.

(** The title loop: the variable keeps the last text read, which is
    empty unless the loop stopped on it. *)
Definition review_title_step (probe : exc pystr) : option pystr :=
  match probe with
  | Raise => None
  | Ok t =>
      let title := strip t in
      if truthy title then Some (strip_star_prefix title) else None
  end.
Definition review_title (probes : list (exc pystr)) : pystr :=
  default [] (first_some review_title_step probes).

(** The body loop, then the longest line of the element's text. *)
Definition review_body_step (probe : exc pystr) : option pystr :=
  match probe with
  | Raise => None
  | Ok t =>
      let text := strip t in
      if truthy text then Some (collapse_ws text) else None
  end.
Definition review_text (body_probes : list (exc pystr))
    (element_text : exc pystr) : pystr :=
  match first_some review_body_step body_probes with
  | Some text => text
  | None =>
      try_catch
        (exc_bind element_text (fun t =>
           Ok (strip (longest_line (split_lines (strip t))))))
        []
  end.

(** [extract_review_data]; the page number is filled in by the caller. *)
Definition extract_review_data (element : review_element) : review_data :=
  {| rating := review_rating (el_rating_probes element);
     title := review_title (el_title_probes element);
     text := review_text (el_body_probes element) (el_text element);
     reviewer :=
       try_catch (exc_bind (el_reviewer element) (fun t => Ok (strip t)))
                 (py "Amazon Customer");
     date := try_catch (exc_bind (el_date element) (fun t => Ok (strip t))) [];
     page := 0 |}.

Definition set_page (p : Z) (r : review_data) : review_data :=
  {| rating := rating r; title := title r; text := text r;
     reviewer := reviewer r; date := date r; page := p |}.

End ReviewData.
Export ReviewData.

(* ===================================================================== *)
(** ** Login: [amazon_auto_login.py] *)
(* ===================================================================== *)

Module Login.

(** [range(lo, hi)] *)
Definition py_range (lo hi : Z) : list Z :=
  map (fun i => lo + Z.of_nat i) (seq 0 (Z.to_nat (hi - lo))).

(** What the driver shows when a page is inspected: [current_url],
    [title], [page_source], and the number of elements that
    [find_elements] returns for the review containers. Each read may
    raise. *)
Record page_state := PageState {
  ps_current_url : exc pystr;
  ps_title : exc pystr;
  ps_page_source : exc pystr;
  ps_review_elements : exc nat
}.

(** [_is_login_page] *)
Definition _is_login_page (driver : page_state) : bool :=
  try_catch
    (exc_bind (ps_current_url driver) (fun u =>
     exc_bind (ps_title driver) (fun t =>
     exc_bind (ps_page_source driver) (fun src =>
       let current_url := lower u in
       let page_title := lower t in
       let page_source := lower src in
       if try_catch
            (exc_bind (ps_review_elements driver) (fun n =>
               Ok (Nat.ltb 0 n)))
            false
       then Ok false
       else
         Ok (existsb id
               [ contains (py "/ap/signin") current_url;
                 contains (py "sign in") page_title;
                 contains (py "signin") page_source;
                 contains (py "amazon sign-in") page_title;
                 (contains (py "login") page_title
                  && contains (py "amazon") page_title)%bool ])))))
    false.

(** [_verify_login_success] *)
Definition _verify_login_success (driver : page_state) : bool :=
  try_catch
    (exc_bind (ps_current_url driver) (fun u =>
     exc_bind (ps_title driver) (fun t =>
       let current_url := lower u in
       let page_title := lower t in
       Ok (existsb id
             [ contains (py "product-reviews") current_url;
               contains (py "dp/") current_url;
               (contains (py "product") current_url
                && contains (py "amazon") page_title)%bool;
               contains (py "customer reviews") page_title;
               negb (_is_login_page driver) ]))))
    false.

(** The interactions of the login handler with the driver and with the
    operator, in the order they happen. *)
Inductive prompt := TwoFactorPrompt | ManualLoginPrompt.
Inductive io_event :=
  | DriverGet (url : pystr)
  | DriverRefresh
  | OperatorInput (p : prompt).

(** A computation that interacts, then returns or raises. *)
Definition io (A : Type) : Type := exc A * list io_event.

Definition io_ret {A} (a : A) : io A := (Ok a, []).
Definition io_bind {A B} (x : io A) (k : A -> io B) : io B :=
  match x with
  | (Ok a, tr) => let '(y, tr') := k a in (y, tr ++ tr')
  | (Raise, tr) => (Raise, tr)
  end.
(** An interaction [ev] that succeeds when [ok] holds and raises
    otherwise; it is attempted either way. *)
Definition io_do (ev : io_event) (ok : bool) : io unit :=
  (if ok then Ok tt else Raise, [ev]).
Definition io_lift {A} (x : exc A) : io A := (x, []).
(** [try: body  except: return handler] *)
Definition io_try {A} (body : io A) (handler : A) : io A :=
  match body with
  | (Ok a, tr) => (Ok a, tr)
  | (Raise, tr) => (Ok handler, tr)
  end.

Notation "x <- c1 ;; c2" := (io_bind c1 (fun x => c2))
  (at level 100, c1 at next level, right associativity).
Notation "c1 ;;; c2" := (io_bind c1 (fun _ => c2))
  (at level 100, right associativity).

(** What one automatic attempt meets: whether the email field, the
    password field and the sign-in button are found and used (the helpers
    absorb every exception and answer with a boolean; the answer of the
    first click on continue is not looked at), whether a two-factor
    challenge shows, whether the operator's confirmation is read without
    an exception, the page after the two-factor step and the page at
    verification. *)
Record attempt_world := AttemptWorld {
  aw_fill_email : bool;
  aw_fill_password : bool;
  aw_click_signin : bool;
  aw_check_for_2fa : bool;
  aw_operator_ok : bool;
  aw_page_after_2fa : page_state;
  aw_page_at_verify : page_state
}.

(** [_handle_two_factor_auth] *)
Definition _handle_two_factor_auth (w : attempt_world) : io bool :=
  io_do (OperatorInput TwoFactorPrompt) (aw_operator_ok w) ;;;
  io_ret (negb (_is_login_page (aw_page_after_2fa w))).

(** [_attempt_automatic_login] *)
Definition _attempt_automatic_login (w : attempt_world) : io bool :=
  io_try
    (if negb (aw_fill_email w) then io_ret false
     else if negb (aw_fill_password w) then io_ret false
     else if negb (aw_click_signin w) then io_ret false
     else if aw_check_for_2fa w then
       done2fa <- _handle_two_factor_auth w ;;
       if negb done2fa then io_ret false else io_ret true
     else io_ret true)
    false.

(** What the manual fallback meets. *)
Record manual_world := ManualWorld {
  mw_operator_ok : bool;
  mw_get_ok : bool;
  mw_page : page_state
}.

(** [_manual_login_fallback] *)
Definition _manual_login_fallback (w : manual_world) (original_url : pystr)
  : io bool :=
  io_do (OperatorInput ManualLoginPrompt) (mw_operator_ok w) ;;;
  io_do (DriverGet original_url) (mw_get_ok w) ;;;
  if _is_login_page (mw_page w) then io_ret false else io_ret true.

(** What [handle_login_automatically] meets: the first navigation and the
    page it lands on, each automatic attempt and the refresh after it, by
    attempt number, and the manual fallback. *)
Record login_world := LoginWorld {
  lw_get_ok : bool;
  lw_landing : page_state;
  lw_attempt : Z -> attempt_world;
  lw_refresh_ok : Z -> bool;
  lw_manual : manual_world
}.

(** The handler's own data. *)
Record AmazonAutoLogin := {
  email : pystr;
  password : pystr;
  max_retries : Z
}.

(** [AmazonAutoLogin(email, password)]: [max_retries] defaults to 2. *)
Definition new_auto_login (e p : pystr) : AmazonAutoLogin :=
  {| email := e; password := p; max_retries := 2 |}.

(** The retry loop of [handle_login_automatically]: [Some true] when an
    attempt returned from inside the loop, [None] when the loop ran out. *)
Fixpoint attempts_loop (self : AmazonAutoLogin) (w : login_world)
    (attempts : list Z) : io (option bool) :=
  match attempts with
  | [] => io_ret None
  | attempt :: rest =>
      logged_in <- _attempt_automatic_login (lw_attempt w attempt) ;;
      if (logged_in
          && _verify_login_success (aw_page_at_verify (lw_attempt w attempt)))%bool
      then io_ret (Some true)
      else
        (if Z.ltb attempt (max_retries self)
         then io_do DriverRefresh (lw_refresh_ok w attempt)
         else io_ret tt) ;;;
        attempts_loop self w rest
  end.

(** [handle_login_automatically] *)
Definition handle_login_automatically (self : AmazonAutoLogin)
    (w : login_world) (url : pystr) : io bool :=
  io_do (DriverGet url) (lw_get_ok w) ;;;
  u <- io_lift (ps_current_url (lw_landing w)) ;;
  let current_url := lower u in
  if (negb (_is_login_page (lw_landing w))
      || contains (py "dp/") current_url)%bool
  then io_ret true
  else
    r <- attempts_loop self w (py_range 1 (max_retries self + 1)) ;;
    match r with
    | Some b => io_ret b
    | None => _manual_login_fallback (lw_manual w) url
    end.

End Login.
Export Login.

(* ===================================================================== *)
(** ** Page navigation: [click_next_page_button] *)
(* ===================================================================== *)

Module Navigator.

(** What the driver answers while one next-page selector is tried:
    [find_element], [is_displayed], [is_enabled], the scroll script,
    [current_url] before the click, the click, [current_url] after it.
    Each of them may raise. *)
Record next_probe := NextProbe {
  np_find : exc unit;
  np_is_displayed : exc bool;
  np_is_enabled : exc bool;
  np_scroll : exc unit;
  np_url_before : exc pystr;
  np_click : exc unit;
  np_url_after : exc pystr
}.

(** The body of the loop on one selector: [Some b] when the function
    returns [b] there, [None] when the condition fails and the loop goes
    on. *)
Definition next_probe_body (p : next_probe) : exc (option bool) :=
  exc_bind (np_find p) (fun _ =>
  exc_bind (np_is_displayed p) (fun displayed =>
    if negb displayed then Ok None
    else
      exc_bind (np_is_enabled p) (fun enabled =>
        if negb enabled then Ok None
        else
          exc_bind (np_scroll p) (fun _ =>
          exc_bind (np_url_before p) (fun current_url_before =>
          exc_bind (np_click p) (fun _ =>
          exc_bind (np_url_after p) (fun current_url_after =>
            if negb (pystr_eqb current_url_before current_url_after)
            then Ok (Some true)
            else Ok (Some false)))))))).

(** The loop over the selectors; an exception in the body is answered
    with [continue]. *)
Fixpoint next_button_loop (probes : list next_probe) : exc bool :=
  match probes with
  | [] => Ok false
  | p :: rest =>
      match try_catch (next_probe_body p) None with
      | Some b => Ok b
      | None => next_button_loop rest
      end
  end.

(** [click_next_page_button]: [probes] holds the answers for the six
    selectors, in order. *)
Definition click_next_page_button (probes : list next_probe) : exc bool :=
  Ok (try_catch (next_button_loop probes) false).

(** The selector's element was found, displayed and enabled. *)
Definition probe_matches (p : next_probe) : bool :=
  match np_find p, np_is_displayed p, np_is_enabled p with
  | Ok _, Ok true, Ok true => true
  | _, _, _ => false
  end.

(** The selector's element was clicked and both locations were read. *)
Definition probe_clicked (p : next_probe) : option (pystr * pystr) :=
  if probe_matches p then
    match np_scroll p, np_url_before p, np_click p, np_url_after p with
    | Ok _, Ok before, Ok _, Ok after => Some (before, after)
    | _, _, _, _ => None
    end
  else None.

End Navigator.
Export Navigator.

(* ===================================================================== *)
(** ** Review pages and the scrape session *)
(* ===================================================================== *)

Module Session.

Section WithHash.

(** [str(x)] for a float, and [hashlib.md5(s.encode()).hexdigest()]. *)
Variable str_float : pyfloat -> pystr.
Variable md5_hexdigest : pystr -> pystr.

(** [a or b] on strings and [None]. *)
Definition py_or (a b : option pystr) : option pystr :=
  match a with
  | Some s => if truthy s then a else b
  | None => b
  end.

(** Truthiness of a string or [None]. *)
Definition truthy_id (i : option pystr) : bool :=
  match i with
  | Some s => truthy s
  | None => false
  end.

(** [str(review_data.get('rating', ''))]: the key is always there. *)
Definition rating_part (r : option pyfloat) : pystr :=
  match r with
  | Some x => str_float x
  | None => py "None"
  end.

(** The fingerprint used when the identity probe raises. *)
Definition fingerprint (rd : review_data) (review_text : pystr) : pystr :=
  let title_part := prefix 20 (title rd) in
  let text_part := prefix 100 review_text in
  let combined :=
    title_part ++ py "|" ++ rating_part (rating rd) ++ py "|" ++ text_part in
  prefix 16 (md5_hexdigest combined).

(** The [review_id] of an element. *)
Definition review_identity (element : review_element) (rd : review_data)
    (review_text : pystr) : option pystr :=
  match el_id_probe element with
  | Ok (data_review_id, id_attr) => py_or data_review_id id_attr
  | Raise => Some (fingerprint rd review_text)
  end.

(** An appended record, next to the [review_id] it was appended under.
    The Python list holds the records; the identity is kept beside each
    to state what the session guarantees about them. *)
Definition kept : Type := option pystr * review_data.

(** One iteration of the loop of [extract_reviews_from_current_page] on
    the local list [reviews] and the shared set [collected_review_ids]. *)
Definition process_element (page_num : Z)
    (st : list kept * gset pystr) (element : review_element)
  : list kept * gset pystr :=
  let '(reviews, collected_review_ids) := st in
  let rd := extract_review_data element in
  let review_text := strip (text rd) in
  if (negb (truthy review_text) || Nat.ltb (length review_text) 20)%bool
  then st
  else
    let review_id := review_identity element rd review_text in
    match review_id with
    | Some i =>
        if truthy i then
          if bool_decide (i ∈ collected_review_ids) then st
          else (reviews ++ [(review_id, set_page page_num rd)],
                {[ i ]} ∪ collected_review_ids)
        else (reviews ++ [(review_id, set_page page_num rd)],
              collected_review_ids)
    | None =>
        (reviews ++ [(review_id, set_page page_num rd)],
         collected_review_ids)
    end.

(** [extract_reviews_from_current_page]: [found] is what
    [find_review_elements] returns, or its exception; the result is the
    page's list and the set as the call leaves it. *)
Definition extract_reviews_from_current_page
    (found : exc (list review_element)) (page_num : Z)
    (collected_review_ids : gset pystr) : list kept * gset pystr :=
  match found with
  | Raise => ([], collected_review_ids)
  | Ok review_elements =>
      fold_left (process_element page_num) review_elements
                ([], collected_review_ids)
  end.

(** What one turn of the pagination loop meets: an exception escaping
    before the click ([nv_fault_before]), the answers for the next-page
    selectors, the page number detected afterwards
    ([get_current_page_number] absorbs every exception), the review
    elements of the page, and an exception escaping after the page's
    records were appended ([nv_fault_after]). *)
Record nav_step := NavStep {
  nv_fault_before : bool;
  nv_next_probes : list next_probe;
  nv_current_page : Z;
  nv_found : exc (list review_element);
  nv_fault_after : bool
}.

(** The state of a session: the list [all_reviews] and the set
    [collected_review_ids]. Both are objects mutated in place, so what was
    added before an exception is still there in the handler. *)
Record session := Session {
  all_reviews : list kept;
  collected_review_ids : gset pystr
}.

Definition extend_with (found : exc (list review_element)) (page_num : Z)
    (s : session) : session :=
  let '(page_reviews, ids) :=
    extract_reviews_from_current_page found page_num
      (collected_review_ids s) in
  {| all_reviews := all_reviews s ++ page_reviews;
     collected_review_ids := ids |}.

(** [_scrape_reviews_from_pages], over the pages of
    [range(2, max_pages + 1)] still to visit: the session it leaves, with
    [Raise] when an exception escapes. *)
Fixpoint pages_loop (nav : Z -> nav_step) (pages : list Z) (s : session)
  : exc unit * session :=
  match pages with
  | [] => (Ok tt, s)
  | page :: rest =>
      let w := nav page in
      if nv_fault_before w then (Raise, s)
      else
        match click_next_page_button (nv_next_probes w) with
        | Raise => (Raise, s)
        | Ok navigation_success =>
            if negb navigation_success then (Ok tt, s)
            else
              let current_page := nv_current_page w in
              if (negb (Z.eqb current_page page) && Z.eqb current_page 1)%bool
              then (Ok tt, s)
              else
                let s' := extend_with (nv_found w) page s in
                if nv_fault_after w then (Raise, s')
                else pages_loop nav rest s'
        end
  end.

Definition _scrape_reviews_from_pages (nav : Z -> nav_step) (max_pages : Z)
    (s : session) : exc unit * session :=
  pages_loop nav (py_range 2 (max_pages + 1)) s.

(** How the session logs in: with the automatic handler when credentials
    are configured, and otherwise by looking at the page. *)
Record login_setup := LoginSetup {
  ls_auto_login : option (AmazonAutoLogin * login_world);
  ls_page : page_state
}.

(** [_handle_login_for_reviews] *)
Definition _handle_login_for_reviews (l : login_setup) (url : pystr)
  : exc bool :=
  match ls_auto_login l with
  | Some (auto_login, w) =>
      exc_bind (fst (handle_login_automatically auto_login w url))
        (fun login_success => Ok login_success)
  | None =>
      exc_bind (ps_current_url (ls_page l)) (fun u =>
        let current_url := lower u in
        if contains (py "/ap/signin") current_url then Ok false
        else
          exc_bind (ps_title (ls_page l)) (fun t =>
            if contains (py "sign in") (lower t) then Ok false
            else Ok true))
  end.

(** What a session meets. *)
Record session_world := SessionWorld {
  sw_login : login_setup;
  sw_page1 : exc (list review_element);
  sw_fault_after_page1 : bool;
  sw_nav : Z -> nav_step
}.

(** The body of the [try] of [scrape_reviews_for_product], on the session
    state: [Ok true] when it runs to its end, [Ok false] when it returns
    after a failed login. [_apply_review_filters] acts on the driver only
    and absorbs its own exceptions: what it changes shows in the pages
    that the world gives. Status notifications are taken as delivered. *)
Definition scrape_body (domain product_asin : pystr) (max_pages : Z)
    (w : session_world) (s : session) : exc bool * session :=
  let url :=
    py "https://www." ++ domain ++ py "/product-reviews/" ++ product_asin
    ++ py "/" in
  match _handle_login_for_reviews (sw_login w) url with
  | Raise => (Raise, s)
  | Ok false => (Ok false, s)
  | Ok true =>
      let s1 := extend_with (sw_page1 w) 1 s in
      if sw_fault_after_page1 w then (Raise, s1)
      else
        match _scrape_reviews_from_pages (sw_nav w) max_pages s1 with
        | (Raise, s2) => (Raise, s2)
        | (Ok _, s2) => (Ok true, s2)
        end
  end.

(** [_initialize_scraping_session] *)
Definition _initialize_scraping_session : session :=
  {| all_reviews := []; collected_review_ids := ∅ |}.

(** [scrape_reviews_for_product]: every path, the handler included,
    returns the list [all_reviews]. The session is returned with its
    identities; [scrape_reviews_for_product] is the list of records. *)
Definition scrape_session (domain product_asin : pystr) (max_pages : Z)
    (w : session_world) : exc bool * session :=
  scrape_body domain product_asin max_pages w _initialize_scraping_session.

Definition scrape_reviews_for_product (domain product_asin : pystr)
    (max_pages : Z) (w : session_world) : list review_data :=
  (all_reviews (snd (scrape_session domain product_asin max_pages w))).*2.

End WithHash.

End Session.
Export Session.

(* ===================================================================== *)
(** ** Persisted output: [save_reviews_to_csv] *)
(* ===================================================================== *)

Module Csv.

(** A value stored in a dictionary or in a cell of a frame. *)
Inductive cell :=
  | CMissing
  | CNone
  | CStr (s : pystr)
  | CFloat (x : pyfloat)
  | CInt (n : Z).

(** A Python [dict] with text keys, in insertion order. *)
Definition dict : Type := list (pystr * cell).

(** The dictionary that [extract_review_data] builds and the page
    extractor completes with [page]. *)
Definition review_to_dict (r : review_data) : dict :=
  [ (py "rating", match rating r with Some x => CFloat x | None => CNone end);
    (py "title", CStr (title r));
    (py "text", CStr (text r));
    (py "reviewer", CStr (reviewer r));
    (py "date", CStr (date r));
    (py "page", CInt (page r)) ].

Definition has_key (k : pystr) (d : dict) : bool :=
  existsb (fun kv => pystr_eqb (fst kv) k) d.

Fixpoint get (k : pystr) (d : dict) : cell :=
  match d with
  | [] => CMissing
  | (k', v) :: d' => if pystr_eqb k' k then v else get k d'
  end.

(** A pandas frame: its column labels and its rows. *)
Record dataframe := DataFrame {
  columns : list pystr;
  rows : list (list cell)
}.

(** [col in pd.DataFrame(reviews).columns]: the frame built from a list of
    dictionaries has the union of their keys as columns. *)
Definition in_columns (reviews : list dict) (col : pystr) : bool :=
  existsb (has_key col) reviews.

Definition column_order : list pystr :=
  [ py "asin"; py "rating"; py "title"; py "text"; py "reviewer";
    py "date"; py "page" ].

(** [df = df[existing_columns]] *)
Definition existing_columns (reviews : list dict) : list pystr :=
  List.filter (in_columns reviews) column_order.

Definition select_frame (reviews : list dict) : dataframe :=
  let cols := existing_columns reviews in
  {| columns := cols;
     rows := map (fun d => map (fun c => get c d) cols) reviews |}.

(** [re]'s [\w] on the 8-bit range: what [str.isalnum] accepts, and the
    underscore. In the upper half these are the two ordinal indicators,
    the superscript digits, the micro sign, the three fractions, and the
    letters (all of 0xc0-0xff but the multiplication and division
    signs). *)
Definition is_alnum_char (c : ascii) : bool :=
  (is_ascii_alnum c
   || N.eqb (code c) 170 || N.eqb (code c) 178 || N.eqb (code c) 179
   || N.eqb (code c) 181 || N.eqb (code c) 185 || N.eqb (code c) 186
   || in_range 188 190 c
   || in_range 192 214 c || in_range 216 246 c || in_range 248 255 c)%bool.
Definition is_word_char (c : ascii) : bool :=
  (is_alnum_char c || bool_decide (c = "_"%char))%bool.

(** The keyword made safe for a file name: every character that is
    neither a word character nor white space is dropped, spaces become
    underscores, and twenty characters are kept. *)
Definition safe_keyword (keyword : pystr) : pystr :=
  let kept := List.filter (fun c => (is_word_char c || is_space c)%bool)
                          keyword in
  prefix 20
    (map (fun c => if bool_decide (c = " "%char) then "_"%char else c) kept).

Definition csv_filename (product_asin keyword : pystr) : pystr :=
  if truthy keyword
  then py "amazon_reviews_" ++ safe_keyword keyword ++ py "_"
       ++ product_asin ++ py ".csv"
  else py "amazon_reviews_" ++ product_asin ++ py ".csv".

(** UTF-8 of a text of 8-bit code points, and the signature that the
    codec [utf-8-sig] writes first. *)
Definition utf8_char (c : ascii) : list N :=
  if is_ascii7 c then [code c]
  else [(192 + code c / 64)%N; (128 + code c mod 64)%N].
Definition utf8_encode (s : pystr) : list N := flat_map utf8_char s.
Definition utf8_bom : list N := [239; 187; 191]%N.

(** The file written: its name on the desktop, the frame handed to
    [to_csv], and its bytes. *)
Record csv_file := CsvFile {
  file_name : pystr;
  frame : dataframe;
  file_bytes : list N
}.

Section WithWriter.

(** The text that [DataFrame.to_csv(index=False)] produces for a frame:
    the header line, then one line per row. *)
Variable to_csv_text : dataframe -> pystr.

(** [save_reviews_to_csv]: [None] when there is nothing to save. *)
Definition save_reviews_to_csv (reviews : list dict)
    (product_asin keyword : pystr) : option csv_file :=
  match reviews with
  | [] => None
  | _ =>
      let df := select_frame reviews in
      Some {| file_name := csv_filename product_asin keyword;
              frame := df;
              file_bytes := utf8_bom ++ utf8_encode (to_csv_text df) |}
  end.

End WithWriter.

End Csv.
Export Csv.

(* ===================================================================== *)
(** ** The public search operation: how its input is routed *)
(* ===================================================================== *)

Module SearchRouting.

(** [keyword.isalnum()]: not empty, every character alphanumeric. *)
Definition isalnum (s : pystr) : bool :=
  (truthy s && forallb is_alnum_char s)%bool.

(** Lowercase letters of the 8-bit range (general category Ll): a-z, the
    micro sign, and 0xdf-0xff but the division sign. *)
Definition is_lower_letter (c : ascii) : bool :=
  (is_ascii_lower c || N.eqb (code c) 181
   || in_range 223 246 c || in_range 248 255 c)%bool.

(** [c.upper() == c] for one character: [str.upper] changes a-z, the
    micro sign (to the Greek capital mu), the sharp s (to two letters),
    and 0xe0-0xff but the division sign. *)
Definition upper_keeps (c : ascii) : bool :=
  negb (is_ascii_lower c || N.eqb (code c) 181 || N.eqb (code c) 223
        || in_range 224 246 c || in_range 248 255 c)%bool.

(** [keyword.upper() == keyword] on 8-bit text: [upper] works character
    by character, and the first changed character makes the texts differ
    there. The routing on text of any characters is [search_route_text]
    below, of which this one is the 8-bit case. *)
Definition upper_unchanged (s : pystr) : bool := forallb upper_keeps s.

(** Where [search_amazon_products] sends its input. *)
Inductive route :=
  | ProductByAsin (url : pystr)
  | ProductByUrl (url : pystr)
  | KeywordSearch.

Definition search_route (domain keyword : pystr) : route :=
  if (Nat.eqb (length keyword) 10 && isalnum keyword
      && upper_unchanged keyword)%bool
  then ProductByAsin (py "https://www." ++ domain ++ py "/dp/" ++ keyword)
  else if (startswith (py "http://") keyword
           || startswith (py "https://") keyword
           || startswith (py "www." ++ domain) keyword)%bool
  then ProductByUrl keyword
  else KeywordSearch.

Definition is_asin_route (r : route) : bool :=
  match r with
  | ProductByAsin _ => true
  | _ => false
  end.

End SearchRouting.
Export SearchRouting.

(* ===================================================================== *)
(** ** What the specification's sentences say, and sample inputs *)
(* ===================================================================== *)

Module Samples.



(** A review element: rating text, body text, and what the identity probe
    answers; nothing else is found. *)
Definition sample_review (rating_text body : string)
    (id_probe : exc (option pystr * option pystr)) : review_element :=
  {| el_rating_probes := [Ok (py rating_text)];
     el_title_probes := [Raise];
     el_body_probes := [Ok (py body)];
     el_text := Ok (py body);
     el_reviewer := Raise;
     el_date := Raise;
     el_id_probe := id_probe |}.

(** A review whose star text reads 7.5 out of 10. *)
Definition review_rated_7_5 : review_element :=
  sample_review "7.5 out of 10 stars"
    "This kettle boils fast and pours without dripping."
    (Ok (Some (py "R1"), None)).

(** A review whose identity element carries an empty [data-review-id]
    and no [id]. *)
Definition review_without_id : review_element :=
  sample_review "5.0 out of 5 stars"
    "This kettle boils fast and pours without dripping."
    (Ok (Some [], None)).

(** A page state with nothing to read. *)
Definition blank_page : page_state :=
  {| ps_current_url := Ok (py "https://www.amazon.com/product-reviews/B000000000/");
     ps_title := Ok (py "Customer reviews");
     ps_page_source := Ok [];
     ps_review_elements := Ok O |}.

(** A sign-in page. *)
Definition signin_page : page_state :=
  {| ps_current_url := Ok (py "https://www.amazon.com/ap/signin");
     ps_title := Ok (py "Amazon Sign-In");
     ps_page_source := Ok (py "<form name=signIn>");
     ps_review_elements := Ok O |}.

(** A next-page probe that finds nothing. *)
Definition no_next_button : next_probe :=
  {| np_find := Raise; np_is_displayed := Raise; np_is_enabled := Raise;
     np_scroll := Raise; np_url_before := Raise; np_click := Raise;
     np_url_after := Raise |}.

(** A next-page probe whose click moves from [before] to [after]. *)
Definition next_button (before after : string) : next_probe :=
  {| np_find := Ok tt; np_is_displayed := Ok true; np_is_enabled := Ok true;
     np_scroll := Ok tt; np_url_before := Ok (py before); np_click := Ok tt;
     np_url_after := Ok (py after) |}.

(** A session without credentials on a page that needs no login, whose
    first page shows [elements] and which has no next page. *)
Definition one_page_world (elements : list review_element) : session_world :=
  {| sw_login := {| ls_auto_login := None; ls_page := blank_page |};
     sw_page1 := Ok elements;
     sw_fault_after_page1 := false;
     sw_nav := fun _ =>
       {| nv_fault_before := false;
          nv_next_probes := [no_next_button];
          nv_current_page := 1;
          nv_found := Ok [];
          nv_fault_after := false |} |}.

(** An automatic attempt that finds no email field. *)
Definition attempt_without_form : attempt_world :=
  {| aw_fill_email := false; aw_fill_password := false;
     aw_click_signin := false; aw_check_for_2fa := false;
     aw_operator_ok := true; aw_page_after_2fa := signin_page;
     aw_page_at_verify := signin_page |}.

(** A login that stays on the sign-in page until the operator has logged
    in by hand, after which the page is [after_manual]. *)
Definition stuck_login (after_manual : page_state) : login_world :=
  {| lw_get_ok := true;
     lw_landing := signin_page;
     lw_attempt := fun _ => attempt_without_form;
     lw_refresh_ok := fun _ => true;
     lw_manual := {| mw_operator_ok := true; mw_get_ok := true;
                     mw_page := after_manual |} |}.

(** A review with a site identifier. *)
Definition review_with_id (rid body : string) : review_element :=
  sample_review "5.0 out of 5 stars" body (Ok (Some (py rid), None)).

Definition review_a : review_element :=
  review_with_id "R1" "This kettle boils fast and pours without dripping.".
Definition review_b : review_element :=
  review_with_id "R2" "The lid is loose and the handle gets far too hot.".
Definition review_too_short : review_element :=
  review_with_id "R3" "Nice kettle.".

(** A pagination whose first click leads to page 2 showing [second], and
    whose later clicks find no button. *)
Definition two_page_nav (second : list review_element) (page : Z)
  : nav_step :=
  if Z.eqb page 2 then
    {| nv_fault_before := false;
       nv_next_probes :=
         [next_button "https://a/?pageNumber=1" "https://a/?pageNumber=2"];
       nv_current_page := 2;
       nv_found := Ok second;
       nv_fault_after := false |}
  else
    {| nv_fault_before := false;
       nv_next_probes := [no_next_button];
       nv_current_page := 1;
       nv_found := Ok [];
       nv_fault_after := false |}.

Definition two_page_world (first second : list review_element)
  : session_world :=
  {| sw_login := {| ls_auto_login := None; ls_page := blank_page |};
     sw_page1 := Ok first;
     sw_fault_after_page1 := false;
     sw_nav := two_page_nav second |}.

(** A session without credentials that lands on the sign-in page. *)
Definition signin_world : session_world :=
  {| sw_login := {| ls_auto_login := None; ls_page := signin_page |};
     sw_page1 := Ok [review_a];
     sw_fault_after_page1 := false;
     sw_nav := two_page_nav [review_b] |}.

(** Stand-ins for [str] on floats and for the MD5 digest, for running the
    session on the samples (none of which reaches the fingerprint). *)
Definition sample_str_float (x : pyfloat) : pystr := py "5.0".
Definition sample_md5 (s : pystr) : pystr :=
  py "d41d8cd98f00b204e9800998ecf8427e".

(** A stand-in for the pandas writer that writes the header line only. *)
Fixpoint join_commas (cols : list pystr) : pystr :=
  match cols with
  | [] => []
  | [c] => c
  | c :: cols' => c ++ py "," ++ join_commas cols'
  end.
Definition header_only (df : dataframe) : pystr :=
  join_commas (columns df) ++ [newline].

End Samples.
Export Samples.

(* ===================================================================== *)
(** ** Session invariants, as predicates *)
(* ===================================================================== *)

Module Invariants.

(** The non-empty identities of a list of appended records, in order. *)
Definition truthy_ids (l : list kept) : list pystr :=
  omap (fun k : kept =>
          match fst k with
          | Some i => if truthy i then Some i else None
          | None => None
          end) l.

(** The records appended so far have pairwise distinct non-empty
    identities, all of them in the set of seen identities. *)
Definition ids_distinct (l : list kept) (ids : gset pystr) : Prop :=
  NoDup (truthy_ids l) /\ forall i, i ∈ truthy_ids l -> i ∈ ids.

Definition session_distinct (s : session) : Prop :=
  ids_distinct (all_reviews s) (collected_review_ids s).

(** The text of a record passes the length gate. *)
Definition text_long_enough (r : review_data) : Prop :=
  strip (text r) <> [] /\ (20 <= length (strip (text r)))%nat.

(** The navigator answered that the page advanced. *)
Definition advanced (r : exc bool) : bool :=
  match r with
  | Ok true => true
  | _ => false
  end.

(** A turn of the pagination loop that goes through: nothing escapes, the
    click advances, and the page detected is not a fall back to page 1. *)
Definition step_advances (nav : Z -> nav_step) (page : Z) : bool :=
  (negb (nv_fault_before (nav page))
   && advanced (click_next_page_button (nv_next_probes (nav page)))
   && negb (negb (Z.eqb (nv_current_page (nav page)) page)
            && Z.eqb (nv_current_page (nav page)) 1)
   && negb (nv_fault_after (nav page)))%bool.

(** A turn that ends the pagination before anything is extracted: an
    exception before the click, no advance, or a fall back to page 1. *)
Definition step_stops (nav : Z -> nav_step) (page : Z) : bool :=
  (nv_fault_before (nav page)
   || negb (advanced (click_next_page_button (nv_next_probes (nav page))))
   || (negb (Z.eqb (nv_current_page (nav page)) page)
       && Z.eqb (nv_current_page (nav page)) 1))%bool.

End Invariants.
Export Invariants.

(* ===================================================================== *)
(** ** ASINs in URLs: [extract_asin_from_url] *)
(* ===================================================================== *)

Module AsinUrl.

(** Two characters match under [re.IGNORECASE]: on the 8-bit range, when
    they are equal up to the case of a 7-bit letter. *)
Definition eq_ci (a b : ascii) : bool :=
  bool_decide (lower_char a = lower_char b).

(** The text starts with the literal [p], case ignored. *)
Fixpoint startswith_ci (p s : pystr) : bool :=
  match p, s with
  | [], _ => true
  | _ :: _, [] => false
  | a :: p', b :: s' => (eq_ci a b && startswith_ci p' s')%bool
  end.

(** The group of the patterns: exactly ten characters of the class A-Z,
    0-9, case ignored. The result is the group and what follows it. On
    8-bit text the class, case ignored, is the seven-bit letters and
    digits; the four characters that it also takes in wider text (the
    dotted and dotless I, the long s, the Kelvin sign) lie beyond this
    range, and the properties below are stated for seven-bit URLs. *)
Definition take_asin (s : pystr) : option (pystr * pystr) :=
  let g := take 10 s in
  if (Nat.eqb (length g) 10 && forallb is_ascii_alnum g)%bool
  then Some (g, drop 10 s)
  else None.

(** A pattern made of a literal and the group, matched at the start of
    the text. *)
Definition match_literal_asin (literal s : pystr) : option pystr :=
  if startswith_ci literal s
  then fst <$> take_asin (drop (length literal) s)
  else None.

(** The fourth pattern at the start of the text: a slash, the group, and
    then a slash, a question mark or the end of the text (which the dollar
    also sees before one final line feed). *)
Definition match_bare_asin (s : pystr) : option pystr :=
  if startswith (py "/") s then
    match take_asin (drop 1 s) with
    | Some (g, rest) =>
        match rest with
        | [] => Some g
        | c :: rest' =>
            if (bool_decide (c = "/"%char) || bool_decide (c = "?"%char)
                || (bool_decide (c = newline) && bool_decide (rest' = [])))%bool
            then Some g
            else None
        end
    | None => None
    end
  else None.

(** [re.search]: the leftmost position where the pattern matches. *)
Fixpoint search_with (here : pystr -> option pystr) (s : pystr)
  : option pystr :=
  match here s with
  | Some g => Some g
  | None =>
      match s with
      | [] => None
      | _ :: s' => search_with here s'
      end
  end.

(** The five patterns, in the order they are tried. *)
Definition asin_patterns : list (pystr -> option pystr) :=
  [ match_literal_asin (py "/dp/");
    match_literal_asin (py "/gp/product/");
    match_literal_asin (py "/product/");
    match_bare_asin;
    match_literal_asin (py "/ASIN/") ].

(** [extract_asin_from_url] *)
Definition extract_asin_from_url (url : pystr) : option pystr :=
  upper <$> first_some (fun here => search_with here url) asin_patterns.

End AsinUrl.
Export AsinUrl.

(* ===================================================================== *)
(** ** The current page: [get_current_page_number] *)
(* ===================================================================== *)

Module PageNumber.

(** What the driver answers: [current_url], and the text of the selected
    page indicator ([Raise] when there is none). *)
Record page_number_view := PageNumberView {
  pn_current_url : exc pystr;
  pn_indicator : exc pystr
}.

(** The pattern of the page parameter at the start of the text: the
    literal, then one or more digits, which are the group. *)
Definition match_page_number (s : pystr) : option pystr :=
  if startswith (py "pageNumber=") s then
    let ds := fst (span is_digit (drop 11 s)) in
    if truthy ds then Some ds else None
  else None.

(** [int(text)] on a text of digits; the superscript digits that
    [isdigit] lets through make it raise. (The limit that recent Python
    versions put on the number of digits is not modelled.) *)
Definition int_of_text (s : pystr) : exc Z :=
  if (truthy s && forallb is_digit s)%bool then Ok (digits_val s) else Raise.

(** [get_current_page_number] *)
Definition get_current_page_number (driver : page_number_view) : Z :=
  try_catch
    (exc_bind (pn_current_url driver) (fun current_url =>
       match (if contains (py "pageNumber=") current_url
              then search_with match_page_number current_url
              else None) with
       | Some ds => int_of_text ds
       | None =>
           Ok (try_catch
                 (exc_bind (pn_indicator driver) (fun t =>
                    let page_text := strip t in
                    if isdigit page_text then int_of_text page_text
                    else Ok 1))
                 1)
       end))
    1.

End PageNumber.
Export PageNumber.

(* ===================================================================== *)
(** ** Review containers: [validate_review_element], [find_review_elements] *)
(* ===================================================================== *)

Module ReviewFinder.

(** A candidate container: what [find_elements] returns inside it for the
    review body (the text of each element found) and for the rating (how
    many), and the element itself as the extractor reads it. *)
Record candidate := Candidate {
  cd_review_bodies : exc (list (exc pystr));
  cd_ratings : exc nat;
  cd_element : review_element
}.

(** [validate_review_element] *)
Definition validate_review_element (element : candidate) : bool :=
  try_catch
    (exc_bind (cd_review_bodies element) (fun has_review_body =>
     exc_bind (cd_ratings element) (fun has_rating =>
       match has_review_body with
       | first_body :: _ =>
           if Nat.ltb 0 has_rating then
             exc_bind first_body (fun t =>
               let review_text := strip t in
               Ok (truthy review_text && Nat.ltb 10 (length review_text))%bool)
           else Ok false
       | [] => Ok false
       end)))
    false.

(** One of the two selector loops: the validated elements of the first
    selector that finds any element. *)
Fixpoint first_found (answers : list (exc (list candidate)))
  : option (list candidate) :=
  match answers with
  | [] => None
  | Ok (e :: elements) :: _ =>
      Some (List.filter validate_review_element (e :: elements))
  | _ :: answers' => first_found answers'
  end.

(** [find_review_elements]: [css] and [xpaths] hold what [find_elements]
    answers for the five selectors and the three paths, in order. *)
Definition find_review_elements (css xpaths : list (exc (list candidate)))
  : list candidate :=
  let review_elements := default [] (first_found css) in
  match review_elements with
  | [] => default [] (first_found xpaths)
  | _ => review_elements
  end.

End ReviewFinder.
Export ReviewFinder.

(* ===================================================================== *)
(** ** Credentials: [config.py] and the scraper's constructor *)
(* ===================================================================== *)

Module Credentials.

(** What the operator types at the three prompts; each read may raise. *)
Record console := Console {
  in_choice : exc pystr;
  in_email : exc pystr;
  in_password : exc pystr
}.

(** Truthiness of a text or [None]. *)
Definition present (x : option pystr) : bool :=
  match x with
  | Some s => truthy s
  | None => false
  end.

(** [AmazonConfig.setup_credentials] *)
Definition setup_credentials (c : console)
  : exc (option pystr * option pystr) :=
  exc_bind (in_email c) (fun e =>
  exc_bind (in_password c) (fun p =>
    let email := strip e in
    let password := strip p in
    if (negb (truthy email) || negb (truthy password))%bool
    then Ok (None, None)
    else Ok (Some email, Some password))).

(** [AmazonConfig.check_and_setup], on the two environment variables. *)
Definition check_and_setup (env_email env_password : option pystr)
    (c : console) : exc (option pystr * option pystr) :=
  if (negb (present env_email) || negb (present env_password))%bool then
    exc_bind (in_choice c) (fun answer =>
      let choice := strip (lower answer) in
      if pystr_eqb choice (py "y") then setup_credentials c
      else Ok (None, None))
  else Ok (env_email, env_password).

(** [AmazonAutoLogin(email, password)] when both are given and not
    empty. *)
Definition auto_login_of (ep : option pystr * option pystr)
  : option AmazonAutoLogin :=
  match ep with
  | (Some e, Some p) =>
      if (truthy e && truthy p)%bool then Some (new_auto_login e p) else None
  | _ => None
  end.

(** The [auto_login] that [AmazonScraperGUI.__init__] sets up: from its
    arguments when both are given, or else from the configuration, whose
    exceptions leave it unset. *)
Definition configure_auto_login (email password : option pystr)
    (env_email env_password : option pystr) (c : console)
  : option AmazonAutoLogin :=
  match auto_login_of (email, password) with
  | Some auto_login => Some auto_login
  | None =>
      try_catch
        (exc_bind (check_and_setup env_email env_password c) (fun ep =>
           Ok (auto_login_of ep)))
        None
  end.

End Credentials.
Export Credentials.

(* ===================================================================== *)
(** ** Product information: title and validation *)
(* ===================================================================== *)

Module ProductInfo.

(** The dictionary [product_info]. *)
Record product_info := ProductInfoRecord {
  pi_index : Z;
  pi_asin : pystr;
  pi_title : pystr;
  pi_price : pystr;
  pi_rating : pystr;
  pi_reviews_count : pystr;
  pi_extraction_errors : list pystr
}.

(** [_initialize_product_info] *)
Definition _initialize_product_info : product_info :=
  {| pi_index := 1;
     pi_asin := py "UNKNOWN";
     pi_title := py "Title not found";
     pi_price := py "Price not available";
     pi_rating := py "No rating";
     pi_reviews_count := py "0";
     pi_extraction_errors := [] |}.

(** The body of the loop of [_extract_product_title] on one selector. *)
Definition product_title_step (probe : exc pystr) : option pystr :=
  match probe with
  | Raise => None
  | Ok t =>
      let title_text := strip t in
      if (truthy title_text && Nat.ltb 3 (length title_text))%bool
      then Some (prefix 150 title_text)
      else None
  end.

(** [_extract_product_title], over the answers for
    [PRODUCT_TITLE_SELECTORS]. *)
Definition _extract_product_title (probes : list (exc pystr))
    (info : product_info) : product_info :=
  match first_some product_title_step probes with
  | Some t =>
      {| pi_index := pi_index info; pi_asin := pi_asin info;
         pi_title := t; pi_price := pi_price info;
         pi_rating := pi_rating info;
         pi_reviews_count := pi_reviews_count info;
         pi_extraction_errors := pi_extraction_errors info |}
  | None =>
      {| pi_index := pi_index info; pi_asin := pi_asin info;
         pi_title := pi_title info; pi_price := pi_price info;
         pi_rating := pi_rating info;
         pi_reviews_count := pi_reviews_count info;
         pi_extraction_errors :=
           pi_extraction_errors info
           ++ [py "Title not found with any selector"] |}
  end.

(** One field of [_validate_product_info]: an empty value becomes N/A. *)
Definition or_not_available (v : pystr) : pystr :=
  if truthy v then v else py "N/A".

(** [_validate_product_info] *)
Definition _validate_product_info (info : product_info) : product_info :=
  {| pi_index := pi_index info;
     pi_asin := or_not_available (pi_asin info);
     pi_title := or_not_available (pi_title info);
     pi_price := or_not_available (pi_price info);
     pi_rating := or_not_available (pi_rating info);
     pi_reviews_count := or_not_available (pi_reviews_count info);
     pi_extraction_errors := pi_extraction_errors info |}.

(** The five required fields. *)
Definition required_fields (info : product_info) : list pystr :=
  [ pi_asin info; pi_title info; pi_price info; pi_rating info;
    pi_reviews_count info ].

End ProductInfo.
Export ProductInfo.

(* ===================================================================== *)
(** ** Measures on traces and sessions, for the statements below *)
(* ===================================================================== *)

Module Measures.

Definition is_refresh (ev : io_event) : bool :=
  match ev with
  | DriverRefresh => true
  | _ => false
  end.

Definition is_get (ev : io_event) : bool :=
  match ev with
  | DriverGet _ => true
  | _ => false
  end.

Definition is_manual_prompt (ev : io_event) : bool :=
  match ev with
  | OperatorInput ManualLoginPrompt => true
  | _ => false
  end.

Definition is_two_factor_prompt (ev : io_event) : bool :=
  match ev with
  | OperatorInput TwoFactorPrompt => true
  | _ => false
  end.

(** How many events of a trace satisfy [f]. *)
Definition count_events (f : io_event -> bool) (tr : list io_event) : nat :=
  length (List.filter f tr).

(** The page numbers of a list of appended records. *)
Definition pages_of (l : list kept) : list Z :=
  map (fun k : kept => page (snd k)) l.

(** A list of page numbers never goes down, and stays in a range. *)
Fixpoint nondecreasing (l : list Z) : Prop :=
  match l with
  | [] => True
  | p :: l' =>
      match l' with
      | [] => True
      | q :: _ => p <= q /\ nondecreasing l'
      end
  end.

(** The page tags of a session are in order and at most [b]. *)
Definition tags_within (b : Z) (s : session) : Prop :=
  Forall (fun p => 1 <= p <= b) (pages_of (all_reviews s))
  /\ nondecreasing (pages_of (all_reviews s)).

(** A sign-in page whose location carries the review page as its return
    address. *)
Definition signin_with_return : page_state :=
  {| ps_current_url :=
       Ok (py "https://www.amazon.com/ap/signin?return_to=/product-reviews/B000000000/");
     ps_title := Ok (py "Amazon Sign-In");
     ps_page_source := Ok (py "<form name=signIn>");
     ps_review_elements := Ok O |}.

End Measures.
Export Measures.

(* ===================================================================== *)
(** ** Shapes of texts, for the statements below *)
(* ===================================================================== *)

Module TextShapes.

(** The text does not start with white space. *)
Definition no_lead (s : pystr) : Prop :=
  match s with
  | [] => True
  | c :: _ => is_space c = false
  end.

(** The text neither starts nor ends with white space. *)
Definition stripped (s : pystr) : Prop := no_lead s /\ no_lead (rev s).

(** Every white-space character of the text is a plain space. *)
Definition only_plain_spaces (s : pystr) : Prop :=
  Forall (fun c => is_space c = true -> c = " "%char) s.

(** A review text as the session accepts it. *)
Definition clean_text (t : pystr) : Prop :=
  strip t = t /\ ~ In newline t /\ (20 <= length t)%nat.

End TextShapes.
Export TextShapes.

(* ===================================================================== *)
(** ** Floats that hold an integer, for the statements below *)
(* ===================================================================== *)

Module FloatShapes.

(** The float is the integer [n], exactly. *)
Definition holds_integer (x : pyfloat) (n : Z) : Prop :=
  match x with
  | FFin m e => 0 <= e /\ m * 2 ^ e = n
  | FInf | FNaN => False
  end.

End FloatShapes.
Export FloatShapes.

(* ===================================================================== *)
(** ** Search results: the product loop of [search_amazon_products] *)
(* ===================================================================== *)

Module SearchResults.

(** [l[:n]]: the first [n] elements, and all but the last [-n] when [n]
    is negative. *)
Definition slice_to (n : Z) {A} (l : list A) : list A :=
  if Z.leb 0 n then take (Z.to_nat n) l
  else take (length l - Z.to_nat (- n)) l.

(** [enumerate(l, 1)] *)
Definition enumerate_from_1 {A} (l : list A) : list (Z * A) :=
  imap (fun i x => (Z.of_nat i + 1, x)) l.

(** What the driver answers about one search result: the attribute
    [data-asin], the text of the span of the heading, the heading's
    [aria-label] and text, and for each price, rating and count selector
    the element found. *)
Record search_element := SearchElement {
  se_data_asin : exc (option pystr);
  se_h2_span : exc pystr;
  se_h2 : exc (option pystr * pystr);
  se_price_probes : list (exc (option pystr * pystr));
  se_rating_probes : list (exc elem_view);
  se_count_probes : list (exc elem_view)
}.

(** The dictionary built for one search result. *)
Record search_product := SearchProduct {
  sp_index : Z;
  sp_asin : pystr;
  sp_title : pystr;
  sp_price : pystr;
  sp_rating : pystr;
  sp_reviews_count : pystr
}.

(** The title of a search result. *)
Definition search_title (element : search_element) : pystr :=
  try_catch
    (exc_bind (se_h2_span element) (fun t =>
       if truthy (strip t) then Ok (prefix 120 (strip t))
       else
         exc_bind (se_h2 element) (fun h2 =>
           match first_truthy [fst h2] with
           | Some aria_label => Ok (prefix 120 aria_label)
           | None => Ok (prefix 120 (strip (snd h2)))
           end)))
    (py "Title not found").

(** The rating loop on one selector: the text of the number is kept when
    its value is within 1 and 5. *)
Definition search_rating_of_text (rating_text : pystr) : option pystr :=
  if (contains (py "out of") rating_text
      || isdigit (remove_char "."%char rating_text))%bool
  then
    match search_decimal rating_text with
    | Some m =>
        if (int_le_float 1 (float_of_match m)
            && float_le_int (float_of_match m) 5)%bool
        then Some (matched_text m)
        else None
    | None => None
    end
  else None.

Definition search_rating_step (probe : exc elem_view) : option pystr :=
  match probe with
  | Raise => None
  | Ok e =>
      match first_truthy
              [ev_aria_label e; Some (ev_text e); ev_inner_html e] with
      | Some rating_text => search_rating_of_text rating_text
      | None => None
      end
  end.

Definition search_rating (probes : list (exc elem_view)) : pystr :=
  default (py "No rating") (first_some search_rating_step probes).

Section WithUnescape.

(** [html.unescape] *)
Variable html_unescape : pystr -> pystr.

(** The price loop: the first element found gives the price, whatever
    its text. *)
Definition search_price_step (probe : exc (option pystr * pystr))
  : option pystr :=
  match probe with
  | Raise => None
  | Ok (text_content, elem_text) =>
      let price_text :=
        match first_truthy [text_content] with
        | Some t => t
        | None => elem_text
        end in
      Some (strip (html_unescape price_text))
  end.

Definition search_price (probes : list (exc (option pystr * pystr)))
  : pystr :=
  default (py "Price not available") (first_some search_price_step probes).

(** The body of the product loop: [None] when the result is skipped. *)
Definition search_product_of (idx : Z) (element : search_element)
  : option search_product :=
  match se_data_asin element with
  | Raise => None
  | Ok None => None
  | Ok (Some asin) =>
      if (negb (truthy asin) || negb (Nat.eqb (length asin) 10))%bool
      then None
      else
        Some {| sp_index := idx;
                sp_asin := asin;
                sp_title := search_title element;
                sp_price := search_price (se_price_probes element);
                sp_rating := search_rating (se_rating_probes element);
                sp_reviews_count :=
                  search_reviews_count (se_count_probes element) |}
  end.

(** The product loop of [search_amazon_products] over the result
    elements found. *)
Definition search_products (result_elements : list search_element)
    (max_results : Z) : list search_product :=
  omap (fun ie => search_product_of (fst ie) (snd ie))
       (enumerate_from_1 (slice_to max_results result_elements)).

End WithUnescape.

End SearchResults.
Export SearchResults.

(* ===================================================================== *)
(** ** Shapes of search results, for the statements below *)
(* ===================================================================== *)

Module SearchShapes.

(** The indexes of a list of products go strictly up, starting at [lo]
    or above. *)
Fixpoint increasing_indexes (lo : Z) (ps : list search_product) : Prop :=
  match ps with
  | [] => True
  | p :: ps' => lo <= sp_index p /\ increasing_indexes (sp_index p + 1) ps'
  end.

(** A search result with the given [data-asin] and heading, and nothing
    else to find. *)
Definition sample_result (asin : option pystr) (heading : string)
  : search_element :=
  {| se_data_asin := Ok asin;
     se_h2_span := Ok (py heading);
     se_h2 := Raise;
     se_price_probes := [];
     se_rating_probes := [];
     se_count_probes := [] |}.

End SearchShapes.
Export SearchShapes.

(* ===================================================================== *)
(** ** More sample inputs *)
(* ===================================================================== *)

Module MoreSamples.

(** A container with a body and a rating, and one whose rating is
    missing. *)
Definition rated_candidate : candidate :=
  {| cd_review_bodies :=
       Ok [Ok (py "  This kettle boils fast and pours without dripping. ")];
     cd_ratings := Ok 1%nat;
     cd_element := review_a |}.
Definition unrated_candidate : candidate :=
  {| cd_review_bodies :=
       Ok [Ok (py "The lid is loose and the handle gets far too hot.")];
     cd_ratings := Ok 0%nat;
     cd_element := review_b |}.

(** A page whose location cannot be read after the click, and a
    pagination that lands on it. *)
Definition unreadable_page : page_number_view :=
  {| pn_current_url := Raise; pn_indicator := Ok (py "2") |}.
Definition lost_page_nav (page : Z) : nav_step :=
  {| nv_fault_before := false;
     nv_next_probes :=
       [next_button "https://a/?pageNumber=1" "https://a/?pageNumber=2"];
     nv_current_page := get_current_page_number unreadable_page;
     nv_found := Ok [review_a];
     nv_fault_after := false |}.

(** An operator who accepts the setup and types the credentials with
    blanks around them. *)
Definition typing_operator : console :=
  {| in_choice := Ok (py " Y ");
     in_email := Ok (py "  me@example.com ");
     in_password := Ok (py " secret ") |}.

(** A pagination whose second page is shown and extracted, after which
    an exception escapes. *)
Definition fault_after_second_nav (second : list review_element) (page : Z)
  : nav_step :=
  {| nv_fault_before := false;
     nv_next_probes :=
       [next_button "https://a/?pageNumber=1" "https://a/?pageNumber=2"];
     nv_current_page := 2;
     nv_found := Ok second;
     nv_fault_after := true |}.
Definition fault_after_second_world (first second : list review_element)
  : session_world :=
  {| sw_login := {| ls_auto_login := None; ls_page := blank_page |};
     sw_page1 := Ok first;
     sw_fault_after_page1 := false;
     sw_nav := fault_after_second_nav second |}.


End MoreSamples.
Export MoreSamples.


(* ===================================================================== *)
(** ** Routing of the search input, on text of any characters *)
(* ===================================================================== *)

Module TextRouting.

(** Text as Python has it: a sequence of code points, of any size. *)
Definition utext := list N.

(** The code points of an 8-bit text. *)
Definition codes (s : pystr) : utext := map code s.

(** What the routing asks of Python's character database, one character
    at a time: [str.isalnum], [str.upper] (the full case mapping, which
    can give more than one character) and [str.islower]. *)
Record char_tables := CharTables {
  ct_isalnum : N -> bool;
  ct_upper : N -> list N;
  ct_islower : N -> bool
}.

(** [s.startswith(p)] *)
Fixpoint text_startswith (p s : utext) : bool :=
  match p, s with
  | [], _ => true
  | _ :: _, [] => false
  | a :: p', b :: s' => (N.eqb a b && text_startswith p' s')%bool
  end.

(** Where [search_amazon_products] sends its input. *)
Inductive text_route :=
  | AsinLookup (url : utext)
  | UrlLookup (url : utext)
  | KeywordLookup.

Definition is_asin_lookup (r : text_route) : bool :=
  match r with
  | AsinLookup _ => true
  | _ => false
  end.

Section WithTables.

Variable db : char_tables.

(** [keyword.isalnum()]: not empty, every character alphanumeric. *)
Definition text_isalnum (s : utext) : bool :=
  (negb (Nat.eqb (length s) 0) && forallb (ct_isalnum db) s)%bool.

(** [keyword.upper()]: the case mapping of each character, in order. *)
Definition text_upper (s : utext) : utext := flat_map (ct_upper db) s.

(** The three-way test at the head of [search_amazon_products]. *)
Definition search_route_text (domain keyword : utext) : text_route :=
  if (Nat.eqb (length keyword) 10 && text_isalnum keyword
      && bool_decide (text_upper keyword = keyword))%bool
  then AsinLookup
         (codes (py "https://www.") ++ domain ++ codes (py "/dp/")
          ++ keyword)
  else if (text_startswith (codes (py "http://")) keyword
           || text_startswith (codes (py "https://")) keyword
           || text_startswith (codes (py "www.") ++ domain) keyword)%bool
  then UrlLookup keyword
  else KeywordLookup.

(** The tables are Python's on the seven-bit characters. *)
Definition ascii_tables : Prop :=
  forall c, (c < 128)%N ->
    ct_isalnum db c = is_ascii_alnum (ascii_of_N c)
    /\ ct_upper db c = [code (upper_char (ascii_of_N c))].

(** The letters a-z, and a text of seven-bit characters. *)
Definition ascii_lowercase (c : N) : bool := (N.leb 97 c && N.leb c 122)%bool.
Definition seven_bit (s : utext) : Prop := Forall (fun c => (c < 128)%N) s.

(** The routing rule in the words of the specification: an ASIN lookup
    exactly for ten alphanumeric characters with no lowercase letter
    among them. *)
Definition asin_iff_no_lowercase (domain keyword : utext) : Prop :=
  is_asin_lookup (search_route_text domain keyword) = true
  <-> (length keyword = 10%nat
       /\ Forall (fun c => ct_isalnum db c = true) keyword
       /\ Forall (fun c => ct_islower db c = false) keyword).

End WithTables.

(** The small letter kra (U+0138), a lowercase letter without a capital,
    and the titlecase letter dz with caron (U+01C5), whose capital is
    U+01C4. *)
Definition kra : N := 312.
Definition dz_titlecase : N := 453.

(** Python's tables on the 8-bit range and on these two characters. The
    sharp s becomes two capitals, the micro sign the Greek capital mu and
    the y with diaeresis its capital beyond the range; the two ordinal
    indicators are lowercase for [str.islower] although they are no
    letters of category Ll. The characters beyond, these two apart, are
    entered as plain symbols: no statement looks at them. *)
Definition latin_tables : char_tables :=
  {| ct_isalnum := fun c =>
       if N.ltb c 256 then is_alnum_char (ascii_of_N c)
       else (N.eqb c kra || N.eqb c dz_titlecase)%bool;
     ct_upper := fun c =>
       if N.ltb c 256 then
         if N.eqb c 223 then [83; 83]
         else if N.eqb c 255 then [376]
         else if N.eqb c 181 then [924]
         else if upper_keeps (ascii_of_N c) then [c]
         else [c - 32]
       else if N.eqb c dz_titlecase then [452]
       else [c];
     ct_islower := fun c =>
       if N.ltb c 256 then
         (is_lower_letter (ascii_of_N c) || N.eqb c 170 || N.eqb c 186)%bool
       else N.eqb c kra |}%N.

(** A route on 8-bit text, as a route on text. *)
Definition route_codes (r : route) : text_route :=
  match r with
  | ProductByAsin url => AsinLookup (codes url)
  | ProductByUrl url => UrlLookup (codes url)
  | KeywordSearch => KeywordLookup
  end.

End TextRouting.
Export TextRouting.


(* ===================================================================== *)
(** ** Count texts, for the statements below *)
(* ===================================================================== *)

Module CountShapes.



End CountShapes.
Export CountShapes.


(* ===================================================================== *)
(** ** Properties: ratings *)
(* ===================================================================== *)

Lemma first_some_elim {A B} (f : A -> option B) (xs : list A) (b : B) :
  first_some f xs = Some b -> exists x, In x xs /\ f x = Some b.
Proof.
  induction xs as [|x xs IH]; simpl; [discriminate|].
  destruct (f x) eqn:E.
  - intros [= ->]. exists x. auto.
  - intros H. destruct (IH H) as (y & Hy & Hf). exists y. auto.
Qed.

Lemma float_range_check (v : pyfloat) :
  (int_le_float 1 v && float_le_int v 5)%bool = true -> float_between 1 5 v.
Proof.
  destruct v as [m e| |]; simpl; try (rewrite ?andb_false_r; discriminate).
  destruct (Z.leb 0 e); rewrite andb_true_iff, !Z.leb_le; lia.
Qed.

(** The product-level extractor keeps a rating only inside [1, 5]. *)
Lemma product_rating_in_range (probes : list (exc elem_view)) (v : pyfloat) :
  _extract_product_rating_value probes = Some v -> float_between 1 5 v.
Proof.
  unfold _extract_product_rating_value. intros H.
  apply first_some_elim in H as (probe & _ & H).
  unfold product_rating_step in H.
  destruct probe as [e|]; [|discriminate].
  destruct (first_truthy _) as [t|]; [|discriminate].
  unfold product_rating_of_text in H.
  destruct (search_decimal t) as [m|]; [|discriminate].
  destruct (_ && _)%bool eqn:E; [|discriminate].
  injection H as <-. now apply float_range_check.
Qed.

(** C1 (review level). The rating loop of [extract_review_data] has no
    range check: on a review whose star text reads "7.5 out of 10 stars"
    the stored rating is 7.5 (15 * 2^-1), outside [1, 5], and the record is
    appended to the page's reviews with that rating. *)
Theorem C1_review_rating_unchecked :
  rating (extract_review_data review_rated_7_5) = Some (FFin 15 (-1))
  /\ ~ float_between 1 5 (FFin 15 (-1))
  /\ forall str_float md5_hexdigest,
       map (fun k => rating (snd k))
           (fst (extract_reviews_from_current_page str_float md5_hexdigest
                   (Ok [review_rated_7_5]) 1 ∅))
       = [Some (FFin 15 (-1))].
Proof.
  split; [vm_compute; reflexivity|].
  split; [simpl; lia|].
  intros str_float md5_hexdigest. vm_compute. reflexivity.
Qed.

(* ===================================================================== *)
(** ** Properties: review counts *)
(* ===================================================================== *)

(** [int] keeps the integer part: the result is the floor of the float. *)
Lemma int_of_float_floor (m e c : Z) :
  0 <= m ->
  int_of_float (FFin m e) = Some c ->
  if Z.leb 0 e then c = m * 2 ^ e
  else c * 2 ^ (- e) <= m < (c + 1) * 2 ^ (- e).
Proof.
  intros Hm. simpl. intros [= <-].
  destruct (Z.leb 0 e) eqn:E; [reflexivity|].
  apply Z.leb_gt in E.
  assert (0 < 2 ^ (- e)) by (apply Z.pow_pos_nonneg; lia).
  pose proof (Z.mul_div_le m (2 ^ (- e)) ltac:(lia)).
  pose proof (Z.mul_succ_div_gt m (2 ^ (- e)) ltac:(lia)).
  nia.
Qed.


(* ===================================================================== *)
(** ** Properties: the login-page classifier *)
(* ===================================================================== *)

(** C7. A page on which [find_elements] returns review elements is never
    classified as a login page, whatever its location, title and source
    are, and also when reading one of them raises. *)
Theorem C7_reviews_override_login_indicators
    (url page_title source : exc pystr) (n : nat) :
  (0 < n)%nat ->
  _is_login_page
    {| ps_current_url := url; ps_title := page_title;
       ps_page_source := source; ps_review_elements := Ok n |} = false.
Proof.
  intros Hn. unfold _is_login_page. simpl.
  destruct url as [u|], page_title as [t|], source as [src|];
    simpl; try reflexivity.
  destruct n as [|n]; [lia|]. reflexivity.
Qed.

(** The theorem on a page that has every login indicator and one review. *)
Lemma C7_reviews_override_login_indicators_witness :
  _is_login_page
    {| ps_current_url := Ok (py "https://www.amazon.com/ap/signin");
       ps_title := Ok (py "Amazon Sign-In");
       ps_page_source := Ok (py "signin");
       ps_review_elements := Ok 1%nat |} = false
  /\ _is_login_page signin_page = true.
Proof.
  split.
  - apply C7_reviews_override_login_indicators. lia.
  - vm_compute. reflexivity.
Defined.

(* ===================================================================== *)
(** ** Properties: page navigation *)
(* ===================================================================== *)

Lemma next_probe_body_unmatched (p : next_probe) :
  probe_matches p = false ->
  try_catch (next_probe_body p) None = None.
Proof.
  unfold probe_matches, next_probe_body.
  destruct (np_find p) as [[]|]; simpl; [|reflexivity].
  destruct (np_is_displayed p) as [[]|]; simpl; try reflexivity.
  destruct (np_is_enabled p) as [[]|]; simpl; try reflexivity.
  discriminate.
Qed.

Lemma next_probe_body_clicked (p : next_probe) (before after : pystr) :
  probe_clicked p = Some (before, after) ->
  next_probe_body p = Ok (Some (negb (pystr_eqb before after))).
Proof.
  unfold probe_clicked, probe_matches, next_probe_body.
  destruct (np_find p) as [[]|]; simpl; [|discriminate].
  destruct (np_is_displayed p) as [[]|]; simpl; try discriminate.
  destruct (np_is_enabled p) as [[]|]; simpl; try discriminate.
  destruct (np_scroll p) as [[]|]; simpl; [|discriminate].
  destruct (np_url_before p) as [b|]; simpl; [|discriminate].
  destruct (np_click p) as [[]|]; simpl; [|discriminate].
  destruct (np_url_after p) as [a|]; simpl; [|discriminate].
  intros [= -> ->]. destruct (pystr_eqb before after); reflexivity.
Qed.

Lemma next_probe_body_returns (p : next_probe) (b : bool) :
  try_catch (next_probe_body p) None = Some b ->
  exists before after,
    probe_clicked p = Some (before, after)
    /\ b = negb (pystr_eqb before after).
Proof.
  unfold probe_clicked, probe_matches, next_probe_body.
  destruct (np_find p) as [[]|]; simpl; [|discriminate].
  destruct (np_is_displayed p) as [[]|]; simpl; try discriminate.
  destruct (np_is_enabled p) as [[]|]; simpl; try discriminate.
  destruct (np_scroll p) as [[]|]; simpl; [|discriminate].
  destruct (np_url_before p) as [before|]; simpl; [|discriminate].
  destruct (np_click p) as [[]|]; simpl; [|discriminate].
  destruct (np_url_after p) as [after|]; simpl; [|discriminate].
  intros H. exists before, after. split; [reflexivity|].
  destruct (pystr_eqb before after); simpl in *; congruence.
Qed.

Lemma next_button_loop_ok (probes : list next_probe) :
  exists b, next_button_loop probes = Ok b.
Proof.
  induction probes as [|p rest IH]; simpl; [eauto|].
  destruct (try_catch (next_probe_body p) None); eauto.
Qed.

(** C8. [click_next_page_button] always returns a boolean. It returns
    false when no selector yields a displayed and enabled element; it
    returns false when, at the first selector whose element is clicked and
    whose locations are read, the location after the click equals the one
    recorded before; and when it returns true, some selector's element
    was clicked and the location after the click differs from the one
    before. *)
Theorem C8_advance_outcomes (probes : list next_probe) :
  (exists b, click_next_page_button probes = Ok b)
  /\ (Forall (fun p => probe_matches p = false) probes ->
      click_next_page_button probes = Ok false)
  /\ (forall skipped p rest location,
        probes = skipped ++ p :: rest ->
        Forall (fun q => try_catch (next_probe_body q) None = None) skipped ->
        probe_clicked p = Some (location, location) ->
        click_next_page_button probes = Ok false)
  /\ (click_next_page_button probes = Ok true ->
      exists p before after,
        In p probes
        /\ probe_clicked p = Some (before, after)
        /\ before <> after).
Proof.
  unfold click_next_page_button.
  split; [eauto|]. split; [|split].
  - intros Hall. f_equal.
    induction Hall as [|p rest Hp _ IH]; simpl; [reflexivity|].
    now rewrite (next_probe_body_unmatched p Hp).
  - intros skipped p rest location -> Hskip Hclick. f_equal.
    induction Hskip as [|q skipped Hq _ IH]; simpl.
    + rewrite (next_probe_body_clicked p _ _ Hclick). simpl.
      unfold pystr_eqb. rewrite bool_decide_eq_true_2 by reflexivity.
      reflexivity.
    + now rewrite Hq.
  - intros [= H].
    induction probes as [|p rest IH]; simpl in H; [discriminate|].
    destruct (try_catch (next_probe_body p) None) as [b|] eqn:E.
    + simpl in H. subst b.
      apply next_probe_body_returns in E as (before & after & Hc & Hb).
      exists p, before, after. split; [now left|]. split; [exact Hc|].
      unfold pystr_eqb in Hb. intros ->.
      rewrite bool_decide_eq_true_2 in Hb by reflexivity. discriminate.
    + destruct (IH H) as (q & before & after & Hin & Hc & Hne).
      exists q, before, after. split; [now right|]. auto.
Qed.

(** The theorem on a pagination bar whose first selector finds nothing
    and whose second one is clicked without the location changing. *)
Lemma C8_advance_outcomes_witness :
  click_next_page_button
    [no_next_button; next_button "https://a/?pageNumber=2"
                                 "https://a/?pageNumber=2"] = Ok false
  /\ click_next_page_button [no_next_button; no_next_button] = Ok false
  /\ click_next_page_button
       [next_button "https://a/?pageNumber=2" "https://a/?pageNumber=3"]
     = Ok true.
Proof.
  split; [|split].
  - apply (proj1 (proj2 (proj2 (C8_advance_outcomes
               [no_next_button; next_button "https://a/?pageNumber=2"
                                            "https://a/?pageNumber=2"])))
             [no_next_button]
             (next_button "https://a/?pageNumber=2" "https://a/?pageNumber=2")
             [] (py "https://a/?pageNumber=2")).
    + reflexivity.
    + repeat constructor.
    + reflexivity.
  - apply (proj1 (proj2 (C8_advance_outcomes
                           [no_next_button; no_next_button]))).
    repeat constructor.
  - vm_compute. reflexivity.
Defined.

(* ===================================================================== *)
(** ** Properties: routing of the search input *)
(* ===================================================================== *)

(** [str.upper] leaves a character alone exactly when it is not a
    lowercase letter. *)
Lemma upper_keeps_iff_not_lower (c : ascii) :
  upper_keeps c = negb (is_lower_letter c).
Proof.
  destruct c as [[] [] [] [] [] [] [] []]; reflexivity.
Qed.

Lemma upper_unchanged_no_lower (s : pystr) :
  upper_unchanged s = forallb (fun c => negb (is_lower_letter c)) s.
Proof.
  unfold upper_unchanged. induction s as [|c s IH]; simpl; [reflexivity|].
  now rewrite upper_keeps_iff_not_lower, IH.
Qed.

Lemma startswith_forallb (f : ascii -> bool) (p s : pystr) :
  startswith p s = true -> forallb f s = true -> forallb f p = true.
Proof.
  revert s. induction p as [|a p IH]; intros [|b s]; simpl; try easy.
  rewrite !andb_true_iff. intros [Hab Hp] [Hb Hs].
  apply bool_decide_eq_true in Hab. subst b. eauto.
Qed.

(** An alphanumeric text starts with none of the URL prefixes. *)
Lemma alnum_is_no_url (domain keyword : pystr) :
  forallb is_alnum_char keyword = true ->
  (startswith (py "http://") keyword
   || startswith (py "https://") keyword
   || startswith (py "www." ++ domain) keyword)%bool = false.
Proof.
  intros Hal.
  destruct (startswith (py "http://") keyword) eqn:E1.
  { apply (startswith_forallb is_alnum_char) in E1; [|exact Hal].
    vm_compute in E1. discriminate. }
  destruct (startswith (py "https://") keyword) eqn:E2.
  { apply (startswith_forallb is_alnum_char) in E2; [|exact Hal].
    vm_compute in E2. discriminate. }
  destruct (startswith (py "www." ++ domain) keyword) eqn:E3; [|reflexivity].
  apply (startswith_forallb is_alnum_char) in E3; [|exact Hal].
  change (py "www." ++ domain)
    with ("w"%char :: "w"%char :: "w"%char :: "."%char :: domain) in E3.
  cbn [forallb] in E3.
  replace (is_alnum_char ".") with false in E3 by reflexivity.
  rewrite !andb_true_iff in E3. destruct E3 as (_ & _ & _ & E & _).
  discriminate.
Qed.

Lemma text_startswith_forallb (f : N -> bool) (p s : utext) :
  text_startswith p s = true -> forallb f s = true -> forallb f p = true.
Proof.
  revert s. induction p as [|a p IH]; intros [|b s]; simpl; try easy.
  rewrite !andb_true_iff. intros [Hab Hp] [Hb Hs].
  apply N.eqb_eq in Hab. subst b. eauto.
Qed.

(** A text whose characters are all alphanumeric starts with none of the
    URL prefixes, as the colon and the dot are not alphanumeric. *)
Lemma alnum_text_is_no_url (db : char_tables) (domain keyword : utext) :
  ct_isalnum db 58 = false -> ct_isalnum db 46 = false ->
  forallb (ct_isalnum db) keyword = true ->
  (text_startswith (codes (py "http://")) keyword
   || text_startswith (codes (py "https://")) keyword
   || text_startswith (codes (py "www.") ++ domain) keyword)%bool = false.
Proof.
  intros Hcolon Hdot Hal.
  destruct (text_startswith (codes (py "http://")) keyword) eqn:E1.
  { apply (text_startswith_forallb (ct_isalnum db)) in E1; [|exact Hal].
    change (codes (py "http://")) with [104; 116; 116; 112; 58; 47; 47]%N
      in E1.
    cbn [forallb] in E1. rewrite Hcolon in E1.
    now rewrite !andb_false_r in E1. }
  destruct (text_startswith (codes (py "https://")) keyword) eqn:E2.
  { apply (text_startswith_forallb (ct_isalnum db)) in E2; [|exact Hal].
    change (codes (py "https://"))
      with [104; 116; 116; 112; 115; 58; 47; 47]%N in E2.
    cbn [forallb] in E2. rewrite Hcolon in E2.
    now rewrite !andb_false_r in E2. }
  destruct (text_startswith (codes (py "www.") ++ domain) keyword) eqn:E3;
    [|reflexivity].
  apply (text_startswith_forallb (ct_isalnum db)) in E3; [|exact Hal].
  change (codes (py "www.") ++ domain)
    with (119 :: 119 :: 119 :: 46 :: domain)%N in E3.
  cbn [forallb] in E3. rewrite Hdot in E3.
  now rewrite !andb_false_r in E3.
Qed.

(** [str.upper] leaves a character alone exactly when it is not one of
    a-z, for the characters that [upper_char] describes. *)
Lemma ascii_upper_fixed (a : ascii) :
  code (upper_char a) = code a <-> ascii_lowercase (code a) = false.
Proof.
  destruct a as [[] [] [] [] [] [] [] []]; vm_compute; split; intros H;
    first [reflexivity | discriminate H].
Qed.

(** On seven-bit text, with Python's tables there, upper-casing changes
    nothing exactly when no character is one of a-z. *)
Lemma seven_bit_upper_fixed (db : char_tables) (s : utext) :
  ascii_tables db -> seven_bit s ->
  text_upper db s = s <-> Forall (fun c => ascii_lowercase c = false) s.
Proof.
  intros Hdb Hs. unfold text_upper.
  induction Hs as [|c s Hc _ IH]; [split; [constructor|reflexivity]|].
  cbn [flat_map]. destruct (Hdb c Hc) as [_ ->]. cbn [app].
  assert (code (ascii_of_N c) = c) as Hcode
    by (apply N_ascii_embedding; lia).
  pose proof (ascii_upper_fixed (ascii_of_N c)) as Hfix.
  rewrite Hcode in Hfix. split.
  - intros [= Hhead Htail]. constructor; [now apply Hfix|now apply IH].
  - intros H. inversion H as [|? ? Hlow Hrest]; subst.
    f_equal; [now apply Hfix|now apply IH].
Qed.

(** C10, as the code has it. The search input is looked up directly as
    an ASIN exactly when it has ten characters, all alphanumeric, and
    upper-casing leaves it as it is; a ten-character alphanumeric input
    that upper-casing changes is a keyword search (it cannot be a URL, as
    the colon and the dot are not alphanumeric). For an input of
    seven-bit characters, being left as it is by upper-casing is holding
    no lowercase letter, so there the rule is the one of the
    specification: ASIN lookup exactly for ten alphanumeric characters
    with no lowercase letter, keyword search for ten alphanumeric
    characters with a lowercase letter among them. *)
Theorem C10_asin_routing (db : char_tables) (domain keyword : utext) :
  (is_asin_lookup (search_route_text db domain keyword) = true
   <-> length keyword = 10%nat
       /\ Forall (fun c => ct_isalnum db c = true) keyword
       /\ text_upper db keyword = keyword)
  /\ (ct_isalnum db 58 = false -> ct_isalnum db 46 = false ->
      length keyword = 10%nat ->
      Forall (fun c => ct_isalnum db c = true) keyword ->
      text_upper db keyword <> keyword ->
      search_route_text db domain keyword = KeywordLookup)
  /\ (ascii_tables db -> seven_bit keyword ->
      (is_asin_lookup (search_route_text db domain keyword) = true
       <-> length keyword = 10%nat
           /\ Forall (fun c => ct_isalnum db c = true) keyword
           /\ Forall (fun c => ascii_lowercase c = false) keyword)
      /\ (length keyword = 10%nat ->
          Forall (fun c => ct_isalnum db c = true) keyword ->
          Exists (fun c => ascii_lowercase c = true) keyword ->
          search_route_text db domain keyword = KeywordLookup)).
Proof.
  assert (Haln : forall s,
    forallb (ct_isalnum db) s = true
    <-> Forall (fun c => ct_isalnum db c = true) s).
  { intros s. now rewrite forallb_forall, List.Forall_forall. }
  assert (is_asin_lookup (search_route_text db domain keyword) = true
          <-> length keyword = 10%nat
              /\ Forall (fun c => ct_isalnum db c = true) keyword
              /\ text_upper db keyword = keyword) as Hiff.
  { unfold search_route_text, text_isalnum.
    destruct (Nat.eqb (length keyword) 10) eqn:El; cbn [andb].
    - apply Nat.eqb_eq in El.
      assert (negb (Nat.eqb (length keyword) 0) = true) as ->
        by now rewrite El.
      cbn [andb].
      destruct (forallb (ct_isalnum db) keyword) eqn:Ea; cbn [andb].
      + destruct (bool_decide (text_upper db keyword = keyword)) eqn:Eu.
        * apply bool_decide_eq_true in Eu. split; [|reflexivity].
          intros _. split; [exact El|]. split; [now apply Haln|exact Eu].
        * apply bool_decide_eq_false in Eu. split.
          -- destruct (_ || _)%bool; discriminate.
          -- intros (_ & _ & H). contradiction.
      + split.
        * destruct (_ || _)%bool; discriminate.
        * intros (_ & H & _). apply Haln in H. congruence.
    - apply Nat.eqb_neq in El. split.
      + destruct (_ || _)%bool; discriminate.
      + intros (H & _). contradiction. }
  assert (ct_isalnum db 58 = false -> ct_isalnum db 46 = false ->
          length keyword = 10%nat ->
          Forall (fun c => ct_isalnum db c = true) keyword ->
          text_upper db keyword <> keyword ->
          search_route_text db domain keyword = KeywordLookup) as Hkey.
  { intros Hcolon Hdot Hlen Hal Hup. unfold search_route_text.
    rewrite (bool_decide_eq_false_2 _ Hup), !andb_false_r.
    apply Haln in Hal.
    now rewrite (alnum_text_is_no_url db domain keyword Hcolon Hdot Hal). }
  split; [exact Hiff|]. split; [exact Hkey|].
  intros Hdb Hseven.
  pose proof (seven_bit_upper_fixed db keyword Hdb Hseven) as Hfix.
  split.
  - rewrite Hiff. now rewrite Hfix.
  - intros Hlen Hal Hex. apply Hkey; try assumption.
    + now destruct (Hdb 58%N ltac:(lia)) as [-> _].
    + now destruct (Hdb 46%N ltac:(lia)) as [-> _].
    + intros Hup. apply Hfix in Hup.
      apply List.Exists_exists in Hex as (c & Hc & Hl).
      rewrite List.Forall_forall in Hup. specialize (Hup c Hc). congruence.
Qed.

(** The 8-bit tables are Python's on the seven-bit characters. *)
Lemma latin_tables_ascii : ascii_tables latin_tables.
Proof.
  intros c Hc.
  assert (code (ascii_of_N c) = c) as Hcode
    by (apply N_ascii_embedding; lia).
  revert Hc. rewrite <- Hcode. generalize (ascii_of_N c). clear.
  intros a.
  destruct a as [[] [] [] [] [] [] [] []]; intros Hc;
    first [split; reflexivity | vm_compute in Hc; discriminate Hc].
Qed.

(** The theorem on "B08N5WRWNW", looked up as an ASIN, and on
    "b08n5wrwnw", searched as a keyword. *)
Lemma C10_asin_routing_witness :
  is_asin_lookup
    (search_route_text latin_tables (codes (py "amazon.com"))
       (codes (py "B08N5WRWNW"))) = true
  /\ search_route_text latin_tables (codes (py "amazon.com"))
       (codes (py "b08n5wrwnw")) = KeywordLookup.
Proof.
  split.
  - apply (proj1 (proj2 (proj2 (C10_asin_routing latin_tables
                                  (codes (py "amazon.com"))
                                  (codes (py "B08N5WRWNW"))))
                   latin_tables_ascii
                   ltac:(repeat constructor))).
    split; [reflexivity|]. split; repeat constructor.
  - apply (proj2 (proj2 (proj2 (C10_asin_routing latin_tables
                                  (codes (py "amazon.com"))
                                  (codes (py "b08n5wrwnw"))))
                   latin_tables_ascii
                   ltac:(repeat constructor))).
    + reflexivity.
    + repeat constructor.
    + constructor. reflexivity.
Defined.

(** C10 as worded fails, in both directions. Ten times the small letter
    kra: ten alphanumeric characters, each a lowercase letter, and yet an
    ASIN lookup, as [upper] has no capital to give for it. Ten times the
    titlecase dz with caron: ten alphanumeric characters with no lowercase
    letter among them, and yet no ASIN lookup, as [upper] changes each to
    its capital. *)
Lemma C10_lowercase_counterexample :
  ~ asin_iff_no_lowercase latin_tables (codes (py "amazon.com"))
      (replicate 10 kra)
  /\ ~ asin_iff_no_lowercase latin_tables (codes (py "amazon.com"))
        (replicate 10 dz_titlecase)
  /\ ct_islower latin_tables kra = true
  /\ is_asin_lookup
       (search_route_text latin_tables (codes (py "amazon.com"))
          (replicate 10 kra)) = true
  /\ ct_islower latin_tables dz_titlecase = false
  /\ ct_isalnum latin_tables dz_titlecase = true
  /\ search_route_text latin_tables (codes (py "amazon.com"))
       (replicate 10 dz_titlecase) = KeywordLookup.
Proof.
  split; [|split; [|repeat split; vm_compute; reflexivity]].
  - intros [H _].
    destruct (H ltac:(vm_compute; reflexivity)) as (_ & _ & Hlow).
    inversion Hlow as [|? ? Hkra _]. vm_compute in Hkra. discriminate Hkra.
  - intros [_ H].
    assert (is_asin_lookup
              (search_route_text latin_tables (codes (py "amazon.com"))
                 (replicate 10 dz_titlecase)) = true) as Hasin.
    { apply H. split; [reflexivity|]. split; repeat constructor. }
    vm_compute in Hasin. discriminate Hasin.
Qed.

Lemma flat_map_fixed {A} (f : A -> list A) (l : list A) :
  (forall c, In c l ->
     f c = [c] \/ exists d r, f c = d :: r /\ d <> c) ->
  flat_map f l = l <-> Forall (fun c => f c = [c]) l.
Proof.
  induction l as [|c l IH]; intros H.
  - split; [constructor|reflexivity].
  - assert (flat_map f l = l <-> Forall (fun c => f c = [c]) l) as IH'
      by (apply IH; intros c' Hc'; apply H; now right).
    cbn [flat_map].
    destruct (H c (or_introl eq_refl)) as [Hc | (d & r & Hc & Hd)];
      rewrite Hc; cbn [app].
    + split.
      * intros [= Ht]. constructor; [exact Hc|now apply IH'].
      * intros HF. inversion HF; subst. f_equal. now apply IH'.
    + split.
      * intros [= Hh _]. contradiction.
      * intros HF. inversion HF as [|? ? Hc' _]; subst.
        rewrite Hc in Hc'. injection Hc' as -> _. contradiction.
Qed.

(** The routing on 8-bit text is the routing on text at the 8-bit
    tables. *)
Lemma latin_char_tables (a : ascii) :
  ct_isalnum latin_tables (code a) = is_alnum_char a
  /\ ((upper_keeps a = true /\ ct_upper latin_tables (code a) = [code a])
      \/ (upper_keeps a = false
          /\ exists d r, ct_upper latin_tables (code a) = d :: r
                         /\ d <> code a)).
Proof.
  destruct a as [[] [] [] [] [] [] [] []];
    (split; [reflexivity|]);
    first [ left; split; reflexivity
          | right; split; [reflexivity|];
            eexists _, _; split; [reflexivity|discriminate] ].
Qed.

Lemma codes_startswith (p s : pystr) :
  text_startswith (codes p) (codes s) = startswith p s.
Proof.
  revert s. induction p as [|a p IH]; intros [|b s]; simpl; try reflexivity.
  rewrite IH. f_equal.
  destruct (bool_decide (a = b)) eqn:E.
  - apply bool_decide_eq_true in E as ->. apply N.eqb_refl.
  - apply bool_decide_eq_false in E. apply N.eqb_neq. intros H. apply E.
    unfold code in H.
    rewrite <- (ascii_N_embedding a), <- (ascii_N_embedding b). now f_equal.
Qed.

Lemma search_route_on_latin_text (domain keyword : pystr) :
  search_route_text latin_tables (codes domain) (codes keyword)
  = route_codes (search_route domain keyword).
Proof.
  assert (text_isalnum latin_tables (codes keyword) = isalnum keyword)
    as Halnum.
  { unfold text_isalnum, isalnum, truthy, codes. f_equal.
    - now destruct keyword.
    - induction keyword as [|a s IH]; [reflexivity|]. cbn [map forallb].
      now rewrite (proj1 (latin_char_tables a)), IH. }
  assert (bool_decide (text_upper latin_tables (codes keyword)
                       = codes keyword)
          = upper_unchanged keyword) as Hupper.
  { assert (text_upper latin_tables (codes keyword) = codes keyword
            <-> Forall (fun c => ct_upper latin_tables c = [c])
                       (codes keyword)) as Hfix.
    { apply flat_map_fixed. intros c Hc. unfold codes in Hc.
      apply in_map_iff in Hc as (a & <- & _).
      destruct (proj2 (latin_char_tables a)) as [[_ H] | [_ H]]; auto. }
    assert (Forall (fun c => ct_upper latin_tables c = [c]) (codes keyword)
            <-> forallb upper_keeps keyword = true) as Hkeeps.
    { unfold codes. rewrite List.Forall_map, forallb_forall,
        List.Forall_forall.
      split; intros H a Ha; specialize (H a Ha);
        destruct (proj2 (latin_char_tables a))
          as [[Hk Hu] | (Hk & d & r & Hu & Hd)]; try assumption.
      - rewrite Hu in H. injection H as -> _. contradiction.
      - congruence. }
    unfold upper_unchanged.
    destruct (forallb upper_keeps keyword) eqn:E.
    - apply bool_decide_eq_true. now apply Hfix, Hkeeps.
    - apply bool_decide_eq_false. intros H. apply Hfix, Hkeeps in H.
      congruence. }
  unfold search_route_text, search_route.
  rewrite Halnum, Hupper. unfold codes at 1. rewrite length_map.
  destruct (Nat.eqb (length keyword) 10 && isalnum keyword
            && upper_unchanged keyword)%bool.
  - cbn [route_codes]. unfold codes. now rewrite !map_app.
  - rewrite !codes_startswith.
    replace (codes (py "www.") ++ codes domain)
      with (codes (py "www." ++ domain))
      by (unfold codes; now rewrite map_app).
    rewrite codes_startswith.
    now destruct (_ || _)%bool.
Qed.

(* ===================================================================== *)
(** ** Properties: the login handler *)
(* ===================================================================== *)





(** The handler, path by path. *)
Lemma handle_login_paths (self : AmazonAutoLogin) (w : login_world)
    (url : pystr) :
  handle_login_automatically self w url =
  if lw_get_ok w then
    match ps_current_url (lw_landing w) with
    | Raise => (Raise, [DriverGet url])
    | Ok u =>
        if (negb (_is_login_page (lw_landing w))
            || contains (py "dp/") (lower u))%bool
        then (Ok true, [DriverGet url])
        else
          match attempts_loop self w (py_range 1 (max_retries self + 1)) with
          | (Raise, tr) => (Raise, DriverGet url :: tr)
          | (Ok (Some b), tr) => (Ok b, DriverGet url :: tr)
          | (Ok None, tr) =>
              (fst (_manual_login_fallback (lw_manual w) url),
               DriverGet url
               :: tr ++ snd (_manual_login_fallback (lw_manual w) url))
          end
    end
  else (Raise, [DriverGet url]).
Proof.
  unfold handle_login_automatically, io_do, io_lift.
  destruct (lw_get_ok w); [|reflexivity].
  unfold io_bind at 1.
  destruct (ps_current_url (lw_landing w)) as [u|]; [|reflexivity].
  unfold io_bind at 1.
  destruct (_ || _)%bool; [reflexivity|].
  unfold io_bind at 1.
  destruct (attempts_loop self w (py_range 1 (max_retries self + 1)))
    as [[[b|]|] tr]; simpl.
  - now rewrite app_nil_r.
  - now destruct (_manual_login_fallback (lw_manual w) url).
  - reflexivity.
Qed.

(** The manual fallback, path by path. *)
Lemma manual_fallback_paths (mw : manual_world) (url : pystr) :
  _manual_login_fallback mw url =
  if mw_operator_ok mw then
    if mw_get_ok mw then
      (Ok (negb (_is_login_page (mw_page mw))),
       [OperatorInput ManualLoginPrompt; DriverGet url])
    else (Raise, [OperatorInput ManualLoginPrompt; DriverGet url])
  else (Raise, [OperatorInput ManualLoginPrompt]).
Proof.
  unfold _manual_login_fallback, io_do, io_bind, io_ret.
  destruct (mw_operator_ok mw), (mw_get_ok mw),
    (_is_login_page (mw_page mw)); reflexivity.
Qed.





(* ===================================================================== *)
(** ** Properties: the page extractor and the session *)
(* ===================================================================== *)

Section SessionProperties.

Variable str_float : pyfloat -> pystr.
Variable md5_hexdigest : pystr -> pystr.

Local Abbreviation process_element := (Session.process_element str_float md5_hexdigest).
Local Abbreviation review_identity := (Session.review_identity str_float md5_hexdigest).
Local Abbreviation extract_page :=
  (extract_reviews_from_current_page str_float md5_hexdigest).
Local Abbreviation extend_with := (Session.extend_with str_float md5_hexdigest).
Local Abbreviation pages_loop := (Session.pages_loop str_float md5_hexdigest).
Local Abbreviation scrape_body := (Session.scrape_body str_float md5_hexdigest).

(** What one iteration of the page loop can do. *)
Lemma process_element_cases (page_num : Z) (reviews : list kept)
    (ids : gset pystr) (element : review_element) :
  let rd := extract_review_data element in
  let rid := review_identity element rd (strip (text rd)) in
  process_element page_num (reviews, ids) element = (reviews, ids)
  \/ (text_long_enough rd
      /\ ((exists i, rid = Some i /\ truthy i = true /\ (i ∉ ids)
                     /\ process_element page_num (reviews, ids) element
                        = (reviews ++ [(rid, set_page page_num rd)],
                           {[ i ]} ∪ ids))
          \/ (truthy_id rid = false
              /\ process_element page_num (reviews, ids) element
                 = (reviews ++ [(rid, set_page page_num rd)], ids)))).
Proof.
  intros rd rid. unfold process_element, Session.process_element.
  fold rd. fold rid.
  destruct (negb (truthy (strip (text rd))) || _)%bool eqn:Egate;
    [now left|].
  apply orb_false_iff in Egate as [Et El].
  apply negb_false_iff in Et. apply Nat.ltb_ge in El.
  assert (text_long_enough rd) as Hlong.
  { split; [|exact El]. unfold truthy in Et.
    apply negb_true_iff, bool_decide_eq_false in Et. exact Et. }
  destruct rid as [i|] eqn:Erid.
  - destruct (truthy i) eqn:Ei.
    + destruct (bool_decide (i ∈ ids)) eqn:Em; [now left|].
      apply bool_decide_eq_false in Em.
      right. split; [exact Hlong|]. left. exists i. auto.
    + right. split; [exact Hlong|]. right. simpl. auto.
  - right. split; [exact Hlong|]. right. simpl. auto.
Qed.

Lemma truthy_ids_app (l1 l2 : list kept) :
  truthy_ids (l1 ++ l2) = truthy_ids l1 ++ truthy_ids l2.
Proof. apply omap_app. Qed.

Lemma truthy_ids_one_truthy (i : pystr) (r : review_data) :
  truthy i = true -> truthy_ids [(Some i, r)] = [i].
Proof. intros H. unfold truthy_ids. simpl. now rewrite H. Qed.

Lemma truthy_ids_one_falsy (rid : option pystr) (r : review_data) :
  truthy_id rid = false -> truthy_ids [(rid, r)] = [].
Proof.
  intros H. unfold truthy_ids. simpl.
  destruct rid as [i|]; [|reflexivity]. simpl in H. now rewrite H.
Qed.

Lemma process_element_distinct (page_num : Z) (acc : list kept)
    (st : list kept * gset pystr) (element : review_element) :
  ids_distinct (acc ++ fst st) (snd st) ->
  ids_distinct (acc ++ fst (process_element page_num st element))
               (snd (process_element page_num st element)).
Proof.
  destruct st as [reviews ids]. cbn [fst snd]. intros [Hnd Hin].
  destruct (process_element_cases page_num reviews ids element)
    as [-> | (_ & [(i & Hrid & Hi & Hni & ->) | (Hf & ->)])]; cbn [fst snd].
  - now split.
  - rewrite Hrid, app_assoc. unfold ids_distinct.
    rewrite truthy_ids_app, (truthy_ids_one_truthy _ _ Hi). split.
    + apply NoDup_app. split; [exact Hnd|]. split; [|apply NoDup_singleton].
      intros j Hj Hj'. apply list_elem_of_singleton in Hj'. subst j.
      apply Hni, Hin, Hj.
    + intros j Hj. apply elem_of_app in Hj as [Hj|Hj].
      * apply elem_of_union_r, Hin, Hj.
      * apply list_elem_of_singleton in Hj. subst j.
        apply elem_of_union_l, elem_of_singleton. reflexivity.
  - rewrite app_assoc. unfold ids_distinct.
    rewrite truthy_ids_app, (truthy_ids_one_falsy _ _ Hf), app_nil_r.
    now split.
Qed.

Lemma extract_page_distinct (found : exc (list review_element))
    (page_num : Z) (acc : list kept) (ids : gset pystr) :
  ids_distinct acc ids ->
  ids_distinct (acc ++ fst (extract_page found page_num ids))
               (snd (extract_page found page_num ids)).
Proof.
  intros H. unfold extract_page, extract_reviews_from_current_page.
  destruct found as [elements|]; simpl; [|now rewrite app_nil_r].
  assert (ids_distinct (acc ++ fst (([] : list kept), ids)) (snd (([] : list kept), ids))) as H0
    by (simpl; now rewrite app_nil_r).
  revert H0. generalize (([] : list kept), ids).
  induction elements as [|e elements IH]; intros st Hst; simpl; [exact Hst|].
  apply IH, process_element_distinct, Hst.
Qed.

Lemma extend_with_distinct (found : exc (list review_element))
    (page_num : Z) (s : session) :
  session_distinct s -> session_distinct (extend_with found page_num s).
Proof.
  unfold session_distinct, extend_with, Session.extend_with. intros H.
  pose proof (extract_page_distinct found page_num _ _ H) as H'.
  destruct (extract_page found page_num (collected_review_ids s)).
  exact H'.
Qed.

(** Whatever [extend_with] preserves, the pagination loop preserves, on
    every path, the ones that raise included. *)
Lemma pages_loop_preserves (P : session -> Prop) (nav : Z -> nav_step) :
  (forall found page_num s, P s -> P (extend_with found page_num s)) ->
  forall pages s, P s -> P (snd (pages_loop nav pages s)).
Proof.
  intros Hext pages.
  induction pages as [|page rest IH]; intros s Hs; cbn [Session.pages_loop].
  - exact Hs.
  - destruct (nv_fault_before (nav page)); [exact Hs|].
    destruct (click_next_page_button (nv_next_probes (nav page)))
      as [[]|]; cbn [negb]; try exact Hs.
    destruct (_ && _)%bool; [exact Hs|].
    destruct (nv_fault_after (nav page)); cbn [snd]; auto.
Qed.

Lemma scrape_body_preserves (P : session -> Prop)
    (domain product_asin : pystr) (max_pages : Z) (w : session_world) :
  (forall found page_num s, P s -> P (extend_with found page_num s)) ->
  forall s, P s -> P (snd (scrape_body domain product_asin max_pages w s)).
Proof.
  intros Hext s Hs. unfold scrape_body, Session.scrape_body.
  destruct (_handle_login_for_reviews _ _) as [[]|]; simpl; try exact Hs.
  destruct (sw_fault_after_page1 w); simpl; [now apply Hext|].
  unfold _scrape_reviews_from_pages.
  pose proof (pages_loop_preserves P (sw_nav w) Hext
                (py_range 2 (max_pages + 1)) _ (Hext (sw_page1 w) 1 s Hs)) as H.
  destruct (Session.pages_loop _ _ _ _ _) as [[[]|] s2]; exact H.
Qed.

Lemma initial_session_distinct : session_distinct _initialize_scraping_session.
Proof.
  split; [constructor|]. intros i Hi. simpl in Hi. inversion Hi.
Qed.

(** C3, as the code has it. In the session that a scrape leaves, the
    non-empty identities of the appended records are pairwise distinct and
    all belong to the set of seen identities; and an element whose
    identity is non-empty and already in that set changes neither the
    list nor the set, on whatever page it shows. (An empty identity is
    neither checked nor recorded.) *)
Theorem C3_nonempty_identities_distinct (domain product_asin : pystr)
    (max_pages : Z) (w : session_world) :
  let s := snd (scrape_session str_float md5_hexdigest domain product_asin
                  max_pages w) in
  NoDup (truthy_ids (all_reviews s))
  /\ (forall i, i ∈ truthy_ids (all_reviews s) -> i ∈ collected_review_ids s)
  /\ (forall page_num reviews ids element i,
        review_identity element (extract_review_data element)
          (strip (text (extract_review_data element))) = Some i ->
        truthy i = true ->
        i ∈ ids ->
        process_element page_num (reviews, ids) element = (reviews, ids)).
Proof.
  intros s.
  assert (session_distinct s) as [H1 H2].
  { unfold s, scrape_session.
    apply (scrape_body_preserves session_distinct).
    - intros found page_num s0. apply extend_with_distinct.
    - apply initial_session_distinct. }
  split; [exact H1|]. split; [exact H2|].
  intros page_num reviews ids element i Hid Hi Hin.
  destruct (process_element_cases page_num reviews ids element)
    as [E | (_ & [(j & Hj & _ & Hnj & _) | (Hf & _)])].
  - exact E.
  - rewrite Hid in Hj. injection Hj as <-. contradiction.
  - rewrite Hid in Hf. simpl in Hf. congruence.
Qed.

Lemma process_element_texts (page_num : Z) (st : list kept * gset pystr)
    (element : review_element) :
  Forall (fun k : kept => text_long_enough (snd k)) (fst st) ->
  Forall (fun k : kept => text_long_enough (snd k))
         (fst (process_element page_num st element)).
Proof.
  destruct st as [reviews ids]. cbn [fst]. intros H.
  destruct (process_element_cases page_num reviews ids element)
    as [-> | (Hlong & [(i & _ & _ & _ & ->) | (_ & ->)])]; cbn [fst].
  - exact H.
  - apply Forall_app. split; [exact H|]. constructor; [exact Hlong|constructor].
  - apply Forall_app. split; [exact H|]. constructor; [exact Hlong|constructor].
Qed.

Lemma extend_with_texts (found : exc (list review_element))
    (page_num : Z) (s : session) :
  Forall (fun k : kept => text_long_enough (snd k)) (all_reviews s) ->
  Forall (fun k : kept => text_long_enough (snd k))
         (all_reviews (extend_with found page_num s)).
Proof.
  intros H. unfold extend_with, Session.extend_with.
  assert (Forall (fun k : kept => text_long_enough (snd k))
            (fst (extract_page found page_num (collected_review_ids s)))) as H'.
  { unfold extract_reviews_from_current_page.
    destruct found as [elements|]; [|constructor].
    assert (Forall (fun k : kept => text_long_enough (snd k))
              (fst (([] : list kept), collected_review_ids s))) as H0
      by constructor.
    revert H0. generalize (([] : list kept), collected_review_ids s).
    induction elements as [|e elements IH]; intros st Hst; simpl;
      [exact Hst|].
    apply IH, process_element_texts, Hst. }
  destruct (extract_page found page_num (collected_review_ids s)).
  simpl. apply Forall_app. split; [exact H|exact H'].
Qed.

(** C4. Every record that a scrape returns has a text that, stripped of
    surrounding white space, is not empty and has at least 20 characters;
    and an element whose extracted text has fewer than 20 characters once
    stripped is left out by the page extractor. *)
Theorem C4_short_texts_excluded (domain product_asin : pystr)
    (max_pages : Z) (w : session_world) :
  Forall text_long_enough
    (scrape_reviews_for_product str_float md5_hexdigest domain product_asin
       max_pages w)
  /\ (forall page_num st element,
        (length (strip (text (extract_review_data element))) < 20)%nat ->
        process_element page_num st element = st).
Proof.
  split.
  - unfold scrape_reviews_for_product, scrape_session. apply Forall_fmap.
    apply (scrape_body_preserves
             (fun s => Forall (fun k : kept => text_long_enough (snd k))
                         (all_reviews s))).
    + intros found page_num s0. apply extend_with_texts.
    + constructor.
  - intros page_num [reviews ids] element Hshort.
    destruct (process_element_cases page_num reviews ids element)
      as [E | ([_ Hlong] & _)]; [exact E|lia].
Qed.

Lemma extend_with_appends (found : exc (list review_element))
    (page_num : Z) (s : session) :
  all_reviews (extend_with found page_num s)
  = all_reviews s
    ++ fst (extract_page found page_num (collected_review_ids s)).
Proof.
  unfold extend_with, Session.extend_with.
  now destruct (extract_page found page_num (collected_review_ids s)).
Qed.

Lemma pages_loop_appends (nav : Z -> nav_step) (pages : list Z)
    (s : session) :
  all_reviews s `prefix_of` all_reviews (snd (pages_loop nav pages s)).
Proof.
  apply (pages_loop_preserves
           (fun s' => all_reviews s `prefix_of` all_reviews s')).
  - intros found page_num s0 [k Hk]. rewrite extend_with_appends, Hk.
    rewrite <- app_assoc. eexists. reflexivity.
  - reflexivity.
Qed.

Lemma pages_loop_advance (nav : Z -> nav_step) (page : Z) (rest : list Z)
    (s : session) :
  step_advances nav page = true ->
  pages_loop nav (page :: rest) s
  = pages_loop nav rest (extend_with (nv_found (nav page)) page s).
Proof.
  unfold step_advances. cbn [Session.pages_loop].
  destruct (nv_fault_before (nav page)); [discriminate|].
  destruct (click_next_page_button (nv_next_probes (nav page)))
    as [[]|]; try discriminate.
  cbn [negb andb advanced].
  destruct (negb (Z.eqb (nv_current_page (nav page)) page)
            && Z.eqb (nv_current_page (nav page)) 1)%bool; [discriminate|].
  destruct (nv_fault_after (nav page)); [discriminate|]. reflexivity.
Qed.

Lemma pages_loop_stop (nav : Z -> nav_step) (page : Z) (rest : list Z)
    (s : session) :
  step_stops nav page = true ->
  snd (pages_loop nav (page :: rest) s) = s.
Proof.
  unfold step_stops. cbn [Session.pages_loop].
  destruct (nv_fault_before (nav page)); [intros _; reflexivity|].
  destruct (click_next_page_button (nv_next_probes (nav page)))
    as [[]|]; try (intros _; reflexivity).
  cbn [negb orb advanced].
  destruct (negb (Z.eqb (nv_current_page (nav page)) page)
            && Z.eqb (nv_current_page (nav page)) 1)%bool; [intros _; reflexivity|discriminate].
Qed.

Lemma pages_loop_fault_after (nav : Z -> nav_step) (page : Z)
    (rest : list Z) (s : session) :
  step_stops nav page = false ->
  nv_fault_after (nav page) = true ->
  pages_loop nav (page :: rest) s
  = (Raise, extend_with (nv_found (nav page)) page s).
Proof.
  unfold step_stops. cbn [Session.pages_loop]. intros H ->.
  destruct (nv_fault_before (nav page)); [discriminate|].
  destruct (click_next_page_button (nv_next_probes (nav page)))
    as [[]|]; try discriminate.
  cbn [negb orb advanced] in *.
  destruct (negb (Z.eqb (nv_current_page (nav page)) page)
            && Z.eqb (nv_current_page (nav page)) 1)%bool; [discriminate|reflexivity].
Qed.

Lemma pages_loop_visited (nav : Z -> nav_step) (visited pages : list Z)
    (s : session) :
  forallb (step_advances nav) visited = true ->
  pages_loop nav (visited ++ pages) s
  = pages_loop nav pages
      (fold_left (fun s0 p => extend_with (nv_found (nav p)) p s0) visited s).
Proof.
  revert s.
  induction visited as [|p visited IH]; intros s; cbn [app fold_left forallb];
    [reflexivity|].
  rewrite andb_true_iff. intros [Hp Hv].
  rewrite (pages_loop_advance nav p _ s Hp). now apply IH.
Qed.

Lemma fold_extend_appends (nav : Z -> nav_step) (visited : list Z)
    (s : session) :
  all_reviews s
  `prefix_of` all_reviews
    (fold_left (fun s0 p => extend_with (nv_found (nav p)) p s0) visited s).
Proof.
  revert s. induction visited as [|p visited IH]; intros s; cbn [fold_left];
    [reflexivity|].
  etransitivity; [|apply IH]. rewrite extend_with_appends.
  eexists. reflexivity.
Qed.

(** The pages loop leaves what the pages it went through gave: the pages
    up to the one at which it ended, that page included when the
    exception came after its extraction. *)
Lemma pages_loop_collects (nav : Z -> nav_step) (pages : list Z)
    (s : session) :
  exists visited,
    visited `prefix_of` pages
    /\ snd (pages_loop nav pages s)
       = fold_left (fun s0 p => extend_with (nv_found (nav p)) p s0)
           visited s.
Proof.
  revert s. induction pages as [|page rest IH]; intros s.
  - exists []. split; reflexivity.
  - destruct (step_stops nav page) eqn:Hstop.
    + exists []. split; [apply prefix_nil|].
      now rewrite (pages_loop_stop nav page rest s Hstop).
    + destruct (nv_fault_after (nav page)) eqn:Hfault.
      * exists [page]. split; [apply prefix_cons, prefix_nil|].
        now rewrite (pages_loop_fault_after nav page rest s Hstop Hfault).
      * assert (step_advances nav page = true) as Hadv.
        { unfold step_advances, step_stops in *. rewrite Hfault.
          destruct (nv_fault_before (nav page)); [discriminate|].
          destruct (advanced _); [|discriminate].
          cbn [negb orb andb] in *. now rewrite Hstop. }
        rewrite (pages_loop_advance nav page rest s Hadv).
        destruct (IH (extend_with (nv_found (nav page)) page s))
          as (visited & Hpre & E).
        exists (page :: visited). split; [now apply prefix_cons|exact E].
Qed.

(** C5. [scrape_reviews_for_product] returns the accumulated list on
    every path, and the list is exactly what the pages gone through gave.
    When the login does not succeed (it fails or raises) the list is
    empty. When it succeeds, the result is what page 1 and some first
    pages of the pagination gave, in order, each page's records after
    those before it. Which pages: when an exception escapes right after
    page 1, page 1 alone; when the pagination is stopped at a page (an
    exception before the click, no advance, or a fall back to page 1),
    all the pages before it; when an exception escapes after a page was
    extracted, all the pages before it and that page as well; and when
    every turn goes through, all the pages of the budget. Going through
    more pages only adds to the list. *)
Theorem C5_partial_results_returned (domain product_asin : pystr)
    (max_pages : Z) (w : session_world) :
  let url :=
    py "https://www." ++ domain ++ py "/product-reviews/" ++ product_asin
    ++ py "/" in
  let result :=
    scrape_reviews_for_product str_float md5_hexdigest domain product_asin
      max_pages w in
  let page1 := extend_with (sw_page1 w) 1 _initialize_scraping_session in
  let collected visited :=
    (all_reviews
       (fold_left (fun s0 p => extend_with (nv_found (sw_nav w p)) p s0)
          visited page1)).*2 in
  (_handle_login_for_reviews (sw_login w) url <> Ok true -> result = [])
  /\ (_handle_login_for_reviews (sw_login w) url = Ok true ->
      (exists visited,
         visited `prefix_of` py_range 2 (max_pages + 1)
         /\ result = collected visited)
      /\ (sw_fault_after_page1 w = true -> result = collected [])
      /\ (sw_fault_after_page1 w = false ->
          (forall visited page rest,
             py_range 2 (max_pages + 1) = visited ++ page :: rest ->
             forallb (step_advances (sw_nav w)) visited = true ->
             (step_stops (sw_nav w) page = true ->
              result = collected visited)
             /\ (step_stops (sw_nav w) page = false ->
                 nv_fault_after (sw_nav w page) = true ->
                 result = collected (visited ++ [page])))
          /\ (forallb (step_advances (sw_nav w))
                (py_range 2 (max_pages + 1)) = true ->
              result = collected (py_range 2 (max_pages + 1)))))
  /\ (forall visited more,
        collected visited `prefix_of` collected (visited ++ more)).
Proof.
  intros url result page1 collected.
  assert (_handle_login_for_reviews (sw_login w) url = Ok true ->
          sw_fault_after_page1 w = false ->
          result
          = (all_reviews
               (snd (pages_loop (sw_nav w) (py_range 2 (max_pages + 1))
                       page1))).*2) as Hloop.
  { intros Hlogin Hfault.
    unfold result, scrape_reviews_for_product, scrape_session,
      Session.scrape_body. fold url. rewrite Hlogin, Hfault.
    fold page1. unfold _scrape_reviews_from_pages.
    now destruct (Session.pages_loop _ _ _ _ _) as [[[]|] s2]. }
  split; [|split].
  - intros Hlogin. unfold result, scrape_reviews_for_product, scrape_session,
      Session.scrape_body. fold url.
    destruct (_handle_login_for_reviews (sw_login w) url) as [[]|];
      [congruence|reflexivity|reflexivity].
  - intros Hlogin.
    assert (sw_fault_after_page1 w = true -> result = collected []) as H1.
    { intros Hfault.
      unfold result, scrape_reviews_for_product, scrape_session,
        Session.scrape_body. fold url. now rewrite Hlogin, Hfault. }
    split; [|split; [exact H1|]].
    + destruct (sw_fault_after_page1 w) eqn:Hfault.
      * exists []. split; [apply prefix_nil|now apply H1].
      * destruct (pages_loop_collects (sw_nav w)
                    (py_range 2 (max_pages + 1)) page1)
          as (visited & Hpre & E).
        exists visited. split; [exact Hpre|].
        rewrite (Hloop Hlogin eq_refl), E. reflexivity.
    + intros Hfault. split.
      * intros visited page rest Hrange Hv. rewrite (Hloop Hlogin Hfault).
        rewrite Hrange, (pages_loop_visited _ visited _ page1 Hv). split.
        -- intros Hstop. now rewrite (pages_loop_stop _ _ _ _ Hstop).
        -- intros Hgo Hafter.
           rewrite (pages_loop_fault_after _ _ _ _ Hgo Hafter).
           unfold collected. now rewrite fold_left_app.
      * intros Hall. rewrite (Hloop Hlogin Hfault).
        rewrite <- (app_nil_r (py_range 2 (max_pages + 1))) at 1.
        now rewrite (pages_loop_visited _ _ [] page1 Hall).
  - intros visited more. unfold collected. rewrite fold_left_app.
    destruct (fold_extend_appends (sw_nav w) more
                (fold_left
                   (fun s0 p => extend_with (nv_found (sw_nav w p)) p s0)
                   visited page1)) as [k Hk].
    rewrite Hk, fmap_app. eexists. reflexivity.
Qed.

End SessionProperties.

(** The theorem on a session of two pages where page 2 shows the review
    of page 1 again, next to a new one. *)
Lemma C3_nonempty_identities_distinct_witness :
  process_element sample_str_float sample_md5 2 ([], {[ py "R1" ]}) review_a
  = ([], {[ py "R1" ]})
  /\ map fst (all_reviews
                (snd (scrape_session sample_str_float sample_md5
                        (py "amazon.com") (py "B000000000") 5
                        (two_page_world [review_a] [review_a; review_b]))))
     = [Some (py "R1"); Some (py "R2")].
Proof.
  split.
  - apply (proj2 (proj2 (C3_nonempty_identities_distinct
                           sample_str_float sample_md5
                           (py "amazon.com") (py "B000000000") 5
                           (two_page_world [review_a] [review_a; review_b])))
             2 [] {[ py "R1" ]} review_a (py "R1")).
    + reflexivity.
    + reflexivity.
    + apply elem_of_singleton. reflexivity.
  - vm_compute. reflexivity.
Defined.

(** C3 as worded fails: a review whose identity element carries an empty
    [data-review-id] and no [id] gets no identity ([None]), which is
    neither checked nor recorded; shown twice on a page it is appended
    twice, as two equal records. *)
Lemma C3_empty_identity_counterexample :
  let kept_records :=
    all_reviews
      (snd (scrape_session sample_str_float sample_md5
              (py "amazon.com") (py "B000000000") 5
              (one_page_world [review_without_id; review_without_id]))) in
  map fst kept_records = [None; None]
  /\ ~ NoDup kept_records
  /\ length (scrape_reviews_for_product sample_str_float sample_md5
               (py "amazon.com") (py "B000000000") 5
               (one_page_world [review_without_id; review_without_id]))
     = 2%nat.
Proof.
  split; [vm_compute; reflexivity|]. split; [|vm_compute; reflexivity].
  intros H. vm_compute in H.
  apply NoDup_cons in H as [H _]. apply H. left.
Qed.

(** The theorem on a page with one review of twelve characters. *)
Lemma C4_short_texts_excluded_witness :
  process_element sample_str_float sample_md5 1 ([], ∅) review_too_short
  = ([], ∅)
  /\ Forall text_long_enough
       (scrape_reviews_for_product sample_str_float sample_md5
          (py "amazon.com") (py "B000000000") 5
          (two_page_world [review_a; review_too_short] [review_b])).
Proof.
  split.
  - apply (proj2 (C4_short_texts_excluded sample_str_float sample_md5
                    (py "amazon.com") (py "B000000000") 5
                    (two_page_world [review_a; review_too_short] [review_b]))).
    vm_compute. lia.
  - apply (proj1 (C4_short_texts_excluded sample_str_float sample_md5
                    (py "amazon.com") (py "B000000000") 5
                    (two_page_world [review_a; review_too_short] [review_b]))).
Defined.

(** The theorem on a session that lands on the sign-in page without
    credentials, on a pagination that stops at its third page, and on one
    whose second page is extracted before an exception escapes. *)
Lemma C5_partial_results_returned_witness :
  scrape_reviews_for_product sample_str_float sample_md5
    (py "amazon.com") (py "B000000000") 5 signin_world = []
  /\ map page
       (scrape_reviews_for_product sample_str_float sample_md5
          (py "amazon.com") (py "B000000000") 5
          (two_page_world [review_a] [review_b])) = [1; 2]
  /\ map page
       (scrape_reviews_for_product sample_str_float sample_md5
          (py "amazon.com") (py "B000000000") 5
          (fault_after_second_world [review_a] [review_b])) = [1; 2].
Proof.
  split; [|split].
  - apply (proj1 (C5_partial_results_returned sample_str_float sample_md5
                    (py "amazon.com") (py "B000000000") 5 signin_world)).
    vm_compute. discriminate.
  - destruct (proj2 (proj2 (proj1 (proj2
               (C5_partial_results_returned sample_str_float sample_md5
                  (py "amazon.com") (py "B000000000") 5
                  (two_page_world [review_a] [review_b])))
               ltac:(vm_compute; reflexivity))) eq_refl) as [Hparts _].
    rewrite (proj1 (Hparts [2] 3 [4; 5] ltac:(vm_compute; reflexivity)
                      ltac:(vm_compute; reflexivity))
               ltac:(vm_compute; reflexivity)).
    vm_compute. reflexivity.
  - destruct (proj2 (proj2 (proj1 (proj2
               (C5_partial_results_returned sample_str_float sample_md5
                  (py "amazon.com") (py "B000000000") 5
                  (fault_after_second_world [review_a] [review_b])))
               ltac:(vm_compute; reflexivity))) eq_refl) as [Hparts _].
    rewrite (proj2 (Hparts [] 2 [3; 4; 5] ltac:(vm_compute; reflexivity)
                      ltac:(vm_compute; reflexivity))
               ltac:(vm_compute; reflexivity)
               ltac:(vm_compute; reflexivity)).
    vm_compute. reflexivity.
Defined.

(* ===================================================================== *)
(** ** Properties: the persisted file *)
(* ===================================================================== *)

Lemma filter_id_iff {A} (f : A -> bool) (l : list A) :
  List.filter f l = l <-> List.Forall (fun x => f x = true) l.
Proof.
  rewrite List.Forall_forall. split.
  - intros E x Hx. rewrite <- E in Hx. now apply List.filter_In in Hx.
  - intros H. induction l as [|x l IH]; simpl; [reflexivity|].
    rewrite (H x (or_introl eq_refl)). f_equal.
    apply IH. intros y Hy. apply H. now right.
Qed.

Lemma filter_sublist {A} (f : A -> bool) (l : list A) :
  sublist (List.filter f l) l.
Proof.
  induction l as [|x l IH]; simpl; [constructor|].
  destruct (f x); now constructor.
Qed.

(** C9, as the code has it. For a non-empty review sequence a file is
    written; the columns of the frame it holds are those of asin, rating,
    title, text, reviewer, date, page that are a key of at least one
    record, in that fixed order (all seven exactly when each of them is
    such a key); and its bytes are the UTF-8 signature followed by the
    UTF-8 encoding of the text that the writer produces for that frame. *)
Theorem C9_present_columns_in_fixed_order (to_csv_text : dataframe -> pystr)
    (reviews : list dict) (product_asin keyword : pystr) :
  reviews <> [] ->
  exists file,
    save_reviews_to_csv to_csv_text reviews product_asin keyword = Some file
    /\ sublist (columns (frame file)) column_order
    /\ (forall col,
          In col (columns (frame file))
          <-> In col column_order
              /\ exists d, In d reviews /\ has_key col d = true)
    /\ (columns (frame file) = column_order
        <-> List.Forall (fun col => in_columns reviews col = true)
              column_order)
    /\ file_bytes file = utf8_bom ++ utf8_encode (to_csv_text (frame file)).
Proof.
  intros Hne. destruct reviews as [|d0 reviews0] eqn:Er; [contradiction|].
  rewrite <- Er. clear Hne.
  exists {| file_name := csv_filename product_asin keyword;
            frame := select_frame reviews;
            file_bytes :=
              utf8_bom ++ utf8_encode (to_csv_text (select_frame reviews)) |}.
  split; [rewrite Er; reflexivity|].
  cbn [frame file_bytes]. unfold select_frame. cbn [columns].
  unfold existing_columns.
  split; [apply filter_sublist|]. split; [|split; [|reflexivity]].
  - intros col. rewrite List.filter_In. unfold in_columns.
    rewrite existsb_exists. reflexivity.
  - apply filter_id_iff.
Qed.

(** The theorem on the records of a two-page scrape: no record has an
    [asin] key, and the columns are the six others. *)
Lemma C9_present_columns_in_fixed_order_witness :
  exists file,
    save_reviews_to_csv header_only
      (map review_to_dict
         (scrape_reviews_for_product sample_str_float sample_md5
            (py "amazon.com") (py "B000000000") 5
            (two_page_world [review_a] [review_b])))
      (py "B000000000") [] = Some file
    /\ sublist (columns (frame file)) column_order.
Proof.
  destruct (C9_present_columns_in_fixed_order header_only
              (map review_to_dict
                 (scrape_reviews_for_product sample_str_float sample_md5
                    (py "amazon.com") (py "B000000000") 5
                    (two_page_world [review_a] [review_b])))
              (py "B000000000") []) as (file & Hsave & Hsub & _).
  - vm_compute. discriminate.
  - exists file. split; [exact Hsave|exact Hsub].
Defined.

(** C9 as worded fails: the records that the extractor builds carry no
    [asin] key, so the file written for them has six columns and its
    header line starts with rating. *)
Lemma C9_asin_column_counterexample :
  let reviews :=
    map review_to_dict
      (scrape_reviews_for_product sample_str_float sample_md5
         (py "amazon.com") (py "B000000000") 5
         (two_page_world [review_a] [review_b])) in
  reviews <> []
  /\ (columns <$> (frame <$> save_reviews_to_csv header_only reviews
                              (py "B000000000") []))
     = Some [py "rating"; py "title"; py "text"; py "reviewer"; py "date";
             py "page"]
  /\ (columns <$> (frame <$> save_reviews_to_csv header_only reviews
                              (py "B000000000") []))
     <> Some column_order
  /\ (file_name <$> save_reviews_to_csv header_only reviews
                      (py "B000000000") [])
     = Some (py "amazon_reviews_B000000000.csv").
Proof.
  split; [vm_compute; discriminate|].
  split; [vm_compute; reflexivity|].
  split; [vm_compute; discriminate|vm_compute; reflexivity].
Qed.

(* ===================================================================== *)
(** ** Further properties: the login handler *)
(* ===================================================================== *)

Lemma count_events_app (f : io_event -> bool) (t1 t2 : list io_event) :
  count_events f (t1 ++ t2) = (count_events f t1 + count_events f t2)%nat.
Proof.
  unfold count_events. now rewrite List.filter_app, length_app.
Qed.

(** One automatic attempt asks for the two-factor code at most once and
    does nothing else that is traced. *)
Lemma count_events_nil (f : io_event -> bool) : count_events f [] = 0%nat.
Proof. reflexivity. Qed.

Lemma attempt_trace (aw : attempt_world) :
  exists b tr,
    _attempt_automatic_login aw = (Ok b, tr)
    /\ (tr = [] \/ tr = [OperatorInput TwoFactorPrompt]).
Proof.
  destruct aw as [e p si tf op p2 pv].
  unfold _attempt_automatic_login, _handle_two_factor_auth, io_try,
    io_bind, io_do, io_ret. simpl.
  destruct e, p, si, tf, op, (_is_login_page p2); simpl;
    eexists _, _; (split; [reflexivity|]); auto.
Qed.

(** One turn of the retry loop, path by path. *)
Lemma attempts_loop_cons (self : AmazonAutoLogin) (w : login_world)
    (k : Z) (rest : list Z) :
  exists ok tr1,
    (tr1 = [] \/ tr1 = [OperatorInput TwoFactorPrompt])
    /\ attempts_loop self w (k :: rest)
       = if (ok && _verify_login_success
                     (aw_page_at_verify (lw_attempt w k)))%bool
         then (Ok (Some true), tr1)
         else if Z.ltb k (max_retries self) then
           if lw_refresh_ok w k
           then (fst (attempts_loop self w rest),
                 tr1 ++ DriverRefresh :: snd (attempts_loop self w rest))
           else (Raise, tr1 ++ [DriverRefresh])
         else (fst (attempts_loop self w rest),
               tr1 ++ snd (attempts_loop self w rest)).
Proof.
  destruct (attempt_trace (lw_attempt w k)) as (ok & tr1 & E1 & Htr1).
  exists ok, tr1. split; [exact Htr1|].
  cbn [attempts_loop]. rewrite E1. unfold io_bind at 1.
  destruct (ok && _)%bool; [unfold io_ret; now rewrite app_nil_r|].
  destruct (Z.ltb k (max_retries self)).
  - unfold io_do, io_bind. destruct (lw_refresh_ok w k); [|reflexivity].
    now destruct (attempts_loop self w rest).
  - unfold io_ret, io_bind. now destruct (attempts_loop self w rest).
Qed.

Lemma attempts_loop_counts (self : AmazonAutoLogin) (w : login_world)
    (attempts : list Z) :
  (count_events is_refresh (snd (attempts_loop self w attempts))
   <= length (List.filter (fun k => Z.ltb k (max_retries self)) attempts))%nat
  /\ (count_events is_two_factor_prompt (snd (attempts_loop self w attempts))
      <= length attempts)%nat
  /\ count_events is_manual_prompt (snd (attempts_loop self w attempts)) = 0%nat
  /\ count_events is_get (snd (attempts_loop self w attempts)) = 0%nat.
Proof.
  induction attempts as [|k rest IH].
  - unfold count_events. simpl. repeat split; lia.
  - destruct (attempts_loop_cons self w k rest) as (ok & tr1 & Htr1 & ->).
    assert (count_events is_refresh tr1 = 0
            /\ count_events is_two_factor_prompt tr1 <= 1
            /\ count_events is_manual_prompt tr1 = 0
            /\ count_events is_get tr1 = 0)%nat as (A1 & A2 & A3 & A4)
      by (destruct Htr1 as [-> | ->]; unfold count_events; simpl;
          repeat split; lia).
    destruct IH as (IH1 & IH2 & IH3 & IH4).
    cbn [List.filter length].
    destruct (ok && _)%bool; [cbn [snd]; repeat split; lia|].
    destruct (Z.ltb k (max_retries self)).
    + change (?x ++ DriverRefresh :: ?y) with (x ++ [DriverRefresh] ++ y).
      destruct (lw_refresh_ok w k); cbn [snd length];
        rewrite !count_events_app;
        change (count_events is_refresh [DriverRefresh]) with 1%nat;
        change (count_events is_two_factor_prompt [DriverRefresh])
          with 0%nat;
        change (count_events is_manual_prompt [DriverRefresh]) with 0%nat;
        change (count_events is_get [DriverRefresh]) with 0%nat;
        rewrite ?count_events_nil; repeat split; lia.
    + cbn [snd]. rewrite !count_events_app. repeat split; lia.
Qed.

Lemma py_range_length (lo hi : Z) :
  length (py_range lo hi) = Z.to_nat (hi - lo).
Proof. unfold py_range. now rewrite length_map, length_seq. Qed.

Lemma py_range_below (lo hi m : Z) :
  (length (List.filter (fun k => Z.ltb k m) (py_range lo hi))
   <= Z.to_nat (m - lo))%nat.
Proof.
  unfold py_range.
  assert (forall n a,
    (length (List.filter (fun k => Z.ltb k m)
               (map (fun i => (lo + Z.of_nat i)%Z) (seq a n)))
     <= Z.to_nat (m - (lo + Z.of_nat a))%Z)%nat) as H.
  { induction n as [|n IH]; intros a; simpl; [lia|].
    specialize (IH (S a)).
    destruct (Z.ltb (lo + Z.of_nat a) m) eqn:E; simpl.
    - apply Z.ltb_lt in E. lia.
    - lia. }
  etransitivity; [exact (H (Z.to_nat (hi - lo)) O)|].
  change (Z.of_nat 0) with 0%Z. apply Nat.eq_le_incl. f_equal. lia.
Qed.

(** X1. The login handler has a hard ceiling: whatever the driver and the
    operator do, it navigates first, refreshes the page at most
    [max_retries - 1] times, asks for a two-factor code at most
    [max_retries] times, asks for a manual login at most once, and
    navigates at most twice. *)
Theorem login_retry_ceiling (self : AmazonAutoLogin) (w : login_world)
    (url : pystr) :
  let tr := snd (handle_login_automatically self w url) in
  (exists rest, tr = DriverGet url :: rest)
  /\ (count_events is_refresh tr <= Z.to_nat (max_retries self - 1))%nat
  /\ (count_events is_two_factor_prompt tr <= Z.to_nat (max_retries self))%nat
  /\ (count_events is_manual_prompt tr <= 1)%nat
  /\ (count_events is_get tr <= 2)%nat.
Proof.
  cbv zeta. rewrite handle_login_paths.
  pose proof (attempts_loop_counts self w
                (py_range 1 (max_retries self + 1))) as (H1 & H2 & H3 & H4).
  pose proof (py_range_below 1 (max_retries self + 1) (max_retries self)).
  rewrite py_range_length in H2.
  replace (max_retries self + 1 - 1) with (max_retries self) in H2 by lia.
  destruct (lw_get_ok w);
    [|split; [eauto|unfold count_events; simpl; repeat split; lia]].
  destruct (ps_current_url (lw_landing w)) as [u|];
    [|split; [eauto|unfold count_events; simpl; repeat split; lia]].
  destruct (_ || _)%bool;
    [split; [eauto|unfold count_events; simpl; repeat split; lia]|].
  destruct (attempts_loop self w (py_range 1 (max_retries self + 1)))
    as [[[b|]|] tr]; cbn [snd] in *.
  - split; [eauto|].
    change (DriverGet url :: tr) with ([DriverGet url] ++ tr).
    rewrite !count_events_app.
    change (count_events is_refresh [DriverGet url]) with 0%nat.
    change (count_events is_two_factor_prompt [DriverGet url]) with 0%nat.
    change (count_events is_manual_prompt [DriverGet url]) with 0%nat.
    change (count_events is_get [DriverGet url]) with 1%nat.
    repeat split; lia.
  - split; [eauto|]. rewrite manual_fallback_paths.
    change (DriverGet url :: tr ++ ?x) with ([DriverGet url] ++ tr ++ x).
    rewrite !count_events_app.
    change (count_events is_refresh [DriverGet url]) with 0%nat.
    change (count_events is_two_factor_prompt [DriverGet url]) with 0%nat.
    change (count_events is_manual_prompt [DriverGet url]) with 0%nat.
    change (count_events is_get [DriverGet url]) with 1%nat.
    destruct (mw_operator_ok (lw_manual w)), (mw_get_ok (lw_manual w));
      cbn [snd]; unfold count_events at 2 4 6 8; simpl;
      repeat split; lia.
  - split; [eauto|].
    change (DriverGet url :: tr) with ([DriverGet url] ++ tr).
    rewrite !count_events_app.
    change (count_events is_refresh [DriverGet url]) with 0%nat.
    change (count_events is_two_factor_prompt [DriverGet url]) with 0%nat.
    change (count_events is_manual_prompt [DriverGet url]) with 0%nat.
    change (count_events is_get [DriverGet url]) with 1%nat.
    repeat split; lia.
Qed.

(** X2. With no retries allowed ([max_retries <= 0]) the handler makes no
    automatic attempt: on a login page it navigates and goes straight to
    the manual fallback. *)
Theorem login_without_retries (self : AmazonAutoLogin) (w : login_world)
    (url u : pystr) :
  max_retries self <= 0 ->
  lw_get_ok w = true ->
  ps_current_url (lw_landing w) = Ok u ->
  contains (py "dp/") (lower u) = false ->
  _is_login_page (lw_landing w) = true ->
  handle_login_automatically self w url
  = (fst (_manual_login_fallback (lw_manual w) url),
     DriverGet url :: snd (_manual_login_fallback (lw_manual w) url)).
Proof.
  intros Hm Hget Hu Hdp Hlogin. rewrite handle_login_paths.
  rewrite Hget, Hu, Hlogin, Hdp. cbn [negb orb].
  unfold py_range. replace (Z.to_nat (max_retries self + 1 - 1)) with O by lia.
  reflexivity.
Qed.

Lemma login_without_retries_witness :
  handle_login_automatically
    {| email := py "a@b.c"; password := py "pw"; max_retries := 0 |}
    (stuck_login blank_page) (py "https://www.amazon.com/product-reviews/B000000000/")
  = (Ok true,
     [ DriverGet (py "https://www.amazon.com/product-reviews/B000000000/");
       OperatorInput ManualLoginPrompt;
       DriverGet (py "https://www.amazon.com/product-reviews/B000000000/") ]).
Proof.
  rewrite (login_without_retries
             {| email := py "a@b.c"; password := py "pw"; max_retries := 0 |}
             (stuck_login blank_page)
             (py "https://www.amazon.com/product-reviews/B000000000/")
             (py "https://www.amazon.com/ap/signin")).
  - vm_compute. reflexivity.
  - simpl. lia.
  - reflexivity.
  - reflexivity.
  - vm_compute. reflexivity.
  - vm_compute. reflexivity.
Defined.

(** X3. Verification of a login, when the location and the title can be
    read: it fails only on a page that the classifier takes for a login
    page; but it succeeds on every page whose location mentions
    [product-reviews] or [dp/], a login page included. When the location or
    the title cannot be read it fails. *)
Theorem verify_login_success_cases (p : page_state) :
  (forall u t,
     ps_current_url p = Ok u -> ps_title p = Ok t ->
     _verify_login_success p = false -> _is_login_page p = true)
  /\ (forall u t,
        ps_current_url p = Ok u -> ps_title p = Ok t ->
        (contains (py "product-reviews") (lower u)
         || contains (py "dp/") (lower u))%bool = true ->
        _verify_login_success p = true)
  /\ (ps_current_url p = Raise \/ ps_title p = Raise ->
      _verify_login_success p = false).
Proof.
  unfold _verify_login_success. split; [|split].
  - intros u t -> ->. simpl.
    destruct (_is_login_page p); [reflexivity|].
    rewrite !orb_true_r. discriminate.
  - intros u t -> ->. simpl. intros H.
    apply orb_true_iff in H as [-> | ->]; [reflexivity|].
    now rewrite orb_true_r.
  - intros [-> | ->]; simpl; [reflexivity|].
    destruct (ps_current_url p); reflexivity.
Qed.

Lemma verify_login_success_cases_witness :
  _verify_login_success signin_with_return = true
  /\ _is_login_page signin_with_return = true
  /\ _is_login_page signin_page = true.
Proof.
  split; [|split].
  - apply (proj1 (proj2 (verify_login_success_cases signin_with_return))
             (py "https://www.amazon.com/ap/signin?return_to=/product-reviews/B000000000/")
             (py "Amazon Sign-In")); reflexivity.
  - vm_compute. reflexivity.
  - destruct (_verify_login_success signin_page) eqn:E.
    + vm_compute in E. discriminate.
    + apply (proj1 (verify_login_success_cases signin_page)
               (py "https://www.amazon.com/ap/signin") (py "Amazon Sign-In"));
        [reflexivity|reflexivity|exact E].
Defined.

(* ===================================================================== *)
(** ** Further properties: the page extractor and the session *)
(* ===================================================================== *)

Section SessionExtras.

Variable str_float : pyfloat -> pystr.
Variable md5_hexdigest : pystr -> pystr.

Local Abbreviation process_element :=
  (Session.process_element str_float md5_hexdigest).
Local Abbreviation review_identity :=
  (Session.review_identity str_float md5_hexdigest).
Local Abbreviation extract_page :=
  (extract_reviews_from_current_page str_float md5_hexdigest).
Local Abbreviation extend_with :=
  (Session.extend_with str_float md5_hexdigest).
Local Abbreviation pages_loop :=
  (Session.pages_loop str_float md5_hexdigest).

(** What one iteration appends: nothing, or the element's record tagged
    with the page, under its identity. *)
Lemma process_element_appends (page_num : Z) (st : list kept * gset pystr)
    (element : review_element) :
  let rd := extract_review_data element in
  let rid := review_identity element rd (strip (text rd)) in
  (process_element page_num st element = st)
  \/ (fst (process_element page_num st element)
      = fst st ++ [(rid, set_page page_num rd)]
      /\ snd (process_element page_num st element)
         = snd st ∪ list_to_set (truthy_ids [(rid, set_page page_num rd)])).
Proof.
  destruct st as [reviews ids]. cbv zeta.
  destruct (process_element_cases str_float md5_hexdigest page_num reviews
              ids element)
    as [E | (_ & [(i & Hrid & Hi & _ & E) | (Hf & E)])].
  - now left.
  - right. rewrite E. cbn [fst snd]. rewrite Hrid.
    split; [reflexivity|].
    rewrite (truthy_ids_one_truthy _ _ Hi). set_solver.
  - right. rewrite E. cbn [fst snd].
    split; [reflexivity|].
    rewrite (truthy_ids_one_falsy _ _ Hf). set_solver.
Qed.

(** The page loop, as a whole: what it appends is, in order, a selection
    of the elements' records, all tagged with the page; the set grows by
    the non-empty identities of what is appended. *)
Lemma fold_process_element (page_num : Z) (elements : list review_element)
    (st : list kept * gset pystr) :
  exists k,
    fst (fold_left (process_element page_num) elements st) = fst st ++ k
    /\ snd (fold_left (process_element page_num) elements st)
       = snd st ∪ list_to_set (truthy_ids k)
    /\ (k.*2) `sublist_of`
         map (fun e => set_page page_num (extract_review_data e)) elements.
Proof.
  revert st. induction elements as [|e elements IH]; intros st.
  - exists []. simpl. rewrite app_nil_r. split; [reflexivity|].
    split; [set_solver|constructor].
  - cbn [fold_left map].
    destruct (IH (process_element page_num st e)) as (k1 & E1 & E2 & Hsub).
    destruct (process_element_appends page_num st e) as [E | [Ef Es]].
    + rewrite E in *. exists k1. split; [exact E1|]. split; [exact E2|].
      now apply sublist_cons.
    + eexists (_ :: k1). rewrite E1, E2, Ef, Es. split; [|split].
      * rewrite <- app_assoc. reflexivity.
      * change (?x :: k1) with ([x] ++ k1).
        rewrite truthy_ids_app, list_to_set_app_L. set_solver.
      * cbn [fmap list_fmap snd]. now apply sublist_skip.
Qed.

Lemma extract_page_spec (found : exc (list review_element)) (page_num : Z)
    (ids : gset pystr) :
  snd (extract_page found page_num ids)
  = ids ∪ list_to_set (truthy_ids (fst (extract_page found page_num ids)))
  /\ Forall (fun k : kept => page (snd k) = page_num)
            (fst (extract_page found page_num ids))
  /\ match found with
     | Ok elements =>
         (fst (extract_page found page_num ids)).*2
         `sublist_of` map (fun e => set_page page_num (extract_review_data e))
                       elements
     | Raise => fst (extract_page found page_num ids) = []
     end.
Proof.
  unfold extract_reviews_from_current_page.
  destruct found as [elements|]; cbn [fst snd].
  - destruct (fold_process_element page_num elements ([], ids))
      as (k & E1 & E2 & Hsub).
    cbn [fst snd] in E1, E2. rewrite E1, E2. cbn [app].
    split; [reflexivity|]. split; [|exact Hsub].
    apply List.Forall_forall. intros [rid r] Hin. cbn [snd].
    assert (In r (k.*2)) as Hr
      by (apply in_map_iff; exists (rid, r); auto).
    apply list_elem_of_In in Hr.
    apply (fun H => elem_of_submseteq _ _ _ H (sublist_submseteq _ _ Hsub))
      in Hr.
    apply list_elem_of_In, in_map_iff in Hr as (e & <- & _). reflexivity.
  - split; [set_solver|]. split; [constructor|reflexivity].
Qed.

(** X4. The page extractor invents nothing and keeps the page order: the
    records it returns are, in order, a sub-sequence of the records of the
    elements found, each tagged with the page number given; so it never
    returns more records than there are elements, and none when finding
    the elements raises. *)
Theorem page_records_are_selected (found : exc (list review_element))
    (page_num : Z) (ids : gset pystr) :
  Forall (fun r => page r = page_num)
         (fst (extract_page found page_num ids)).*2
  /\ match found with
     | Ok elements =>
         (fst (extract_page found page_num ids)).*2
         `sublist_of` map (fun e => set_page page_num (extract_review_data e))
                       elements
         /\ (length (fst (extract_page found page_num ids))
             <= length elements)%nat
     | Raise => fst (extract_page found page_num ids) = []
     end.
Proof.
  destruct (extract_page_spec found page_num ids) as (_ & Hp & Hs).
  split.
  - apply Forall_fmap. exact Hp.
  - destruct found as [elements|]; [|exact Hs]. split; [exact Hs|].
    apply sublist_length in Hs. now rewrite !length_fmap in Hs.
Qed.

Lemma extend_with_spec (found : exc (list review_element)) (page_num : Z)
    (s : session) :
  all_reviews (extend_with found page_num s)
  = all_reviews s ++ fst (extract_page found page_num (collected_review_ids s))
  /\ collected_review_ids (extend_with found page_num s)
     = snd (extract_page found page_num (collected_review_ids s)).
Proof.
  unfold extend_with, Session.extend_with.
  now destruct (extract_page found page_num (collected_review_ids s)).
Qed.

Lemma extend_with_seen (found : exc (list review_element)) (page_num : Z)
    (s : session) :
  collected_review_ids s = list_to_set (truthy_ids (all_reviews s)) ->
  collected_review_ids (extend_with found page_num s)
  = list_to_set (truthy_ids (all_reviews (extend_with found page_num s))).
Proof.
  intros H. destruct (extend_with_spec found page_num s) as [-> ->].
  destruct (extract_page_spec found page_num (collected_review_ids s))
    as (-> & _ & _).
  rewrite truthy_ids_app, list_to_set_app_L, <- H. reflexivity.
Qed.

(** X5. The set of seen identities is kept exact: at the end of a scrape,
    however it ended, it holds the non-empty identities of the records
    retained and nothing else. No identity is marked as seen for a review
    that was left out. *)
Theorem seen_set_is_exact (domain product_asin : pystr) (max_pages : Z)
    (w : session_world) :
  let s := snd (scrape_session str_float md5_hexdigest domain product_asin
                  max_pages w) in
  collected_review_ids s = list_to_set (truthy_ids (all_reviews s)).
Proof.
  cbv zeta. unfold scrape_session.
  apply (scrape_body_preserves str_float md5_hexdigest
           (fun s => collected_review_ids s
                     = list_to_set (truthy_ids (all_reviews s)))).
  - intros found page_num s0. apply extend_with_seen.
  - reflexivity.
Qed.

(** A page whose elements all have their identity in the set gives
    nothing. *)
Lemma fold_process_element_seen (page_num : Z)
    (elements : list review_element) (reviews : list kept)
    (ids : gset pystr) :
  Forall (fun e =>
            process_element page_num (reviews, ids) e = (reviews, ids))
         elements ->
  fold_left (process_element page_num) elements (reviews, ids)
  = (reviews, ids).
Proof.
  induction 1 as [|e elements He _ IH]; cbn [fold_left]; [reflexivity|].
  now rewrite He.
Qed.

(** Whether an element is appended or not depends on the set only. *)
Lemma process_element_skip (page_num page_num' : Z)
    (reviews reviews' : list kept) (ids ids' : gset pystr)
    (element : review_element) :
  truthy_id (review_identity element (extract_review_data element)
               (strip (text (extract_review_data element)))) = true ->
  snd (process_element page_num (reviews, ids) element) ⊆ ids' ->
  process_element page_num' (reviews', ids') element = (reviews', ids').
Proof.
  intros Ht Hsub.
  destruct (process_element_cases str_float md5_hexdigest page_num' reviews'
              ids' element)
    as [E | (Hlong & [(j & Hj & Hjt & Hnj & _) | (Hf & _)])];
    [exact E| |congruence].
  exfalso. apply Hnj.
  destruct (process_element_cases str_float md5_hexdigest page_num reviews
              ids element)
    as [E | (_ & [(i & Hi & _ & _ & E) | (Hf & _)])]; [| |congruence].
  - (* skipped the first time: the text is long enough, so it was seen *)
    apply Hsub. rewrite E. cbn [snd].
    unfold Session.process_element in E.
    destruct Hlong as [Hne Hlen].
    assert (negb (truthy (strip (text (extract_review_data element))))
            || Nat.ltb (length (strip (text (extract_review_data element)))) 20
            = false)%bool as Hgate.
    { apply orb_false_iff. split.
      - apply negb_false_iff. unfold truthy.
        apply negb_true_iff, bool_decide_eq_false. exact Hne.
      - apply Nat.ltb_ge. exact Hlen. }
    rewrite Hgate, Hj, Hjt in E.
    destruct (bool_decide (j ∈ ids)) eqn:Em.
    + now apply bool_decide_eq_true in Em.
    + injection E as E1 E2. exfalso.
      apply (f_equal length) in E1. rewrite length_app in E1. simpl in E1. lia.
  - apply Hsub. rewrite E. cbn [snd]. rewrite Hj in Hi. injection Hi as <-.
    set_solver.
Qed.

(** After a pass over the elements, what each of them put in the set, or
    found there, is in the set. *)
Lemma fold_marks_seen (page_num : Z) (elements : list review_element)
    (st : list kept * gset pystr) :
  Forall (fun e => exists reviews ids,
            snd (process_element page_num (reviews, ids) e)
            ⊆ snd (fold_left (process_element page_num) elements st))
         elements.
Proof.
  revert st. induction elements as [|e elements IH]; intros st;
    [constructor|].
  cbn [fold_left]. constructor; [|apply IH].
  destruct st as [reviews ids]. exists reviews, ids.
  destruct (fold_process_element page_num elements
              (process_element page_num (reviews, ids) e))
    as (k & _ & -> & _).
  set_solver.
Qed.

Lemma session_eq (s1 s2 : session) :
  all_reviews s1 = all_reviews s2 ->
  collected_review_ids s1 = collected_review_ids s2 ->
  s1 = s2.
Proof. destruct s1, s2. simpl. now intros -> ->. Qed.

(** X6. Showing a page again adds nothing: when every element of a page
    gets a non-empty identity, extracting the same elements a second time
    in the session, under whatever page number, leaves the session as it
    was. *)
Theorem rerendered_page_adds_nothing (elements : list review_element)
    (page_num page_num' : Z) (s : session) :
  Forall (fun e =>
            truthy_id (review_identity e (extract_review_data e)
                         (strip (text (extract_review_data e)))) = true)
         elements ->
  extend_with (Ok elements) page_num'
    (extend_with (Ok elements) page_num s)
  = extend_with (Ok elements) page_num s.
Proof.
  intros Hids.
  assert (extract_page (Ok elements) page_num'
            (collected_review_ids (extend_with (Ok elements) page_num s))
          = ([], collected_review_ids (extend_with (Ok elements) page_num s)))
    as E.
  { destruct (extend_with_spec (Ok elements) page_num s) as [_ ->].
    unfold extract_reviews_from_current_page.
    apply fold_process_element_seen.
    pose proof (fold_marks_seen page_num elements
                  ([], collected_review_ids s)) as Hseen.
    rewrite List.Forall_forall in *. intros e He.
    destruct (Hseen e He) as (reviews & ids & Hsub).
    apply (process_element_skip page_num page_num' reviews [] ids);
      [apply Hids, He|exact Hsub]. }
  destruct (extend_with_spec (Ok elements) page_num'
              (extend_with (Ok elements) page_num s)) as [E1 E2].
  rewrite E in E1, E2. cbn [fst snd] in E1, E2. rewrite app_nil_r in E1.
  now apply session_eq.
Qed.

Lemma nondecreasing_constant (l : list Z) (p : Z) :
  Forall (fun q => q = p) l -> nondecreasing l.
Proof.
  induction l as [|b l IH]; intros H; [exact I|].
  inversion H as [|? ? Hb Hl]; subst.
  destruct l as [|c l]; [exact I|].
  split; [inversion Hl; subst; lia|exact (IH Hl)].
Qed.

Lemma nondecreasing_app (l1 l2 : list Z) (p : Z) :
  nondecreasing l1 ->
  Forall (fun q => q <= p) l1 ->
  Forall (fun q => q = p) l2 ->
  nondecreasing (l1 ++ l2).
Proof.
  intros H1 Hle Heq. revert H1 Hle.
  induction l1 as [|a l1 IH]; intros H1 Hle.
  - exact (nondecreasing_constant _ _ Heq).
  - inversion Hle as [|? ? Ha Hle']; subst.
    destruct l1 as [|b l1].
    + change ([a] ++ l2) with (a :: l2).
      destruct l2 as [|c l2]; [exact I|].
      split; [inversion Heq; subst; lia|].
      exact (nondecreasing_constant _ _ Heq).
    + destruct H1 as [Hab H1].
      change ((a :: b :: l1) ++ l2) with (a :: b :: (l1 ++ l2)).
      split; [exact Hab|]. exact (IH H1 Hle').
Qed.

Lemma tags_within_mono (b b' : Z) (s : session) :
  b <= b' -> tags_within b s -> tags_within b' s.
Proof.
  intros Hb [H1 H2]. split; [|exact H2].
  eapply List.Forall_impl; [|exact H1]. simpl. intros p. lia.
Qed.

Lemma tags_within_extend (b p : Z) (found : exc (list review_element))
    (s : session) :
  1 <= p -> b <= p -> tags_within b s ->
  tags_within p (extend_with found p s).
Proof.
  intros Hp Hb [H1 H2]. unfold tags_within, pages_of.
  destruct (extend_with_spec found p s) as [-> _].
  destruct (extract_page_spec found p (collected_review_ids s))
    as (_ & Htag & _).
  rewrite map_app.
  assert (Forall (fun q => q = p)
            (map (fun k : kept => page (snd k))
               (fst (extract_page found p (collected_review_ids s)))))
    as Heq by (apply List.Forall_map; exact Htag).
  split.
  - apply Forall_app. split.
    + eapply List.Forall_impl; [|exact H1]. simpl. intros q. lia.
    + eapply List.Forall_impl; [|exact Heq]. simpl. intros q ->. lia.
  - apply (nondecreasing_app _ _ p); [exact H2| |exact Heq].
    eapply List.Forall_impl; [|exact H1]. simpl. intros q. lia.
Qed.

Lemma pages_loop_tags (nav : Z -> nav_step) (n a : nat) (s : session) :
  tags_within (1 + Z.of_nat a) s ->
  tags_within (1 + Z.of_nat (a + n))
    (snd (pages_loop nav
            (map (fun i => 2 + Z.of_nat i) (seq a n)) s)).
Proof.
  revert a s. induction n as [|n IH]; intros a s Hs;
    cbn [seq map Session.pages_loop].
  - now replace (a + 0)%nat with a by lia.
  - assert (tags_within (1 + Z.of_nat (a + S n)) s) as Hs'
      by (eapply tags_within_mono; [|exact Hs]; lia).
    destruct (nv_fault_before (nav (2 + Z.of_nat a))); [exact Hs'|].
    destruct (click_next_page_button
                (nv_next_probes (nav (2 + Z.of_nat a)))) as [[]|];
      cbn [negb]; try exact Hs'.
    destruct (negb (Z.eqb (nv_current_page (nav (2 + Z.of_nat a)))
                      (2 + Z.of_nat a))
              && Z.eqb (nv_current_page (nav (2 + Z.of_nat a))) 1)%bool;
      [exact Hs'|].
    assert (tags_within (1 + Z.of_nat (S a))
              (extend_with (nv_found (nav (2 + Z.of_nat a)))
                 (2 + Z.of_nat a) s)) as Hext.
    { replace (1 + Z.of_nat (S a)) with (2 + Z.of_nat a) by lia.
      eapply tags_within_extend; [| |exact Hs]; lia. }
    destruct (nv_fault_after (nav (2 + Z.of_nat a))); cbn [snd].
    + eapply tags_within_mono; [|exact Hext]. lia.
    + replace (a + S n)%nat with (S a + n)%nat by lia.
      apply IH. exact Hext.
Qed.

(** X7. Page tags: in the list that a scrape returns, every record
    carries a page number between 1 and the page budget (1 when the budget
    is below 1), and the page numbers never go down along the list:
    records come grouped by page, in page order. *)
Theorem page_tags_in_order (domain product_asin : pystr) (max_pages : Z)
    (w : session_world) :
  let pages :=
    map page (scrape_reviews_for_product str_float md5_hexdigest
                domain product_asin max_pages w) in
  Forall (fun p => 1 <= p <= Z.max 1 max_pages) pages
  /\ nondecreasing pages.
Proof.
  cbv zeta.
  assert (map page (scrape_reviews_for_product str_float md5_hexdigest
                      domain product_asin max_pages w)
          = pages_of (all_reviews
                        (snd (scrape_session str_float md5_hexdigest
                                domain product_asin max_pages w)))) as ->.
  { unfold scrape_reviews_for_product, pages_of.
    now rewrite <- list_fmap_compose. }
  change (tags_within (Z.max 1 max_pages)
            (snd (scrape_session str_float md5_hexdigest domain product_asin
                    max_pages w))).
  assert (tags_within 1 _initialize_scraping_session) as H0
    by (split; [constructor|exact I]).
  unfold scrape_session, Session.scrape_body.
  destruct (_handle_login_for_reviews _ _) as [[]|]; cbn [snd];
    try (eapply tags_within_mono; [|exact H0]; lia).
  assert (tags_within 1
            (extend_with (sw_page1 w) 1 _initialize_scraping_session)) as H1
    by (eapply tags_within_extend; [| |exact H0]; lia).
  destruct (sw_fault_after_page1 w); cbn [snd];
    [eapply tags_within_mono; [|exact H1]; lia|].
  unfold _scrape_reviews_from_pages, py_range.
  pose proof (pages_loop_tags (sw_nav w) (Z.to_nat (max_pages + 1 - 2)) 0
                _ H1) as H.
  replace (1 + Z.of_nat (0 + Z.to_nat (max_pages + 1 - 2)))
    with (Z.max 1 max_pages) in H by lia.
  destruct (Session.pages_loop _ _ _ _ _) as [[[]|] s2]; exact H.
Qed.


End SessionExtras.

(* ===================================================================== *)
(** ** Further properties: the text of a review *)
(* ===================================================================== *)

Lemma lstrip_split (s : pystr) :
  exists k, s = k ++ lstrip s /\ Forall (fun c => is_space c = true) k.
Proof.
  induction s as [|c s (k & E & Hk)]; simpl.
  - exists []. split; [reflexivity|constructor].
  - destruct (is_space c) eqn:Ec.
    + exists (c :: k). split; [simpl; congruence|now constructor].
    + exists []. split; [reflexivity|constructor].
Qed.

Lemma lstrip_no_lead (s : pystr) : no_lead (lstrip s).
Proof.
  induction s as [|c s IH]; simpl; [exact I|].
  destruct (is_space c) eqn:Ec; [exact IH|exact Ec].
Qed.

Lemma lstrip_fixed (s : pystr) : no_lead s -> lstrip s = s.
Proof. destruct s as [|c s]; simpl; [reflexivity|]. now intros ->. Qed.

Lemma rstrip_split (s : pystr) :
  exists k, s = rstrip s ++ k /\ Forall (fun c => is_space c = true) k.
Proof.
  unfold rstrip. destruct (lstrip_split (rev s)) as (k & E & Hk).
  exists (rev k). split.
  - rewrite <- rev_app_distr, <- E. now rewrite rev_involutive.
  - apply List.Forall_forall. intros c Hc. apply in_rev in Hc.
    rewrite List.Forall_forall in Hk. auto.
Qed.

Lemma rstrip_no_lead (s : pystr) : no_lead s -> no_lead (rstrip s).
Proof.
  intros H. destruct (rstrip_split s) as (k & E & _).
  destruct (rstrip s) as [|c r]; [exact I|].
  rewrite E in H. exact H.
Qed.

Lemma strip_stripped (s : pystr) : stripped (strip s).
Proof.
  unfold stripped, strip. split.
  - apply rstrip_no_lead, lstrip_no_lead.
  - unfold rstrip. rewrite rev_involutive. apply lstrip_no_lead.
Qed.

Lemma stripped_fixed (s : pystr) : stripped s -> strip s = s.
Proof.
  intros [H1 H2]. unfold strip, rstrip.
  rewrite (lstrip_fixed s H1), (lstrip_fixed (rev s) H2).
  apply rev_involutive.
Qed.

Lemma strip_In (c : ascii) (s : pystr) : In c (strip s) -> In c s.
Proof.
  unfold strip. intros H.
  destruct (rstrip_split (lstrip s)) as (k1 & E1 & _).
  destruct (lstrip_split s) as (k2 & E2 & _).
  rewrite E2, E1, !in_app_iff. auto.
Qed.

Lemma collapse_ws_from_snoc (b : bool) (s : pystr) (c : ascii) :
  is_space c = false ->
  collapse_ws_from b (s ++ [c]) = collapse_ws_from b s ++ [c].
Proof.
  intros Hc. revert b. induction s as [|a s IH]; intros b; simpl.
  - now rewrite Hc.
  - destruct (is_space a); [destruct b|]; simpl; now rewrite IH.
Qed.

Lemma collapse_ws_stripped (s : pystr) :
  stripped s -> stripped (collapse_ws s).
Proof.
  intros [H1 H2]. unfold collapse_ws. split.
  - destruct s as [|c s]; simpl; [exact I|].
    simpl in H1. rewrite H1. exact H1.
  - destruct (rev s) as [|d r] eqn:Er.
    + apply (f_equal (@rev ascii)) in Er. rewrite rev_involutive in Er.
      subst s. exact I.
    + apply (f_equal (@rev ascii)) in Er. rewrite rev_involutive in Er.
      simpl in Er. subst s. simpl in H2.
      rewrite (collapse_ws_from_snoc _ _ _ H2), rev_app_distr. exact H2.
Qed.

Lemma collapse_ws_plain (b : bool) (s : pystr) :
  only_plain_spaces (collapse_ws_from b s).
Proof.
  unfold only_plain_spaces. revert b.
  induction s as [|c s IH]; intros b; simpl; [constructor|].
  destruct (is_space c) eqn:Ec.
  - destruct b; [apply IH|]. constructor; [reflexivity|apply IH].
  - constructor; [congruence|apply IH].
Qed.

Lemma collapse_ws_from_after_run (s : pystr) :
  collapse_ws_from true (collapse_ws_from true s)
  = collapse_ws_from false (collapse_ws_from true s).
Proof.
  induction s as [|c s IH]; simpl; [reflexivity|].
  destruct (is_space c) eqn:Ec; [exact IH|]. simpl. now rewrite Ec.
Qed.

(** Collapsing the white space of a collapsed text changes nothing. *)
Lemma collapse_ws_idempotent (b : bool) (s : pystr) :
  collapse_ws_from false (collapse_ws_from b s) = collapse_ws_from b s.
Proof.
  revert b. induction s as [|c s IH]; intros b; simpl; [reflexivity|].
  destruct (is_space c) eqn:Ec.
  - destruct b; [apply IH|].
    simpl. f_equal. rewrite collapse_ws_from_after_run. apply IH.
  - simpl. rewrite Ec. f_equal. apply IH.
Qed.

Lemma only_plain_spaces_no_newline (s : pystr) :
  only_plain_spaces s -> ~ In newline s.
Proof.
  unfold only_plain_spaces. rewrite List.Forall_forall. intros H Hin.
  specialize (H newline Hin eq_refl). discriminate.
Qed.

Lemma split_lines_no_newline (s : pystr) :
  split_lines s <> []
  /\ Forall (fun l => ~ In newline l) (split_lines s).
Proof.
  induction s as [|c s [Hne IH]]; simpl.
  - split; [discriminate|]. constructor; [intros []|constructor].
  - destruct (bool_decide (c = newline)) eqn:Ec.
    + split; [discriminate|]. constructor; [intros []|exact IH].
    + apply bool_decide_eq_false in Ec.
      destruct (split_lines s) as [|l ls]; [contradiction|].
      split; [discriminate|].
      inversion IH as [|? ? Hl Hls]; subst.
      constructor; [|exact Hls]. simpl. intros [->|H]; auto.
Qed.

Lemma max_by_len_In (best : pystr) (ls : list pystr) :
  In (max_by_len best ls) (best :: ls).
Proof.
  revert best. induction ls as [|l ls IH]; intros best; simpl; [auto|].
  destruct (Nat.ltb (length best) (length l)).
  - right. apply IH.
  - destruct (IH best) as [H|H]; [left; exact H|right; right; exact H].
Qed.

Lemma longest_line_no_newline (s : pystr) :
  ~ In newline (longest_line (split_lines s)).
Proof.
  destruct (split_lines_no_newline s) as [Hne Hall].
  destruct (split_lines s) as [|l ls]; [contradiction|].
  simpl. rewrite List.Forall_forall in Hall.
  apply Hall, max_by_len_In.
Qed.

Lemma review_text_shape (element : review_element) :
  let t := text (extract_review_data element) in
  strip t = t
  /\ ~ In newline t
  /\ (forall t0,
        first_some review_body_step (el_body_probes element) = Some t0 ->
        t = t0 /\ collapse_ws t = t /\ only_plain_spaces t).
Proof.
  cbv zeta. cbn [extract_review_data text]. unfold review_text.
  destruct (first_some review_body_step (el_body_probes element))
    as [t0|] eqn:E.
  - apply first_some_elim in E as (probe & _ & E).
    unfold review_body_step in E. destruct probe as [x|]; [|discriminate].
    destruct (truthy (strip x)); [|discriminate]. injection E as <-.
    split; [|split].
    + apply stripped_fixed, collapse_ws_stripped, strip_stripped.
    + apply only_plain_spaces_no_newline, collapse_ws_plain.
    + intros t0 [= <-]. split; [reflexivity|].
      split; [apply collapse_ws_idempotent|apply collapse_ws_plain].
  - split; [|split; [|discriminate]].
    + destruct (el_text element) as [x|]; simpl; [|reflexivity].
      apply stripped_fixed, strip_stripped.
    + destruct (el_text element) as [x|]; simpl; [|tauto].
      intros H. apply strip_In in H.
      now apply longest_line_no_newline in H.
Qed.

(** X8. The text that [extract_review_data] stores has no white space at
    either end and no line feed in it. When a body container gives it,
    all its white space is single plain spaces: collapsing white space
    again changes nothing. *)
Theorem review_text_is_clean (element : review_element) :
  let t := text (extract_review_data element) in
  strip t = t
  /\ ~ In newline t
  /\ (forall t0,
        first_some review_body_step (el_body_probes element) = Some t0 ->
        t = t0 /\ collapse_ws t = t /\ only_plain_spaces t).
Proof. exact (review_text_shape element). Qed.

Lemma review_text_is_clean_witness :
  text (extract_review_data
          (sample_review "5.0 out of 5 stars"
             "  Boils   fast,
 pours  well.  "
             Raise))
  = py "Boils fast, pours well."
  /\ collapse_ws (py "Boils fast, pours well.") = py "Boils fast, pours well.".
Proof.
  split; [vm_compute; reflexivity|].
  pose proof (proj2 (proj2 (review_text_is_clean
             (sample_review "5.0 out of 5 stars"
                "  Boils   fast,
 pours  well.  "
                Raise)))
             (py "Boils fast, pours well.")) as H.
  destruct H as (E & Hc & _); [vm_compute; reflexivity|].
  rewrite E in Hc. exact Hc.
Defined.

(* ===================================================================== *)
(** ** Further properties: what a scrape returns *)
(* ===================================================================== *)

Section SessionTexts.

Variable str_float : pyfloat -> pystr.
Variable md5_hexdigest : pystr -> pystr.

Local Abbreviation extract_page :=
  (extract_reviews_from_current_page str_float md5_hexdigest).
Local Abbreviation extend_with :=
  (Session.extend_with str_float md5_hexdigest).

Lemma extract_page_clean (found : exc (list review_element))
    (page_num : Z) (ids : gset pystr) :
  Forall (fun k : kept => clean_text (text (snd k)))
         (fst (extract_page found page_num ids)).
Proof.
  pose proof (extend_with_texts str_float md5_hexdigest found page_num
                {| all_reviews := []; collected_review_ids := ids |}
                (List.Forall_nil _)) as Hlong.
  destruct (extend_with_spec str_float md5_hexdigest found page_num
              {| all_reviews := []; collected_review_ids := ids |})
    as [E _].
  cbn [all_reviews collected_review_ids app] in E. rewrite E in Hlong.
  destruct (extract_page_spec str_float md5_hexdigest found page_num ids)
    as (_ & _ & Hsel).
  destruct found as [elements|]; [|rewrite Hsel; constructor].
  rewrite List.Forall_forall in *. intros [rid r] Hin. cbn [snd].
  specialize (Hlong (rid, r) Hin). cbn [snd] in Hlong.
  assert (In r ((fst (extract_page (Ok elements) page_num ids)).*2)) as Hr
    by (apply in_map_iff; exists (rid, r); auto).
  apply list_elem_of_In in Hr.
  apply (fun H => elem_of_submseteq _ _ _ H (sublist_submseteq _ _ Hsel))
    in Hr.
  apply list_elem_of_In, in_map_iff in Hr as (e & <- & _).
  cbn [set_page text] in *.
  destruct (review_text_shape e) as (Hs & Hn & _).
  unfold text_long_enough in Hlong. cbn [set_page text] in Hlong.
  destruct Hlong as [_ Hlen]. rewrite Hs in Hlen.
  split; [exact Hs|]. split; [exact Hn|exact Hlen].
Qed.

(** X9. Every record that a scrape returns holds a text of at least 20
    characters that has no white space at either end and no line feed in
    it: the length gate bears on the text as it is stored. *)
Theorem returned_texts_are_clean (domain product_asin : pystr)
    (max_pages : Z) (w : session_world) :
  Forall (fun r => clean_text (text r))
    (scrape_reviews_for_product str_float md5_hexdigest domain product_asin
       max_pages w).
Proof.
  unfold scrape_reviews_for_product, scrape_session. apply Forall_fmap.
  apply (scrape_body_preserves str_float md5_hexdigest
           (fun s => Forall (fun k : kept => clean_text (text (snd k)))
                       (all_reviews s))).
  - intros found page_num s Hs.
    destruct (extend_with_spec str_float md5_hexdigest found page_num s)
      as [-> _].
    apply Forall_app. split; [exact Hs|apply extract_page_clean].
  - constructor.
Qed.

End SessionTexts.

Lemma rerendered_page_adds_nothing_witness :
  let s :=
    extend_with sample_str_float sample_md5 (Ok [review_a; review_b]) 1
      _initialize_scraping_session in
  extend_with sample_str_float sample_md5 (Ok [review_a; review_b]) 2 s = s
  /\ length (all_reviews s) = 2%nat.
Proof.
  split; [|vm_compute; reflexivity].
  apply rerendered_page_adds_nothing.
  repeat constructor.
Defined.

(* ===================================================================== *)
(** ** Further properties: counts with an integer leading number *)
(* ===================================================================== *)

Lemma strip_twos_spec (fuel : nat) (m e : Z) :
  0 < m -> m < 2 ^ Z.of_nat fuel ->
  Z.odd (fst (strip_twos fuel m e)) = true
  /\ e <= snd (strip_twos fuel m e)
  /\ m = fst (strip_twos fuel m e) * 2 ^ (snd (strip_twos fuel m e) - e).
Proof.
  revert m e. induction fuel as [|fuel IH]; intros m e Hm Hlt.
  - simpl in Hlt. lia.
  - cbn [strip_twos].
    destruct (Z.eqb m 0) eqn:E0; [apply Z.eqb_eq in E0; lia|].
    destruct (Z.even m) eqn:Ev.
    + assert (m = 2 * (m / 2)) as Hhalf.
      { apply Z.even_spec in Ev. destruct Ev as [k ->].
        rewrite (Z.mul_comm 2 k), Z.div_mul by lia. lia. }
      assert (0 < m / 2) as Hpos by lia.
      assert (m / 2 < 2 ^ Z.of_nat fuel) as Hlt'.
      { rewrite Nat2Z.inj_succ, Z.pow_succ_r in Hlt by lia. lia. }
      destruct (IH (m / 2) (e + 1) Hpos Hlt') as (Hodd & Hle & Hval).
      split; [exact Hodd|]. split; [lia|].
      set (m' := fst (strip_twos fuel (m / 2) (e + 1))) in *.
      set (e' := snd (strip_twos fuel (m / 2) (e + 1))) in *.
      replace (e' - e) with (Z.succ (e' - (e + 1))) by lia.
      rewrite Z.pow_succ_r by lia. lia.
    + cbn [fst snd]. split; [now rewrite <- Z.negb_even, Ev|].
      split; [lia|]. rewrite Z.sub_diag. simpl. lia.
Qed.

(** Normalising [n * 2^k * 2^(-k)] gives the integer [n]. *)
Lemma normalise_integer (n k : Z) :
  0 < n -> 0 <= k -> holds_integer (normalise (n * 2 ^ k) (- k)) n.
Proof.
  intros Hn Hk. unfold normalise.
  assert (0 < 2 ^ k) as Hpk by (apply Z.pow_pos_nonneg; lia).
  assert (0 < n * 2 ^ k) as Hm by lia.
  assert (n * 2 ^ k < 2 ^ Z.of_nat (S (Z.to_nat (Z.log2 (n * 2 ^ k)))))
    as Hlt.
  { rewrite Nat2Z.inj_succ, Z2Nat.id by apply Z.log2_nonneg.
    apply Z.log2_spec. exact Hm. }
  destruct (strip_twos_spec _ _ (- k) Hm Hlt) as (Hodd & Hle & Hval).
  destruct (strip_twos _ (n * 2 ^ k) (- k)) as [m' e'].
  cbn [fst snd] in *. simpl.
  replace (e' - - k) with (e' + k) in Hval by lia.
  assert (0 <= e') as He'.
  { destruct (Z.leb 0 e') eqn:E; [now apply Z.leb_le in E|].
    apply Z.leb_gt in E. exfalso.
    (* n * 2^k = m' * 2^(e'+k) with e' < 0 makes m' even *)
    assert (2 ^ k = 2 ^ (e' + k) * 2 ^ (- e')) as Hsplit
      by (rewrite <- Z.pow_add_r by lia; f_equal; lia).
    assert (0 < 2 ^ (e' + k)) as Hp1 by (apply Z.pow_pos_nonneg; lia).
    assert (m' = n * 2 ^ (- e')) as Hm'.
    { apply (Z.mul_cancel_r _ _ (2 ^ (e' + k))); [lia|].
      rewrite <- Hval, Hsplit. ring. }
    replace (- e') with (Z.succ (- e' - 1)) in Hm' by lia.
    rewrite Z.pow_succ_r in Hm' by lia.
    assert (Z.even m' = true) as Hev
      by (apply Z.even_spec; exists (n * 2 ^ (- e' - 1)); lia).
    rewrite <- Z.negb_even, Hev in Hodd. discriminate. }
  split; [exact He'|].
  rewrite Z.pow_add_r in Hval by lia.
  apply (Z.mul_cancel_r _ _ (2 ^ k)); [lia|]. lia.
Qed.

(** An integer below [2^53] converts to a float without rounding. *)
Lemma round_ratio_integer (n : Z) :
  0 <= n < 2 ^ 53 -> holds_integer (round_ratio n 1) n.
Proof.
  intros [Hn Hlt]. unfold round_ratio.
  destruct (Z.leb n 0) eqn:E0.
  { apply Z.leb_le in E0. simpl. lia. }
  apply Z.leb_gt in E0.
  assert (ratio_log2 n 1 = Z.log2 n) as ->.
  { unfold ratio_log2, ratio_lt_pow2. change (Z.log2 1) with 0.
    rewrite Z.sub_0_r.
    pose proof (Z.log2_nonneg n). pose proof (Z.log2_spec n E0) as [Hlo _].
    destruct (Z.leb 0 (Z.log2 n)) eqn:El; [|apply Z.leb_gt in El; lia].
    destruct (Z.ltb n (1 * 2 ^ Z.log2 n)) eqn:Ec; [|reflexivity].
    apply Z.ltb_lt in Ec. lia. }
  assert (0 <= Z.log2 n <= 52) as Hlog.
  { split; [apply Z.log2_nonneg|].
    assert (Z.log2 n < 53) by (apply Z.log2_lt_pow2; lia). lia. }
  rewrite Z.max_l by lia.
  set (k := 52 - Z.log2 n).
  replace (Z.log2 n - 52) with (- k) by (unfold k; lia).
  assert (0 <= k <= 52) as Hk by (unfold k; lia).
  assert (forall a, 0 <= a -> div_nearest_even a 1 = a) as Hdiv.
  { intros a Ha. unfold div_nearest_even.
    rewrite Z.div_1_r, Z.mod_1_r. reflexivity. }
  assert ((if Z.leb 0 (- k)
           then div_nearest_even n (1 * 2 ^ (- k))
           else div_nearest_even (n * 2 ^ (- - k)) 1) = n * 2 ^ k) as ->.
  { destruct (Z.leb 0 (- k)) eqn:Ek.
    - apply Z.leb_le in Ek. assert (k = 0) as -> by lia. simpl.
      rewrite Hdiv by lia. lia.
    - rewrite Z.opp_involutive. apply Hdiv.
      assert (0 < 2 ^ k) by (apply Z.pow_pos_nonneg; lia). lia. }
  destruct (Z.ltb 971 (- k)) eqn:E1; [apply Z.ltb_lt in E1; lia|].
  destruct (Z.eqb (- k) 971) eqn:E2; [apply Z.eqb_eq in E2; lia|].
  cbn [andb]. apply normalise_integer; lia.
Qed.

(** The product of two floats that hold integers holds their product,
    when it is below [2^53]. *)
Lemma fmul_integer (x y : pyfloat) (a b : Z) :
  0 <= a -> 0 <= b -> a * b < 2 ^ 53 ->
  holds_integer x a -> holds_integer y b ->
  holds_integer (fmul x y) (a * b).
Proof.
  intros Ha Hb Hlt Hx Hy.
  destruct x as [m1 e1| |], y as [m2 e2| |]; try contradiction.
  destruct Hx as [He1 Hv1], Hy as [He2 Hv2]. cbn [fmul].
  destruct (Z.leb 0 (e1 + e2)) eqn:E; [|apply Z.leb_gt in E; lia].
  replace (m1 * m2 * 2 ^ (e1 + e2)) with (a * b).
  - apply round_ratio_integer. nia.
  - rewrite Z.pow_add_r by lia. subst a b. ring.
Qed.

Lemma int_of_float_integer (x : pyfloat) (n : Z) :
  holds_integer x n -> int_of_float x = Some n.
Proof.
  destruct x as [m e| |]; try contradiction. intros [He Hv]. simpl.
  destruct (Z.leb 0 e) eqn:E; [now rewrite Hv|apply Z.leb_gt in E; lia].
Qed.

Lemma digit_facts (c : ascii) :
  is_digit c = true ->
  0 <= digit_val c <= 9
  /\ c <> ","%char /\ c <> " "%char /\ c <> "."%char /\ c <> "("%char
  /\ c <> "K"%char /\ c <> "M"%char
  /\ upper_char c = c.
Proof.
  destruct c as [[] [] [] [] [] [] [] []]; try discriminate; intros _;
    (split; [vm_compute; split; discriminate|]);
    repeat split; discriminate.
Qed.

Lemma digits_val_nonneg (ds : pystr) :
  Forall (fun c => is_digit c = true) ds -> 0 <= digits_val ds.
Proof.
  unfold digits_val. intros H.
  assert (forall acc, 0 <= acc ->
            0 <= fold_left (fun a c => 10 * a + digit_val c) ds acc) as G.
  { induction H as [|c ds Hc _ IH]; intros acc Hacc; simpl; [exact Hacc|].
    apply IH. destruct (digit_facts c Hc) as [? _]. lia. }
  apply G. lia.
Qed.

Lemma span_run (p : ascii -> bool) (run rest : pystr) :
  Forall (fun c => p c = true) run ->
  match rest with [] => True | c :: _ => p c = false end ->
  span p (run ++ rest) = (run, rest).
Proof.
  intros Hrun Hrest. induction Hrun as [|c run Hc _ IH]; simpl.
  - destruct rest as [|c rest]; [reflexivity|].
    simpl in Hrest |- *. now rewrite Hrest.
  - now rewrite Hc, IH.
Qed.

(** The decimal pattern on a text that starts with digits followed by a
    letter: the digits, without a point. *)
Lemma search_decimal_leading_digits (ds : pystr) (letter : ascii) :
  ds <> [] ->
  Forall (fun c => is_digit c = true) ds ->
  is_digit letter = false -> letter <> "."%char ->
  search_decimal (ds ++ [letter]) = Some (DecimalMatch ds false []).
Proof.
  intros Hne Hds Hl Hp.
  destruct ds as [|d ds]; [contradiction|].
  change ((d :: ds) ++ [letter]) with (d :: (ds ++ [letter])).
  cbn [search_decimal]. unfold match_decimal_here.
  change (d :: (ds ++ [letter])) with ((d :: ds) ++ [letter]).
  rewrite (span_run is_digit (d :: ds) [letter] Hds Hl).
  rewrite bool_decide_eq_false_2 by exact Hp. reflexivity.
Qed.

Lemma remove_char_fixed (c : ascii) (s : pystr) :
  Forall (fun a => a <> c) s -> remove_char c s = s.
Proof.
  unfold remove_char. induction 1 as [|a s Ha _ IH]; [reflexivity|].
  cbn [filter list_filter].
  destruct (decide (a <> c)) as [_|Hn]; [|contradiction].
  f_equal. exact IH.
Qed.

Lemma contains_char (k : ascii) (s : pystr) :
  contains [k] s = existsb (fun c => bool_decide (k = c)) s.
Proof.
  induction s as [|a s IH]; [reflexivity|].
  cbn [contains startswith existsb]. rewrite IH.
  destruct s; now rewrite andb_true_r.
Qed.

(** X10. A count text made of an integer and the letter K (or M) is
    parsed exactly: for a run of digits whose value times 1000 (times
    1000000) stays below [2^53], both the product path and the
    search-result path store the value times 1000 (times 1000000), in
    decimal. *)
Theorem integer_counts_are_exact (ds : pystr) :
  ds <> [] ->
  Forall (fun c => is_digit c = true) ds ->
  (digits_val ds * 1000 < 2 ^ 53 ->
   product_count_of_text (ds ++ py "K")
   = Some (str_of_Z (digits_val ds * 1000))
   /\ search_count_of_text (ds ++ py "K")
      = Some (str_of_Z (digits_val ds * 1000)))
  /\ (digits_val ds * 1000000 < 2 ^ 53 ->
      product_count_of_text (ds ++ py "M")
      = Some (str_of_Z (digits_val ds * 1000000))
      /\ search_count_of_text (ds ++ py "M")
         = Some (str_of_Z (digits_val ds * 1000000))).
Proof.
  intros Hne Hds.
  pose proof (digits_val_nonneg ds Hds) as Hnn.
  assert (forall letter, letter = "K"%char \/ letter = "M"%char ->
            Forall (fun a => a <> ","%char) (ds ++ [letter])
            /\ Forall (fun a => a <> " "%char) (ds ++ [letter])
            /\ upper (ds ++ [letter]) = ds ++ [letter]
            /\ search_decimal (ds ++ [letter])
               = Some (DecimalMatch ds false [])
            /\ unparenthesise (ds ++ [letter]) = ds ++ [letter]
            /\ contains (py "K") (ds ++ [letter])
               = bool_decide (letter = "K"%char)
            /\ contains (py "M") (ds ++ [letter])
               = bool_decide (letter = "M"%char)) as Hshape.
  { intros letter Hl.
    assert (Forall (fun c => c <> ","%char /\ c <> " "%char
                             /\ c <> "("%char /\ c <> "K"%char
                             /\ c <> "M"%char /\ upper_char c = c) ds) as Hd.
    { eapply List.Forall_impl; [|exact Hds]. simpl. intros c Hc.
      destruct (digit_facts c Hc) as (_ & ? & ? & ? & ? & ? & ? & ?).
      repeat split; assumption. }
    split; [|split; [|split; [|split; [|split; [|split]]]]].
    - apply Forall_app. split.
      + eapply List.Forall_impl; [|exact Hd]. simpl. tauto.
      + constructor; [|constructor]. destruct Hl as [-> | ->]; discriminate.
    - apply Forall_app. split.
      + eapply List.Forall_impl; [|exact Hd]. simpl. tauto.
      + constructor; [|constructor]. destruct Hl as [-> | ->]; discriminate.
    - unfold upper. rewrite map_app. f_equal.
      + clear -Hd. induction Hd as [|c l Hc _ IH]; simpl; [reflexivity|].
        destruct Hc as (_ & _ & _ & _ & _ & ->). now rewrite IH.
      + destruct Hl as [-> | ->]; reflexivity.
    - apply search_decimal_leading_digits; auto;
        destruct Hl as [-> | ->]; (reflexivity || discriminate).
    - unfold unparenthesise.
      destruct ds as [|d ds']; [contradiction|].
      inversion Hd as [|? ? (_ & _ & Hp & _) _]; subst.
      cbn [app startswith py list_ascii_of_string].
      now rewrite bool_decide_eq_false_2 by congruence.
    - change (py "K") with ["K"%char]. rewrite contains_char, existsb_app.
      assert (existsb (fun c => bool_decide ("K"%char = c)) ds = false) as ->.
      { clear -Hd. induction Hd as [|c l Hc _ IH]; simpl; [reflexivity|].
        destruct Hc as (_ & _ & _ & Hk & _).
        now rewrite bool_decide_eq_false_2, IH by congruence. }
      simpl. rewrite orb_false_r.
      destruct Hl as [-> | ->]; reflexivity.
    - change (py "M") with ["M"%char]. rewrite contains_char, existsb_app.
      assert (existsb (fun c => bool_decide ("M"%char = c)) ds = false) as ->.
      { clear -Hd. induction Hd as [|c l Hc _ IH]; simpl; [reflexivity|].
        destruct Hc as (_ & _ & _ & _ & Hm & _).
        now rewrite bool_decide_eq_false_2, IH by congruence. }
      simpl. rewrite orb_false_r.
      destruct Hl as [-> | ->]; reflexivity. }
  assert (forall factor, 1 <= factor < 2 ^ 53 ->
            digits_val ds * factor < 2 ^ 53 ->
            scaled_count (float_of_match (DecimalMatch ds false [])) factor
            = Some (str_of_Z (digits_val ds * factor))) as Hscaled.
  { intros factor Hf Hlt. unfold scaled_count, float_of_match,
      float_of_decimal, float_of_Z. cbn [int_digits frac_digits length].
    rewrite app_nil_r. change (10 ^ Z.of_nat 0) with 1.
    assert (digits_val ds < 2 ^ 53) as Hd53 by nia.
    rewrite (int_of_float_integer _ (digits_val ds * factor)); [reflexivity|].
    apply fmul_integer; try lia; apply round_ratio_integer; lia. }
  assert (forall letter factor,
            letter = "K"%char /\ factor = 1000
            \/ letter = "M"%char /\ factor = 1000000 ->
            digits_val ds * factor < 2 ^ 53 ->
            product_count_of_text (ds ++ [letter])
            = Some (str_of_Z (digits_val ds * factor))
            /\ search_count_of_text (ds ++ [letter])
               = Some (str_of_Z (digits_val ds * factor))) as Hboth.
  { intros letter factor Hlf Hlt.
    destruct (Hshape letter) as (Hc & Hs & Hu & Hm & Hp & HK & HM);
      [destruct Hlf as [[-> _] | [-> _]]; auto|].
    split.
    - unfold product_count_of_text.
      rewrite (remove_char_fixed _ _ Hc), (remove_char_fixed _ _ Hs).
      rewrite Hu, HK, HM, Hm.
      destruct Hlf as [[-> ->] | [-> ->]]; cbn [bool_decide];
        [rewrite bool_decide_eq_true_2 by reflexivity
        |rewrite bool_decide_eq_false_2 by discriminate;
         rewrite bool_decide_eq_true_2 by reflexivity];
        apply Hscaled; (exact Hlt || (split; [lia|reflexivity])).
    - unfold search_count_of_text. rewrite Hp, HK, HM, Hm.
      destruct Hlf as [[-> ->] | [-> ->]];
        [rewrite bool_decide_eq_true_2 by reflexivity
        |rewrite bool_decide_eq_false_2 by discriminate;
         rewrite bool_decide_eq_true_2 by reflexivity];
        apply Hscaled; (exact Hlt || (split; [lia|reflexivity])). }
  split; intros Hlt.
  - apply (Hboth "K"%char 1000); [left; auto|exact Hlt].
  - apply (Hboth "M"%char 1000000); [right; auto|exact Hlt].
Qed.

Lemma integer_counts_are_exact_witness :
  product_count_of_text (py "12345K") = Some (py "12345000")
  /\ search_count_of_text (py "7M") = Some (py "7000000").
Proof.
  split.
  - apply (proj1 (proj1 (integer_counts_are_exact (py "12345")
                           ltac:(discriminate)
                           ltac:(repeat constructor))
                   ltac:(vm_compute; reflexivity))).
  - apply (proj2 (proj2 (integer_counts_are_exact (py "7")
                           ltac:(discriminate)
                           ltac:(repeat constructor))
                   ltac:(vm_compute; reflexivity))).
Defined.

(* ===================================================================== *)
(** ** Properties: counts scaled by K and M *)
(* ===================================================================== *)
















Lemma digits_val_snoc (ds : pystr) (c : ascii) :
  digits_val (ds ++ [c]) = 10 * digits_val ds + digit_val c.
Proof. unfold digits_val. now rewrite fold_left_app. Qed.





(* ===================================================================== *)
(** ** Further properties: ratings and plain counts of a product *)
(* ===================================================================== *)

(** X11. A product rating is stored only within range: the text that
    [_extract_product_rating] stores is that of a float between 1 and 5,
    and the rating of a search result is either the words "No rating" or
    the text of a number whose float value is between 1 and 5. *)
Theorem product_ratings_in_range (str_float : pyfloat -> pystr)
    (probes : list (exc elem_view)) :
  (forall s, _extract_product_rating str_float probes = Some s ->
     exists v, s = str_float v /\ float_between 1 5 v)
  /\ (search_rating probes = py "No rating"
      \/ exists m, search_rating probes = matched_text m
                   /\ float_between 1 5 (float_of_match m)).
Proof.
  split.
  - intros s. unfold _extract_product_rating.
    destruct (_extract_product_rating_value probes) as [v|] eqn:E;
      [|discriminate].
    intros [= <-]. exists v. split; [reflexivity|].
    unfold _extract_product_rating_value in E.
    apply first_some_elim in E as (probe & _ & E).
    unfold product_rating_step in E.
    destruct probe as [e|]; [|discriminate].
    destruct (first_truthy _) as [t|]; [|discriminate].
    unfold product_rating_of_text in E.
    destruct (search_decimal t) as [m|]; [|discriminate].
    destruct (int_le_float 1 (float_of_match m)
              && float_le_int (float_of_match m) 5)%bool eqn:Er;
      [|discriminate].
    injection E as <-. now apply float_range_check.
  - unfold search_rating.
    destruct (first_some search_rating_step probes) as [r|] eqn:E;
      [|now left].
    right. apply first_some_elim in E as (probe & _ & E).
    unfold search_rating_step in E.
    destruct probe as [e|]; [|discriminate].
    destruct (first_truthy _) as [t|]; [|discriminate].
    unfold search_rating_of_text in E.
    destruct (_ || _)%bool; [|discriminate].
    destruct (search_decimal t) as [m|]; [|discriminate].
    destruct (int_le_float 1 (float_of_match m)
              && float_le_int (float_of_match m) 5)%bool eqn:Er;
      [|discriminate].
    injection E as <-. exists m. split; [reflexivity|].
    now apply float_range_check.
Qed.

Lemma product_ratings_in_range_witness :
  _extract_product_rating sample_str_float
    [Ok (ElemView (Some (py "7.5 out of 10 stars")) [] None);
     Ok (ElemView None (py "4.5 out of 5 stars") None)]
  = Some (sample_str_float (FFin 9 (-1)))
  /\ float_between 1 5 (FFin 9 (-1)).
Proof.
  split; [vm_compute; reflexivity|].
  destruct (proj1 (product_ratings_in_range sample_str_float
              [Ok (ElemView (Some (py "7.5 out of 10 stars")) [] None);
               Ok (ElemView None (py "4.5 out of 5 stars") None)])
              (sample_str_float (FFin 9 (-1)))) as (v & _ & _).
  - vm_compute. reflexivity.
  - simpl. lia.
Defined.

Lemma span_fst_all (p : ascii -> bool) (s : pystr) :
  Forall (fun c => p c = true) (fst (span p s)).
Proof.
  induction s as [|c s IH]; simpl; [constructor|].
  destruct (p c) eqn:E; [|constructor].
  destruct (span p s). simpl in *. now constructor.
Qed.

Lemma search_digits_run (s ds : pystr) :
  search_digits s = Some ds ->
  ds <> [] /\ Forall (fun c => is_digit c = true) ds.
Proof.
  induction s as [|c s IH]; simpl; [discriminate|].
  destruct (is_digit c) eqn:E; [|exact IH].
  intros [= <-]. split; [destruct (span is_digit s); discriminate|].
  pose proof (span_fst_all is_digit (c :: s)) as H.
  simpl in H. now rewrite E in H.
Qed.

(** X12. A plain count (a text with neither K nor M once commas and
    spaces are removed) is stored only when it is positive, and as the
    digits found: the stored text is a run of decimal digits whose value
    is above zero. *)
Theorem plain_counts_are_positive (review_text c : pystr) :
  let t := remove_char " "%char (remove_char ","%char review_text) in
  contains (py "K") (upper t) = false ->
  contains (py "M") (upper t) = false ->
  product_count_of_text review_text = Some c ->
  search_digits t = Some c
  /\ Forall (fun a => is_digit a = true) c
  /\ 0 < digits_val c.
Proof.
  intros t HK HM. unfold product_count_of_text. fold t. rewrite HK, HM.
  destruct (search_digits t) as [ds|] eqn:E; [|discriminate].
  destruct (Z.ltb 0 (digits_val ds)) eqn:Ep; [|discriminate].
  intros [= <-]. split; [reflexivity|].
  split; [apply (search_digits_run t ds E)|now apply Z.ltb_lt].
Qed.

Lemma plain_counts_are_positive_witness :
  product_count_of_text (py "1,234 reviews") = Some (py "1234")
  /\ 0 < digits_val (py "1234")
  /\ product_count_of_text (py "0 reviews") = None.
Proof.
  split; [vm_compute; reflexivity|]. split; [|vm_compute; reflexivity].
  apply (plain_counts_are_positive (py "1,234 reviews") (py "1234"));
    vm_compute; reflexivity.
Defined.

(* ===================================================================== *)
(** ** Further properties: the products of a search *)
(* ===================================================================== *)

Section SearchProducts.

Variable html_unescape : pystr -> pystr.

Local Abbreviation product_of := (search_product_of html_unescape).

Lemma increasing_indexes_weaken (lo lo' : Z) (ps : list search_product) :
  lo <= lo' -> increasing_indexes lo' ps -> increasing_indexes lo ps.
Proof. destruct ps as [|p ps]; simpl; [auto|]. intros ? [? ?]. split; [lia|auto]. Qed.

Lemma search_title_short (element : search_element) :
  (length (search_title element) <= 120)%nat.
Proof.
  unfold search_title, prefix.
  destruct (se_h2_span element) as [t|]; cbn [exc_bind try_catch];
    [|simpl; lia].
  destruct (truthy (strip t)); cbn [exc_bind try_catch];
    [rewrite length_take; lia|].
  destruct (se_h2 element) as [[a x]|]; cbn [exc_bind try_catch fst snd];
    [|simpl; lia].
  destruct (first_truthy [a]); cbn [exc_bind try_catch];
    rewrite length_take; lia.
Qed.

Lemma product_of_shape (idx : Z) (element : search_element)
    (p : search_product) :
  product_of idx element = Some p ->
  sp_index p = idx
  /\ length (sp_asin p) = 10%nat
  /\ (length (sp_title p) <= 120)%nat.
Proof.
  unfold search_product_of.
  destruct (se_data_asin element) as [[asin|]|]; try discriminate.
  destruct (negb (truthy asin) || negb (Nat.eqb (length asin) 10))%bool
    eqn:E; [discriminate|].
  intros [= <-]. cbn [sp_index sp_asin sp_title].
  apply orb_false_iff in E as [_ E]. apply negb_false_iff, Nat.eqb_eq in E.
  split; [reflexivity|]. split; [exact E|apply search_title_short].
Qed.

Lemma products_from (c : Z) (l : list search_element) :
  let ps := omap (fun ie => product_of (fst ie) (snd ie))
                 (imap (fun i x => (Z.of_nat i + c, x)) l) in
  (length ps <= length l)%nat
  /\ increasing_indexes c ps
  /\ Forall (fun p => c <= sp_index p < c + Z.of_nat (length l)
                      /\ length (sp_asin p) = 10%nat
                      /\ (length (sp_title p) <= 120)%nat) ps.
Proof.
  cbv zeta. revert c. induction l as [|x l IH]; intros c.
  - simpl. split; [lia|]. split; [exact I|constructor].
  - cbn [imap omap list_omap fst snd length].
    rewrite (imap_ext _ (fun i x => (Z.of_nat i + (c + 1), x)))
      by (intros i y _; simpl; f_equal; lia).
    destruct (IH (c + 1)) as (Hlen & Hinc & Hall).
    assert (Forall (fun p => c <= sp_index p
                             < c + Z.of_nat (S (length l))
                             /\ length (sp_asin p) = 10%nat
                             /\ (length (sp_title p) <= 120)%nat)
              (omap (fun ie => product_of (fst ie) (snd ie))
                 (imap (fun i x => (Z.of_nat i + (c + 1), x)) l))) as Hall'.
    { eapply List.Forall_impl; [|exact Hall]. simpl.
      intros p (? & ? & ?). repeat split; (lia || assumption). }
    change (Z.of_nat 0 + c) with c.
    destruct (product_of c x) as [p|] eqn:E.
    + destruct (product_of_shape c x p E) as (Hi & Ha & Ht).
      cbn [length]. split; [lia|]. split.
      * simpl. rewrite Hi. split; [lia|exact Hinc].
      * constructor; [|exact Hall']. rewrite Hi.
        repeat split; (lia || assumption).
    + split; [lia|]. split; [|exact Hall'].
      eapply increasing_indexes_weaken; [|exact Hinc]. lia.
Qed.

Lemma slice_to_length {A} (n : Z) (l : list A) :
  (length (slice_to n l) <= length l)%nat
  /\ (0 <= n -> (length (slice_to n l) <= Z.to_nat n)%nat).
Proof.
  unfold slice_to. destruct (Z.leb 0 n) eqn:E.
  - rewrite length_take. split; lia.
  - apply Z.leb_gt in E. rewrite length_take. split; lia.
Qed.

(** X13. The products of a search: there are no more of them than result
    elements, and no more than [max_results] when that is not negative;
    each has an ASIN of exactly ten characters and a title of at most 120;
    and their indexes go strictly up from 1 within the number of results.
    The index is the position among the result elements looked at, so a
    result that is skipped leaves a gap in the indexes. *)
Theorem search_products_well_formed (result_elements : list search_element)
    (max_results : Z) :
  let ps := search_products html_unescape result_elements max_results in
  (length ps <= length result_elements)%nat
  /\ (0 <= max_results -> (length ps <= Z.to_nat max_results)%nat)
  /\ increasing_indexes 1 ps
  /\ Forall (fun p => 1 <= sp_index p <= Z.of_nat (length result_elements)
                      /\ length (sp_asin p) = 10%nat
                      /\ (length (sp_title p) <= 120)%nat) ps.
Proof.
  cbv zeta. unfold search_products, enumerate_from_1.
  destruct (products_from 1 (slice_to max_results result_elements))
    as (Hlen & Hinc & Hall).
  destruct (slice_to_length max_results result_elements) as [Hs1 Hs2].
  split; [lia|]. split; [intros Hn; specialize (Hs2 Hn); lia|].
  split; [exact Hinc|].
  eapply List.Forall_impl; [|exact Hall]. simpl.
  intros p (? & ? & ?). repeat split; (lia || assumption).
Qed.

End SearchProducts.

Lemma search_products_well_formed_witness :
  map sp_index
    (search_products (fun s => s)
       [ sample_result (Some (py "B08N5WRWNW")) "Kettle, 1.7 l";
         sample_result None "Sponsored";
         sample_result (Some (py "B07XYZ12AB")) "Toaster";
         sample_result (Some (py "B000000000")) "Beyond the budget" ]
       3)
  = [1; 3]
  /\ (length
        (search_products (fun s => s)
           [ sample_result (Some (py "B08N5WRWNW")) "Kettle, 1.7 l";
             sample_result None "Sponsored";
             sample_result (Some (py "B07XYZ12AB")) "Toaster";
             sample_result (Some (py "B000000000")) "Beyond the budget" ]
           3) <= 3)%nat.
Proof.
  split; [vm_compute; reflexivity|].
  apply (proj1 (proj2 (search_products_well_formed (fun s => s)
           [ sample_result (Some (py "B08N5WRWNW")) "Kettle, 1.7 l";
             sample_result None "Sponsored";
             sample_result (Some (py "B07XYZ12AB")) "Toaster";
             sample_result (Some (py "B000000000")) "Beyond the budget" ]
           3))).
  lia.
Defined.

(* ===================================================================== *)
(** ** Further properties: ASINs in URLs *)
(* ===================================================================== *)

Lemma take_asin_shape (s g r : pystr) :
  take_asin s = Some (g, r) ->
  length g = 10%nat /\ forallb is_ascii_alnum g = true.
Proof.
  unfold take_asin.
  destruct (Nat.eqb (length (take 10 s)) 10 && _)%bool eqn:E;
    [|discriminate].
  intros [= <- _]. apply andb_true_iff in E as [E1 E2].
  apply Nat.eqb_eq in E1. auto.
Qed.

Lemma asin_pattern_shape (here : pystr -> option pystr) (s g : pystr) :
  In here asin_patterns ->
  here s = Some g ->
  length g = 10%nat /\ forallb is_ascii_alnum g = true.
Proof.
  assert (forall literal, match_literal_asin literal s = Some g ->
            length g = 10%nat /\ forallb is_ascii_alnum g = true) as Hlit.
  { intros literal. unfold match_literal_asin.
    destruct (startswith_ci literal s); [|discriminate].
    destruct (take_asin (drop (length literal) s)) as [[g' r]|] eqn:E;
      [|discriminate].
    intros [= <-]. exact (take_asin_shape _ _ _ E). }
  unfold asin_patterns. simpl.
  intros [<- | [<- | [<- | [<- | [<- | []]]]]]; try apply Hlit.
  unfold match_bare_asin.
  destruct (startswith (py "/") s); [|discriminate].
  destruct (take_asin (drop 1 s)) as [[g' r]|] eqn:E; [|discriminate].
  pose proof (take_asin_shape _ _ _ E) as Hshape.
  destruct r as [|c r'].
  - now intros [= <-].
  - destruct (_ || _)%bool; [|discriminate]. now intros [= <-].
Qed.

Lemma search_with_found (here : pystr -> option pystr) (s g : pystr) :
  search_with here s = Some g -> exists suffix, here suffix = Some g.
Proof.
  induction s as [|c s IH]; simpl.
  - destruct (here []) eqn:E; [|discriminate]. intros [= <-]. eauto.
  - destruct (here (c :: s)) eqn:E; [intros [= <-]; eauto|exact IH].
Qed.

Lemma upper_alnum (c : ascii) :
  is_ascii_alnum c = true ->
  (is_digit (upper_char c) || is_ascii_upper (upper_char c))%bool = true.
Proof.
  destruct c as [[] [] [] [] [] [] [] []]; try discriminate; reflexivity.
Qed.

Lemma asin_char_routed (c : ascii) :
  (is_digit c || is_ascii_upper c)%bool = true ->
  is_alnum_char c = true /\ upper_keeps c = true /\ upper_char c = c
  /\ is_ascii_alnum c = true.
Proof.
  destruct c as [[] [] [] [] [] [] [] []]; try discriminate;
    intros _; repeat split.
Qed.

Lemma asin_is_routed (domain a : pystr) :
  length a = 10%nat ->
  Forall (fun c => (is_digit c || is_ascii_upper c)%bool = true) a ->
  search_route domain a
  = ProductByAsin (py "https://www." ++ domain ++ py "/dp/" ++ a).
Proof.
  intros Hlen Hall. unfold search_route, isalnum, upper_unchanged.
  rewrite Hlen. cbn [Nat.eqb andb].
  assert (truthy a = true) as -> by (destruct a; [discriminate|reflexivity]).
  assert (forallb is_alnum_char a = true /\ forallb upper_keeps a = true)
    as [-> ->]; [|reflexivity].
  clear Hlen.
  induction Hall as [|c l Hc _ [IH1 IH2]]; [split; reflexivity|].
  destruct (asin_char_routed c Hc) as (H1 & H2 & _).
  cbn [forallb]. now rewrite H1, H2, IH1, IH2.
Qed.

(** X14. An ASIN taken from a URL of seven-bit (ASCII) characters is
    well formed: it has exactly ten characters, each a capital letter A-Z
    or a digit (a lowercase ASIN in the URL comes out in capitals), so the
    search operation routes it as an ASIN. The URL has to be ASCII: in
    wider text the class of the patterns, case ignored, also takes the
    dotted capital I and the Kelvin sign, which [upper] leaves as they
    are. A URL without a slash holds no ASIN. *)
Theorem extracted_asin_is_well_formed (url : pystr) :
  (forallb is_ascii7 url = true ->
   forall a, extract_asin_from_url url = Some a ->
     length a = 10%nat
     /\ Forall (fun c => (is_digit c || is_ascii_upper c)%bool = true) a
     /\ forall domain, is_asin_route (search_route domain a) = true)
  /\ (Forall (fun c => c <> "/"%char) url ->
      extract_asin_from_url url = None).
Proof.
  split.
  - intros _ a. unfold extract_asin_from_url.
    destruct (first_some (fun here => search_with here url) asin_patterns)
      as [g|] eqn:E; [|discriminate].
    intros [= <-].
    apply first_some_elim in E as (here & Hin & E).
    apply search_with_found in E as (suffix & E).
    destruct (asin_pattern_shape here suffix g Hin E) as [Hlen Hal].
    assert (length (upper g) = 10%nat) as Hlen'
      by (unfold upper; now rewrite length_map).
    assert (Forall (fun c => (is_digit c || is_ascii_upper c)%bool = true)
              (upper g)) as Hup.
    { unfold upper. apply List.Forall_map.
      rewrite forallb_forall in Hal. apply List.Forall_forall.
      intros c Hc. apply upper_alnum, Hal, Hc. }
    split; [exact Hlen'|]. split; [exact Hup|].
    intros domain. now rewrite (asin_is_routed domain _ Hlen' Hup).
  - intros Hno. unfold extract_asin_from_url.
    assert (forall literal c0 rest s,
              literal = "/"%char :: c0 :: rest ->
              Forall (fun c => c <> "/"%char) s ->
              search_with (match_literal_asin literal) s = None) as Hlit.
    { intros literal c0 rest s -> Hs.
      induction Hs as [|c s Hc _ IH]; [reflexivity|].
      cbn [search_with]. unfold match_literal_asin at 1.
      cbn [startswith_ci]. unfold eq_ci at 1.
      rewrite bool_decide_eq_false_2; [exact IH|].
      revert Hc. clear.
      destruct c as [[] [] [] [] [] [] [] []]; vm_compute; congruence. }
    assert (search_with match_bare_asin url = None) as Hbare.
    { induction Hno as [|c s Hc _ IH]; [reflexivity|].
      cbn [search_with]. unfold match_bare_asin at 1.
      cbn [startswith py list_ascii_of_string].
      now rewrite bool_decide_eq_false_2 by congruence. }
    unfold asin_patterns. cbn [first_some].
    assert (search_with (match_literal_asin (py "/dp/")) url = None) as ->
      by exact (Hlit _ "d"%char (py "p/") url eq_refl Hno).
    assert (search_with (match_literal_asin (py "/gp/product/")) url = None)
      as -> by exact (Hlit _ "g"%char (py "p/product/") url eq_refl Hno).
    assert (search_with (match_literal_asin (py "/product/")) url = None)
      as -> by exact (Hlit _ "p"%char (py "roduct/") url eq_refl Hno).
    rewrite Hbare.
    assert (search_with (match_literal_asin (py "/ASIN/")) url = None)
      as -> by exact (Hlit _ "A"%char (py "SIN/") url eq_refl Hno).
    reflexivity.
Qed.

Lemma extracted_asin_is_well_formed_witness :
  extract_asin_from_url
    (py "https://www.amazon.com/Some-Kettle/dp/b08n5wrwnw/ref=sr_1_1")
  = Some (py "B08N5WRWNW")
  /\ is_asin_route (search_route (py "amazon.com") (py "B08N5WRWNW")) = true
  /\ extract_asin_from_url (py "kettle") = None.
Proof.
  split; [vm_compute; reflexivity|]. split.
  - apply (proj1 (extracted_asin_is_well_formed
                    (py "https://www.amazon.com/Some-Kettle/dp/b08n5wrwnw/ref=sr_1_1"))
             ltac:(reflexivity) (py "B08N5WRWNW")).
    vm_compute. reflexivity.
  - apply (proj2 (extracted_asin_is_well_formed (py "kettle"))).
    repeat constructor; discriminate.
Defined.

Lemma search_dp_skip (c : ascii) (s : pystr) :
  c <> "/"%char ->
  search_with (match_literal_asin (py "/dp/")) (c :: s)
  = search_with (match_literal_asin (py "/dp/")) s.
Proof.
  intros Hc. cbn [search_with]. unfold match_literal_asin at 1.
  cbn [py list_ascii_of_string startswith_ci]. unfold eq_ci at 1.
  rewrite bool_decide_eq_false_2; [reflexivity|].
  revert Hc. clear.
  destruct c as [[] [] [] [] [] [] [] []]; vm_compute; congruence.
Qed.

Lemma search_dp_skip_slash (c : ascii) (s : pystr) :
  lower_char c <> "d"%char ->
  search_with (match_literal_asin (py "/dp/")) ("/"%char :: c :: s)
  = search_with (match_literal_asin (py "/dp/")) (c :: s).
Proof.
  intros Hc. cbn [search_with]. unfold match_literal_asin at 1.
  cbn [py list_ascii_of_string startswith_ci]. unfold eq_ci at 2.
  rewrite (bool_decide_eq_false_2 (lower_char "d" = lower_char c));
    [now rewrite andb_false_r|].
  intros H. apply Hc. rewrite <- H. reflexivity.
Qed.

(** X15. Round trip of an ASIN through the product URL: for an ASIN of
    ten capital letters and digits and a domain without a slash, the URL
    that the search operation builds for the direct lookup gives the same
    ASIN back to [extract_asin_from_url]. *)
Theorem asin_round_trip (domain keyword : pystr) :
  Forall (fun c => c <> "/"%char) domain ->
  length keyword = 10%nat ->
  Forall (fun c => (is_digit c || is_ascii_upper c)%bool = true) keyword ->
  exists url,
    search_route domain keyword = ProductByAsin url
    /\ extract_asin_from_url url = Some keyword.
Proof.
  intros Hdom Hlen Hall.
  exists (py "https://www." ++ domain ++ py "/dp/" ++ keyword).
  split; [now apply asin_is_routed|].
  assert (upper keyword = keyword) as Hup.
  { clear Hlen. induction Hall as [|c l Hc _ IH]; [reflexivity|].
    destruct (asin_char_routed c Hc) as (_ & _ & Hu & _).
    unfold upper in *. simpl. now rewrite Hu, IH. }
  assert (forallb is_ascii_alnum keyword = true) as Hal.
  { clear Hlen Hup. induction Hall as [|c l Hc _ IH]; [reflexivity|].
    destruct (asin_char_routed c Hc) as (_ & _ & _ & Ha).
    simpl. now rewrite Ha, IH. }
  unfold extract_asin_from_url, asin_patterns. cbn [first_some].
  assert (search_with (match_literal_asin (py "/dp/"))
            (py "https://www." ++ domain ++ py "/dp/" ++ keyword)
          = Some keyword) as ->; [|simpl; now rewrite Hup].
  change (py "https://www." ++ ?x)
    with ("h"%char :: "t"%char :: "t"%char :: "p"%char :: "s"%char
          :: ":"%char :: "/"%char :: "/"%char :: "w"%char :: "w"%char
          :: "w"%char :: "."%char :: x).
  rewrite !search_dp_skip by discriminate.
  rewrite search_dp_skip_slash by discriminate.
  rewrite search_dp_skip_slash by discriminate.
  rewrite !search_dp_skip by discriminate.
  induction Hdom as [|c l Hc _ IH].
  - change ([] ++ py "/dp/" ++ keyword)
      with ("/"%char :: "d"%char :: "p"%char :: "/"%char :: keyword).
    cbn [search_with].
    assert (match_literal_asin (py "/dp/")
              ("/"%char :: "d"%char :: "p"%char :: "/"%char :: keyword)
            = Some keyword) as ->; [|reflexivity].
    unfold match_literal_asin.
    change (startswith_ci (py "/dp/")
              ("/"%char :: "d"%char :: "p"%char :: "/"%char :: keyword))
      with true.
    change (drop (length (py "/dp/"))
              ("/"%char :: "d"%char :: "p"%char :: "/"%char :: keyword))
      with keyword.
    unfold take_asin. rewrite take_ge by lia. rewrite Hlen, Hal.
    reflexivity.
  - cbn [app]. now rewrite search_dp_skip by exact Hc.
Qed.

Lemma asin_round_trip_witness :
  search_route (py "amazon.co.uk") (py "B08N5WRWNW")
  = ProductByAsin (py "https://www.amazon.co.uk/dp/B08N5WRWNW")
  /\ extract_asin_from_url (py "https://www.amazon.co.uk/dp/B08N5WRWNW")
     = Some (py "B08N5WRWNW").
Proof.
  destruct (asin_round_trip (py "amazon.co.uk") (py "B08N5WRWNW"))
    as (url & Hroute & Hback).
  - repeat constructor; discriminate.
  - reflexivity.
  - repeat constructor.
  - split; vm_compute; reflexivity.
Defined.

(* ===================================================================== *)
(** ** Further properties: the page number read from the page *)
(* ===================================================================== *)

Lemma search_with_position (here : pystr -> option pystr) (s g : pystr) :
  search_with here s = Some g ->
  exists pre suffix, s = pre ++ suffix /\ here suffix = Some g.
Proof.
  induction s as [|c s IH]; cbn [search_with].
  - destruct (here []) eqn:E; [|discriminate].
    intros [= <-]. exists [], []. auto.
  - destruct (here (c :: s)) eqn:E.
    + intros [= <-]. exists [], (c :: s). auto.
    + intros H. destruct (IH H) as (pre & suffix & -> & Hs).
      exists (c :: pre), suffix. auto.
Qed.

Lemma search_with_reaches (here : pystr -> option pystr)
    (pre suffix g : pystr) :
  here suffix = Some g -> search_with here (pre ++ suffix) <> None.
Proof.
  intros H. induction pre as [|c pre IH].
  - destruct suffix; cbn [app search_with]; now rewrite H.
  - cbn [app search_with]. now destruct (here (c :: pre ++ suffix)).
Qed.

Lemma startswith_split (p s : pystr) :
  startswith p s = true -> s = p ++ drop (length p) s.
Proof.
  revert s. induction p as [|a p IH]; intros s; [reflexivity|].
  destruct s as [|b s]; [discriminate|]. cbn [startswith].
  intros H. apply andb_true_iff in H as [Hab H].
  apply bool_decide_eq_true in Hab as ->.
  cbn [length drop app]. f_equal. exact (IH s H).
Qed.

Lemma startswith_app (p x : pystr) : startswith p (p ++ x) = true.
Proof.
  induction p as [|a p IH]; [reflexivity|]. cbn [app startswith].
  now rewrite bool_decide_eq_true_2, IH.
Qed.

Lemma contains_app (p pre x : pystr) : contains p (pre ++ p ++ x) = true.
Proof.
  induction pre as [|c pre IH].
  - cbn [app]. pose proof (startswith_app p x) as H.
    destruct (p ++ x); cbn [contains]; now rewrite H.
  - cbn [app contains]. rewrite IH. apply orb_true_r.
Qed.

Lemma span_split (p : ascii -> bool) (s : pystr) :
  s = fst (span p s) ++ snd (span p s).
Proof.
  induction s as [|c s IH]; [reflexivity|]. cbn [span].
  destruct (p c); [|reflexivity].
  destruct (span p s) as [a b]. cbn [fst snd app] in *. now f_equal.
Qed.

Lemma int_of_text_value (s : pystr) (n : Z) :
  int_of_text s = Ok n ->
  s <> [] /\ Forall (fun c => is_digit c = true) s /\ n = digits_val s.
Proof.
  unfold int_of_text.
  destruct (truthy s && forallb is_digit s)%bool eqn:E; [|discriminate].
  intros [= <-]. apply andb_true_iff in E as [Ht Hd].
  split; [intros ->; discriminate|]. split; [|reflexivity].
  apply List.Forall_forall. now apply forallb_forall.
Qed.

Lemma match_page_number_shape (s ds : pystr) :
  match_page_number s = Some ds ->
  (exists rest, s = py "pageNumber=" ++ ds ++ rest)
  /\ ds <> [] /\ Forall (fun c => is_digit c = true) ds.
Proof.
  unfold match_page_number.
  destruct (startswith (py "pageNumber=") s) eqn:E; [|discriminate].
  destruct (truthy (fst (span is_digit (drop 11 s)))) eqn:Et; [|discriminate].
  intros [= <-]. split; [|split].
  - exists (snd (span is_digit (drop 11 s))).
    rewrite <- span_split. exact (startswith_split _ _ E).
  - intros Hnil. rewrite Hnil in Et. discriminate.
  - apply span_fst_all.
Qed.

(** X16. The page number is read off the page or is 1: the result of
    [get_current_page_number] is never negative; when it is not 1, it is
    the value of a run of digits that follows [pageNumber=] in the
    location, or the value of the indicator's text, all decimal digits
    once stripped. It is 1 when the location cannot be read. And when the
    location holds [pageNumber=] followed by a digit, the indicator is not
    looked at. *)
Theorem page_number_is_read_off (driver : page_number_view) :
  let n := get_current_page_number driver in
  0 <= n
  /\ (n = 1
      \/ (exists pre ds rest,
            pn_current_url driver = Ok (pre ++ py "pageNumber=" ++ ds ++ rest)
            /\ ds <> [] /\ Forall (fun c => is_digit c = true) ds
            /\ n = digits_val ds)
      \/ (exists t,
            pn_indicator driver = Ok t
            /\ strip t <> []
            /\ Forall (fun c => is_digit c = true) (strip t)
            /\ n = digits_val (strip t)))
  /\ (pn_current_url driver = Raise -> n = 1)
  /\ (forall pre d rest,
        pn_current_url driver = Ok (pre ++ py "pageNumber=" ++ d :: rest) ->
        is_digit d = true ->
        n = get_current_page_number
              {| pn_current_url := pn_current_url driver;
                 pn_indicator := Raise |}).
Proof.
  cbv zeta.
  assert (get_current_page_number driver = 1
          \/ (exists pre ds rest,
                pn_current_url driver
                = Ok (pre ++ py "pageNumber=" ++ ds ++ rest)
                /\ ds <> [] /\ Forall (fun c => is_digit c = true) ds
                /\ get_current_page_number driver = digits_val ds)
          \/ (exists t,
                pn_indicator driver = Ok t
                /\ strip t <> []
                /\ Forall (fun c => is_digit c = true) (strip t)
                /\ get_current_page_number driver = digits_val (strip t)))
    as Hcases.
  { unfold get_current_page_number.
    destruct (pn_current_url driver) as [u|]; [|left; reflexivity].
    cbn [exc_bind].
    destruct (if contains (py "pageNumber=") u
              then search_with match_page_number u else None)
      as [ds|] eqn:Em.
    - destruct (contains (py "pageNumber=") u); [|discriminate].
      apply search_with_position in Em as (pre & suffix & -> & Hm).
      apply match_page_number_shape in Hm as ((rest & ->) & Hne & Hds).
      destruct (int_of_text ds) as [n|] eqn:En; [|left; reflexivity].
      apply int_of_text_value in En as (_ & _ & ->).
      right; left. exists pre, ds, rest. cbn [try_catch]. auto.
    - cbn [try_catch].
      destruct (pn_indicator driver) as [t|]; [|left; reflexivity].
      cbn [exc_bind].
      destruct (isdigit (strip t)); [|left; reflexivity].
      destruct (int_of_text (strip t)) as [n|] eqn:En; [|left; reflexivity].
      apply int_of_text_value in En as (Hne & Hds & ->).
      right; right. exists t. cbn [try_catch]. auto. }
  split; [|split; [exact Hcases|split]].
  - destruct Hcases as [-> | [(pre & ds & rest & _ & _ & Hds & ->)
                             | (t & _ & _ & Hds & ->)]];
      [lia|now apply digits_val_nonneg|now apply digits_val_nonneg].
  - unfold get_current_page_number. now intros ->.
  - intros pre d rest Hu Hd. unfold get_current_page_number.
    cbn [pn_current_url pn_indicator]. rewrite Hu. cbn [exc_bind].
    rewrite contains_app.
    destruct (search_with match_page_number
                (pre ++ py "pageNumber=" ++ d :: rest)) as [ds|] eqn:Em;
      [reflexivity|].
    exfalso. revert Em.
    apply (search_with_reaches _ _ _
             (fst (span is_digit (d :: rest)))).
    unfold match_page_number. rewrite startswith_app.
    change (drop 11 (py "pageNumber=" ++ d :: rest)) with (d :: rest).
    cbn [span]. rewrite Hd. now destruct (span is_digit rest).
Qed.

Lemma page_number_is_read_off_witness :
  get_current_page_number
    {| pn_current_url :=
         Ok (py "https://www.amazon.com/product-reviews/B08N5WRWNW/?pageNumber=3");
       pn_indicator := Ok (py "7") |}
  = get_current_page_number
      {| pn_current_url :=
           Ok (py "https://www.amazon.com/product-reviews/B08N5WRWNW/?pageNumber=3");
         pn_indicator := Raise |}
  /\ get_current_page_number
       {| pn_current_url := Raise; pn_indicator := Ok (py "7") |} = 1.
Proof.
  split.
  - apply (proj2 (proj2 (proj2 (page_number_is_read_off
             {| pn_current_url :=
                  Ok (py "https://www.amazon.com/product-reviews/B08N5WRWNW/?pageNumber=3");
                pn_indicator := Ok (py "7") |})))
             (py "https://www.amazon.com/product-reviews/B08N5WRWNW/?")
             "3"%char []);
      reflexivity.
  - apply (proj1 (proj2 (proj2 (page_number_is_read_off
             {| pn_current_url := Raise; pn_indicator := Ok (py "7") |})))).
    reflexivity.
Defined.

(* ===================================================================== *)
(** ** Further properties: the review containers of a page *)
(* ===================================================================== *)

Lemma validate_review_element_true (element : candidate) :
  validate_review_element element = true ->
  exists t others n,
    cd_review_bodies element = Ok (Ok t :: others)
    /\ cd_ratings element = Ok n /\ (0 < n)%nat
    /\ (10 < length (strip t))%nat.
Proof.
  unfold validate_review_element.
  destruct (cd_review_bodies element) as [[|[t|] others]|];
    cbn [exc_bind try_catch]; try discriminate;
    destruct (cd_ratings element) as [n|];
    cbn [exc_bind try_catch]; try discriminate;
    destruct (Nat.ltb 0 n) eqn:En; cbn [exc_bind try_catch];
    try discriminate.
  intros H. apply andb_true_iff in H as [_ H].
  apply Nat.ltb_lt in En, H. exists t, others, n. auto.
Qed.

Lemma first_found_shape (answers : list (exc (list candidate)))
    (l : list candidate) :
  first_found answers = Some l ->
  exists elements,
    In (Ok elements) answers
    /\ l = List.filter validate_review_element elements.
Proof.
  induction answers as [|a answers IH]; [discriminate|].
  cbn [first_found].
  destruct a as [[|e elements]|].
  - intros H. destruct (IH H) as (x & Hin & ->). exists x. split; [now right|auto].
  - intros [= <-]. exists (e :: elements). split; [now left|auto].
  - intros H. destruct (IH H) as (x & Hin & ->). exists x. split; [now right|auto].
Qed.

(** X17. The containers that [find_review_elements] returns all pass
    [validate_review_element]: each has a first body element whose text
    can be read and has more than 10 characters once stripped, and at
    least one rating element. They are the valid elements of one
    selector's answer, in the order of the page. The XPath expressions are
    used only when the first CSS selector that finds anything finds no
    valid container. *)
Theorem found_elements_are_valid (css xpaths : list (exc (list candidate))) :
  let found := find_review_elements css xpaths in
  Forall (fun element =>
            validate_review_element element = true
            /\ exists t others n,
                 cd_review_bodies element = Ok (Ok t :: others)
                 /\ cd_ratings element = Ok n /\ (0 < n)%nat
                 /\ (10 < length (strip t))%nat) found
  /\ (found = []
      \/ exists elements,
           (In (Ok elements) css \/ In (Ok elements) xpaths)
           /\ found = List.filter validate_review_element elements)
  /\ (forall e l, first_found css = Some (e :: l) -> found = e :: l).
Proof.
  cbv zeta.
  assert (find_review_elements css xpaths = []
          \/ exists elements,
               (In (Ok elements) css \/ In (Ok elements) xpaths)
               /\ find_review_elements css xpaths
                  = List.filter validate_review_element elements) as Hsrc.
  { unfold find_review_elements.
    destruct (first_found css) as [[|e l]|] eqn:Ec; cbn [default].
    - destruct (first_found xpaths) as [lx|] eqn:Ex; cbn [default];
        [|now left].
      apply first_found_shape in Ex as (elements & Hin & ->).
      right. exists elements. auto.
    - apply first_found_shape in Ec as (elements & Hin & Heq).
      right. exists elements. split; [now left|exact Heq].
    - destruct (first_found xpaths) as [lx|] eqn:Ex; cbn [default];
        [|now left].
      apply first_found_shape in Ex as (elements & Hin & ->).
      right. exists elements. auto. }
  split; [|split; [exact Hsrc|]].
  - destruct Hsrc as [-> | (elements & _ & ->)]; [constructor|].
    apply List.Forall_forall. intros x Hx.
    apply filter_In in Hx as [_ Hx].
    split; [exact Hx|now apply validate_review_element_true].
  - intros e l Hc. unfold find_review_elements. now rewrite Hc.
Qed.

Lemma found_elements_are_valid_witness :
  find_review_elements
    [Raise; Ok [unrated_candidate; rated_candidate]; Ok [unrated_candidate]]
    [Ok [unrated_candidate]]
  = [rated_candidate].
Proof.
  apply (proj2 (proj2 (found_elements_are_valid
           [Raise; Ok [unrated_candidate; rated_candidate];
            Ok [unrated_candidate]]
           [Ok [unrated_candidate]])) rated_candidate []).
  vm_compute. reflexivity.
Defined.

(* ===================================================================== *)
(** ** Further properties: the page check of the pagination loop *)
(* ===================================================================== *)

Section PageCheck.

Variable str_float : pyfloat -> pystr.
Variable md5_hexdigest : pystr -> pystr.

Local Abbreviation pages_loop :=
  (Session.pages_loop str_float md5_hexdigest).
Local Abbreviation extend_with :=
  (Session.extend_with str_float md5_hexdigest).

(** X18. The page check after a click stops the pagination only on page
    1. When the click on the next button succeeded for a page other than
    1 and the page number is then read as 1 (in particular when the
    location cannot be read), the loop ends without an error and leaves
    the session as it was. When any other number is read, even one that
    is not the expected page, the page is extracted and its records are
    added under the expected page number. *)
Theorem page_check_stops_only_on_page_one (nav : Z -> nav_step)
    (driver : page_number_view) (page : Z) (rest : list Z) (s : session) :
  nv_current_page (nav page) = get_current_page_number driver ->
  nv_fault_before (nav page) = false ->
  click_next_page_button (nv_next_probes (nav page)) = Ok true ->
  page <> 1 ->
  (pn_current_url driver = Raise ->
   pages_loop nav (page :: rest) s = (Ok tt, s))
  /\ (get_current_page_number driver = 1 ->
      pages_loop nav (page :: rest) s = (Ok tt, s))
  /\ (get_current_page_number driver <> 1 ->
      snd (pages_loop nav (page :: rest) s)
      = snd (if nv_fault_after (nav page)
             then (Raise, extend_with (nv_found (nav page)) page s)
             else pages_loop nav rest
                    (extend_with (nv_found (nav page)) page s))
      /\ exists added,
           all_reviews (extend_with (nv_found (nav page)) page s)
           = all_reviews s ++ added
           /\ Forall (fun k : kept => ReviewData.page (snd k) = page) added).
Proof.
  intros Hcur Hbefore Hclick Hpage.
  assert (get_current_page_number driver = 1 ->
          pages_loop nav (page :: rest) s = (Ok tt, s)) as Hone.
  { intros H1. cbn [Session.pages_loop].
    rewrite Hbefore, Hclick, Hcur, H1. cbn [negb].
    destruct (Z.eqb 1 page) eqn:E; [apply Z.eqb_eq in E; congruence|].
    reflexivity. }
  split; [|split; [exact Hone|]].
  - intros Hraise. apply Hone. unfold get_current_page_number.
    now rewrite Hraise.
  - intros Hn. split.
    + cbn [Session.pages_loop]. rewrite Hbefore, Hclick, Hcur. cbn [negb].
      destruct (Z.eqb (get_current_page_number driver) 1) eqn:E;
        [apply Z.eqb_eq in E; contradiction|].
      rewrite andb_false_r.
      now destruct (nv_fault_after (nav page)).
    + destruct (extend_with_spec str_float md5_hexdigest
                  (nv_found (nav page)) page s) as [-> _].
      eexists. split; [reflexivity|].
      destruct (extract_page_spec str_float md5_hexdigest
                  (nv_found (nav page)) page (collected_review_ids s))
        as (_ & Htag & _).
      exact Htag.
Qed.

End PageCheck.

Lemma page_check_stops_only_on_page_one_witness :
  pages_loop sample_str_float sample_md5 lost_page_nav [2; 3]
    _initialize_scraping_session
  = (Ok tt, _initialize_scraping_session).
Proof.
  apply (proj1 (page_check_stops_only_on_page_one sample_str_float
                  sample_md5 lost_page_nav unreadable_page 2 [3]
                  _initialize_scraping_session
                  eq_refl eq_refl ltac:(vm_compute; reflexivity)
                  ltac:(discriminate))).
  reflexivity.
Defined.

(* ===================================================================== *)
(** ** Further properties: credentials *)
(* ===================================================================== *)

Lemma auto_login_of_shape (ep : option pystr * option pystr)
    (a : AmazonAutoLogin) :
  auto_login_of ep = Some a ->
  exists e p, ep = (Some e, Some p) /\ a = new_auto_login e p
              /\ truthy e = true /\ truthy p = true.
Proof.
  unfold auto_login_of. destruct ep as [[e|] [p|]]; try discriminate.
  destruct (truthy e && truthy p)%bool eqn:E; [|discriminate].
  intros [= <-]. apply andb_true_iff in E as [He Hp].
  exists e, p. repeat split; auto.
Qed.

Lemma setup_credentials_shape (c : console) (e p : option pystr) :
  setup_credentials c = Ok (e, p) ->
  (e = None /\ p = None)
  \/ exists e0 p0,
       in_email c = Ok e0 /\ in_password c = Ok p0
       /\ e = Some (strip e0) /\ p = Some (strip p0)
       /\ truthy (strip e0) = true /\ truthy (strip p0) = true.
Proof.
  unfold setup_credentials.
  destruct (in_email c) as [e0|]; [|discriminate].
  destruct (in_password c) as [p0|]; [|discriminate]. cbn [exc_bind].
  destruct (negb (truthy (strip e0)) || negb (truthy (strip p0)))%bool
    eqn:E; intros [= <- <-]; [now left|].
  apply orb_false_iff in E as [He Hp].
  apply negb_false_iff in He, Hp.
  right. exists e0, p0. repeat split; auto.
Qed.

(** X19. Credentials come in pairs. [check_and_setup] returns either no
    credentials at all or an email and a password that are both non-empty;
    what was typed at the prompts is stripped. The login handler that the
    scraper's constructor sets up, when there is one, holds a non-empty
    email and a non-empty password and allows two attempts. Credentials
    given to the constructor take precedence: the environment and the
    prompts are then not used. A prompt that fails leaves the scraper
    without a login handler. *)
Theorem credentials_come_in_pairs (arg_email arg_password : option pystr)
    (env_email env_password : option pystr) (c : console) :
  (forall e p,
     check_and_setup env_email env_password c = Ok (e, p) ->
     (e = None /\ p = None)
     \/ (present e = true /\ present p = true
         /\ ((e = env_email /\ p = env_password)
             \/ exists e0 p0, e = Some (strip e0) /\ p = Some (strip p0))))
  /\ (forall a,
        configure_auto_login arg_email arg_password env_email env_password c
        = Some a ->
        truthy (email a) = true /\ truthy (password a) = true
        /\ max_retries a = 2)
  /\ (forall e p,
        arg_email = Some e -> arg_password = Some p ->
        truthy e = true -> truthy p = true ->
        configure_auto_login arg_email arg_password env_email env_password c
        = Some (new_auto_login e p))
  /\ (present arg_email = false \/ present arg_password = false ->
      present env_email = false \/ present env_password = false ->
      in_choice c = Raise ->
      configure_auto_login arg_email arg_password env_email env_password c
      = None).
Proof.
  split; [|split; [|split]].
  - intros e p. unfold check_and_setup.
    destruct (negb (present env_email) || negb (present env_password))%bool
      eqn:E.
    + destruct (in_choice c) as [answer|]; [|discriminate]. cbn [exc_bind].
      destruct (pystr_eqb (strip (lower answer)) (py "y"));
        [|intros [= <- <-]; now left].
      intros H. apply setup_credentials_shape in H
        as [H | (e0 & p0 & _ & _ & -> & -> & He & Hp)]; [now left|].
      right. cbn [present]. split; [exact He|]. split; [exact Hp|].
      right. exists e0, p0. repeat split; auto.
    + intros [= <- <-]. apply orb_false_iff in E as [He Hp].
      apply negb_false_iff in He, Hp. right. repeat split; auto.
  - intros a. unfold configure_auto_login.
    destruct (auto_login_of (arg_email, arg_password)) as [a0|] eqn:E0.
    + intros [= <-].
      apply auto_login_of_shape in E0 as (e & p & _ & -> & He & Hp).
      cbn [email password max_retries new_auto_login]. repeat split; auto.
    + destruct (check_and_setup env_email env_password c) as [ep|];
        cbn [exc_bind try_catch]; [|discriminate].
      intros H. apply auto_login_of_shape in H as (e & p & _ & -> & He & Hp).
      cbn [email password max_retries new_auto_login]. repeat split; auto.
  - intros e p -> -> He Hp. unfold configure_auto_login, auto_login_of.
    now rewrite He, Hp.
  - intros Harg Henv Hc. unfold configure_auto_login.
    assert (auto_login_of (arg_email, arg_password) = None) as ->.
    { unfold auto_login_of. destruct arg_email as [e|], arg_password as [p|];
        try reflexivity. cbn [present] in Harg.
      destruct Harg as [-> | ->]; [reflexivity|now rewrite andb_false_r]. }
    unfold check_and_setup.
    assert ((negb (present env_email) || negb (present env_password))%bool
            = true) as ->.
    { destruct Henv as [-> | ->]; [reflexivity|apply orb_true_r]. }
    now rewrite Hc.
Qed.

Lemma credentials_come_in_pairs_witness :
  configure_auto_login None None (Some (py "me@example.com")) None
    typing_operator
  = Some (new_auto_login (py "me@example.com") (py "secret"))
  /\ max_retries (new_auto_login (py "me@example.com") (py "secret")) = 2.
Proof.
  split; [vm_compute; reflexivity|].
  apply (proj1 (proj2 (credentials_come_in_pairs None None
                         (Some (py "me@example.com")) None
                         typing_operator))
           (new_auto_login (py "me@example.com") (py "secret"))).
  vm_compute. reflexivity.
Defined.

(* ===================================================================== *)
(** ** Further properties: the name of the CSV file *)
(* ===================================================================== *)

Lemma safe_char (c : ascii) :
  (is_word_char c || is_space c)%bool = true ->
  let c' := if bool_decide (c = " "%char) then "_"%char else c in
  (is_word_char c' || is_space c')%bool = true
  /\ c' <> " "%char /\ c' <> "/"%char /\ c' <> "."%char /\ c' <> ":"%char
  /\ code c' <> 92%N.
Proof.
  destruct c as [[] [] [] [] [] [] [] []]; intros H;
    try discriminate H; cbv zeta;
    (split; [reflexivity|]); repeat split; discriminate.
Qed.

Lemma filter_fixed {A} (f : A -> bool) (l : list A) :
  Forall (fun x => f x = true) l -> List.filter f l = l.
Proof.
  induction 1 as [|x l Hx _ IH]; [reflexivity|].
  cbn [List.filter]. now rewrite Hx, IH.
Qed.

(** X20. The keyword part of the file name is safe: it has at most 20
    characters; each is a word character or white space, and none is a
    space, a slash, a backslash (code 92), a dot or a colon. Making it
    safe again changes nothing. White space other than the space itself,
    a line feed or a tab for one, is kept as it is. *)
Theorem safe_keyword_is_safe (keyword : pystr) :
  (length (safe_keyword keyword) <= 20)%nat
  /\ Forall (fun c =>
               (is_word_char c || is_space c)%bool = true
               /\ c <> " "%char /\ c <> "/"%char /\ c <> "."%char
               /\ c <> ":"%char /\ code c <> 92%N)
            (safe_keyword keyword)
  /\ safe_keyword (safe_keyword keyword) = safe_keyword keyword
  /\ (Forall (fun c => is_space c = true /\ c <> " "%char) keyword ->
      safe_keyword keyword = prefix 20 keyword).
Proof.
  assert (length (safe_keyword keyword) <= 20)%nat as Hlen.
  { unfold safe_keyword, prefix. rewrite length_take. lia. }
  assert (Forall (fun c =>
                    (is_word_char c || is_space c)%bool = true
                    /\ c <> " "%char /\ c <> "/"%char /\ c <> "."%char
                    /\ c <> ":"%char /\ code c <> 92%N)
            (safe_keyword keyword)) as Hall.
  { unfold safe_keyword, prefix. apply Forall_take.
    apply List.Forall_forall. intros x Hx.
    apply in_map_iff in Hx as (c & <- & Hc).
    apply filter_In in Hc as [_ Hc]. exact (safe_char c Hc). }
  split; [exact Hlen|]. split; [exact Hall|]. split.
  - set (l := safe_keyword keyword) in *.
    unfold safe_keyword at 1. unfold prefix.
    rewrite filter_fixed
      by (eapply List.Forall_impl; [|exact Hall]; simpl; tauto).
    assert (map (fun c => if bool_decide (c = " "%char) then "_"%char else c)
              l = l) as ->.
    { clear Hlen. induction Hall as [|c l' (_ & Hc & _) _ IH];
        [reflexivity|].
      cbn [map]. rewrite bool_decide_eq_false_2 by exact Hc.
      now rewrite IH. }
    apply take_ge. exact Hlen.
  - intros Hws. unfold safe_keyword.
    rewrite filter_fixed
      by (eapply List.Forall_impl; [|exact Hws]; simpl;
          intros c [-> _]; apply orb_true_r).
    f_equal. clear Hlen Hall.
    induction Hws as [|c l' [_ Hc] _ IH]; [reflexivity|].
    cbn [map]. rewrite bool_decide_eq_false_2 by exact Hc.
    now rewrite IH.
Qed.

Lemma safe_keyword_is_safe_witness :
  safe_keyword [newline; newline] = [newline; newline]
  /\ safe_keyword (py "best kettle: 1.7 l / fast") = py "best_kettle_17_l__fa".
Proof.
  split; [|vm_compute; reflexivity].
  apply (proj2 (proj2 (proj2 (safe_keyword_is_safe [newline; newline])))).
  repeat constructor; discriminate.
Defined.

(* ===================================================================== *)
(** ** Further properties: the title and the validation of a product *)
(* ===================================================================== *)

Lemma product_title_step_shape (probe : exc pystr) (title : pystr) :
  product_title_step probe = Some title ->
  exists t, probe = Ok t /\ title = prefix 150 (strip t)
            /\ (4 <= length title <= 150)%nat /\ no_lead title.
Proof.
  unfold product_title_step. destruct probe as [t|]; [|discriminate].
  destruct (truthy (strip t) && Nat.ltb 3 (length (strip t)))%bool eqn:E;
    [|discriminate].
  intros H. assert (title = prefix 150 (strip t)) as -> by congruence.
  clear H. apply andb_true_iff in E as [_ E]. apply Nat.ltb_lt in E.
  exists t. split; [reflexivity|]. split; [reflexivity|].
  unfold prefix. split; [rewrite length_take; lia|].
  destruct (strip_stripped t) as [Hlead _].
  destruct (strip t) as [|c s]; [exact I|exact Hlead].
Qed.

(** X21. The title of a product page: [_extract_product_title] either
    leaves the title as it was and records one more extraction error, or
    stores the stripped text of one of the elements found, cut at 150
    characters: a title of 4 to 150 characters that does not start with
    white space, with the errors left as they were. No other field
    changes. *)
Theorem product_title_is_bounded (probes : list (exc pystr))
    (info : product_info) :
  let info' := _extract_product_title probes info in
  ((pi_title info' = pi_title info
    /\ pi_extraction_errors info'
       = pi_extraction_errors info
         ++ [py "Title not found with any selector"])
   \/ (exists t, In (Ok t) probes
                 /\ pi_title info' = prefix 150 (strip t)
                 /\ (4 <= length (pi_title info') <= 150)%nat
                 /\ no_lead (pi_title info')
                 /\ pi_extraction_errors info' = pi_extraction_errors info))
  /\ pi_index info' = pi_index info
  /\ pi_asin info' = pi_asin info
  /\ pi_price info' = pi_price info
  /\ pi_rating info' = pi_rating info
  /\ pi_reviews_count info' = pi_reviews_count info.
Proof.
  cbv zeta. unfold _extract_product_title.
  destruct (first_some product_title_step probes) as [title|] eqn:E;
    cbn [pi_index pi_asin pi_title pi_price pi_rating pi_reviews_count
         pi_extraction_errors];
    (split; [|repeat split]).
  - right. apply first_some_elim in E as (probe & Hin & E).
    apply product_title_step_shape in E as (t & -> & -> & Hlen & Hlead).
    exists t. repeat split; auto; lia.
  - left. split; reflexivity.
Qed.

(** X22. After [_validate_product_info] none of the five required
    fields is empty. Validating twice is validating once, a record with
    no empty required field is left as it is, and the index and the list
    of extraction errors are never touched. *)
Theorem validated_fields_are_filled (info : product_info) :
  Forall (fun v => v <> []) (required_fields (_validate_product_info info))
  /\ _validate_product_info (_validate_product_info info)
     = _validate_product_info info
  /\ (Forall (fun v => v <> []) (required_fields info) ->
      _validate_product_info info = info)
  /\ pi_index (_validate_product_info info) = pi_index info
  /\ pi_extraction_errors (_validate_product_info info)
     = pi_extraction_errors info.
Proof.
  assert (forall v, or_not_available v <> []) as Hfilled.
  { intros v. unfold or_not_available, truthy.
    destruct v; [discriminate|discriminate]. }
  assert (forall v, v <> [] -> or_not_available v = v) as Hkept.
  { intros v Hv. unfold or_not_available, truthy.
    now rewrite bool_decide_eq_false_2 by exact Hv. }
  split; [|split; [|split; [|split; reflexivity]]].
  - unfold required_fields, _validate_product_info.
    cbn [pi_asin pi_title pi_price pi_rating pi_reviews_count].
    repeat constructor; apply Hfilled.
  - unfold _validate_product_info.
    cbn [pi_index pi_asin pi_title pi_price pi_rating pi_reviews_count
         pi_extraction_errors].
    now rewrite !(fun v => Hkept (or_not_available v) (Hfilled v)).
  - unfold required_fields. intros H.
    inversion H as [|? ? H1 H']; subst.
    inversion H' as [|? ? H2 H'']; subst.
    inversion H'' as [|? ? H3 H''']; subst.
    inversion H''' as [|? ? H4 H'''']; subst.
    inversion H'''' as [|? ? H5 _]; subst.
    unfold _validate_product_info. rewrite !Hkept by assumption.
    now destruct info.
Qed.

Lemma validated_fields_are_filled_witness :
  _validate_product_info _initialize_product_info = _initialize_product_info.
Proof.
  apply (proj1 (proj2 (proj2 (validated_fields_are_filled
                                _initialize_product_info)))).
  repeat constructor; discriminate.
Defined.

(* ===================================================================== *)
(** ** Further properties: what a session does not do *)
(* ===================================================================== *)

Section SessionLimits.

Variable str_float : pyfloat -> pystr.
Variable md5_hexdigest : pystr -> pystr.

Local Abbreviation scrape_session :=
  (Session.scrape_session str_float md5_hexdigest).
Local Abbreviation scrape_reviews_for_product :=
  (Session.scrape_reviews_for_product str_float md5_hexdigest).
Local Abbreviation extend_with :=
  (Session.extend_with str_float md5_hexdigest).

(** X23. No reviews without a login: when [_handle_login_for_reviews]
    does not answer true (it answers false or raises), the scrape returns
    the empty list and marks no identity as seen, whatever the page
    shows. Without credentials this is so as soon as the location holds
    [/ap/signin], in whatever case. *)
Theorem no_reviews_without_login (domain product_asin : pystr)
    (max_pages : Z) (w : session_world) :
  let url :=
    py "https://www." ++ domain ++ py "/product-reviews/" ++ product_asin
    ++ py "/" in
  (_handle_login_for_reviews (sw_login w) url <> Ok true ->
   snd (scrape_session domain product_asin max_pages w)
   = _initialize_scraping_session
   /\ scrape_reviews_for_product domain product_asin max_pages w = [])
  /\ (forall u,
        ls_auto_login (sw_login w) = None ->
        ps_current_url (ls_page (sw_login w)) = Ok u ->
        contains (py "/ap/signin") (lower u) = true ->
        scrape_reviews_for_product domain product_asin max_pages w = []).
Proof.
  cbv zeta.
  assert (_handle_login_for_reviews (sw_login w)
            (py "https://www." ++ domain ++ py "/product-reviews/"
             ++ product_asin ++ py "/") <> Ok true ->
          snd (scrape_session domain product_asin max_pages w)
          = _initialize_scraping_session
          /\ scrape_reviews_for_product domain product_asin max_pages w = [])
    as Hmain.
  { intros Hlogin.
    assert (snd (scrape_session domain product_asin max_pages w)
            = _initialize_scraping_session) as Hs.
    { unfold Session.scrape_session, Session.scrape_body.
      destruct (_handle_login_for_reviews _ _) as [[]|];
        [contradiction|reflexivity|reflexivity]. }
    split; [exact Hs|].
    unfold Session.scrape_reviews_for_product. now rewrite Hs. }
  split; [exact Hmain|].
  intros u Hnone Hu Hsignin. apply Hmain.
  unfold _handle_login_for_reviews. rewrite Hnone, Hu. cbn [exc_bind].
  rewrite Hsignin. discriminate.
Qed.

(** X24. A page budget of at most 1, zero and negative budgets included,
    still scrapes page 1 and nothing else: the next-page navigation is
    never attempted, so the result does not depend on it, and after a
    successful login without a fault the session is that of page 1. *)
Theorem single_page_budget (domain product_asin : pystr) (max_pages : Z)
    (w : session_world) :
  max_pages <= 1 ->
  (forall nav,
     scrape_session domain product_asin max_pages w
     = scrape_session domain product_asin max_pages
         {| sw_login := sw_login w; sw_page1 := sw_page1 w;
            sw_fault_after_page1 := sw_fault_after_page1 w;
            sw_nav := nav |})
  /\ (_handle_login_for_reviews (sw_login w)
        (py "https://www." ++ domain ++ py "/product-reviews/"
         ++ product_asin ++ py "/") = Ok true ->
      sw_fault_after_page1 w = false ->
      scrape_session domain product_asin max_pages w
      = (Ok true,
         extend_with (sw_page1 w) 1 _initialize_scraping_session)).
Proof.
  intros Hmax.
  assert (py_range 2 (max_pages + 1) = []) as Hrange.
  { unfold py_range. replace (Z.to_nat (max_pages + 1 - 2)) with 0%nat by lia.
    reflexivity. }
  split.
  - intros nav. unfold Session.scrape_session, Session.scrape_body.
    cbn [sw_login sw_page1 sw_fault_after_page1 sw_nav].
    unfold _scrape_reviews_from_pages. rewrite Hrange. reflexivity.
  - intros Hlogin Hfault.
    unfold Session.scrape_session, Session.scrape_body.
    rewrite Hlogin, Hfault. unfold _scrape_reviews_from_pages.
    rewrite Hrange. reflexivity.
Qed.

End SessionLimits.

Lemma no_reviews_without_login_witness :
  scrape_reviews_for_product sample_str_float sample_md5
    (py "amazon.com") (py "B08N5WRWNW") 5 signin_world = [].
Proof.
  apply (proj1 (no_reviews_without_login sample_str_float sample_md5
                  (py "amazon.com") (py "B08N5WRWNW") 5 signin_world)).
  vm_compute. discriminate.
Defined.

Lemma single_page_budget_witness :
  length (scrape_reviews_for_product sample_str_float sample_md5
            (py "amazon.com") (py "B08N5WRWNW") 0
            (two_page_world [review_a] [review_b])) = 1%nat.
Proof.
  unfold scrape_reviews_for_product.
  rewrite (proj2 (single_page_budget sample_str_float sample_md5
                    (py "amazon.com") (py "B08N5WRWNW") 0
                    (two_page_world [review_a] [review_b])
                    ltac:(lia))
             ltac:(vm_compute; reflexivity) eq_refl).
  vm_compute. reflexivity.
Defined.
